(** * Six-stroke engine simulation: a model of [six-stroke-engine.cpp]

    The development embeds the simulation core of the repository
    (the [Gearbox] and [SixStrokeEngine] classes) and proves properties of
    the gear-selection state machine, the per-tick dynamics update and the
    performance recomputation.

    Numeric model.  Every C++ [double] is modelled by an exact rational
    ([Q]): the four arithmetic operations are exact, comparisons are the
    usual order, and neither rounding nor infinities nor NaN exist.  The C++
    [int] fields (gear index, cylinder count, the results of [std::rand])
    are modelled by [Z]; they stay far from the 32-bit range.  The two
    calls to libm's [pow] are taken as a parameter [pow] of the model.

    One property, the scaling of the thermal efficiency by the water
    injection, turns on rounding.  For it the performance recomputation
    is modelled a second time in binary64 arithmetic (module
    [Binary64]), on the kernel's primitive floats. *)

From Stdlib Require Import ZArith QArith Qabs String Ascii List Bool.
From Stdlib Require Import Lia Lqa DecimalString Setoid.
From Corelib Require PrimInt63 PrimFloat.
Import ListNotations.

Local Open Scope Q_scope.

(** ** Arithmetic of [double] values *)

(** [a < b] on doubles, as a boolean. *)
Definition Qltb (x y : Q) : bool :=
  (Qnum x * QDen y <? Qnum y * QDen x)%Z.

(** [std::max(a, b)] is [(a < b) ? b : a]. *)
Definition std_max (a b : Q) : Q := if Qltb a b then b else a.

(** [std::min(a, b)] is [(b < a) ? b : a]. *)
Definition std_min (a b : Q) : Q := if Qltb b a then b else a.

(** [std::abs] on doubles. *)
Definition std_abs (x : Q) : Q := Qabs x.

(** [std::to_string] on an [int]. *)
Definition to_string (n : Z) : string := NilZero.string_of_int (Z.to_int n).

(** The constant [PI] of the source (line 16). *)
Definition PI : Q := 3.14159265358979323846.

(** ** [std::map<std::string, bool>]

    A [std::map] keeps its entries ordered by key and holds each key once.
    It is modelled by an association list kept in increasing key order;
    iteration (the range-for of [update_performance]) visits the list from
    left to right. *)
Module StdMap.

Definition t : Type := list (string * bool).

Definition empty : t := [].

(** [m.count(k)] *)
Fixpoint count (k : string) (m : t) : Z :=
  match m with
  | [] => 0%Z
  | (k', _) :: m' => if String.eqb k k' then 1%Z else count k m'
  end.

(** [m.find(k)], as an option *)
Fixpoint find (k : string) (m : t) : option bool :=
  match m with
  | [] => None
  | (k', v) :: m' => if String.eqb k k' then Some v else find k m'
  end.

(** [m[k] = v]: overwrite the entry of [k], or insert it at its place. *)
Fixpoint assign (k : string) (v : bool) (m : t) : t :=
  match m with
  | [] => [(k, v)]
  | (k', v') :: m' =>
      match String.compare k k' with
      | Eq => (k', v) :: m'
      | Lt => (k, v) :: (k', v') :: m'
      | Gt => (k', v') :: assign k v m'
      end
  end.

Definition keys (m : t) : list string := map fst m.

End StdMap.

(** ** The gearbox (lines 29-49) *)
Module Gearbox.

Record t : Type := mk {
  gear_ratios : list Q;
  current_gear : Z
}.

(** [Gearbox::Gearbox()] *)
Definition make : t :=
  {| gear_ratios := [3.42; 2.14; 1.45; 1.0; 0.83]; current_gear := 1 |}.

(** [gear_ratios[current_gear - 1]]; an index outside the vector, which
    the program never forms, reads as [0] here. *)
Definition get_current_ratio (g : t) : Q :=
  nth (Z.to_nat (current_gear g - 1)) (gear_ratios g) 0.

Definition shift_up (g : t) : t :=
  if (current_gear g <? Z.of_nat (length (gear_ratios g)))%Z
  then {| gear_ratios := gear_ratios g; current_gear := current_gear g + 1 |}
  else g.

Definition shift_down (g : t) : t :=
  if (current_gear g >? 1)%Z
  then {| gear_ratios := gear_ratios g; current_gear := current_gear g - 1 |}
  else g.

Definition get_current_gear (g : t) : Z := current_gear g.

End Gearbox.

(** ** The engine (class [SixStrokeEngine]) *)
Module SixStrokeEngine.

Inductive TransmissionMode : Type := Automatic | Manual.

(** The data members of the class, in the order of the header.
    [upgrade_effects] is not a field here: it is filled once by the
    constructor and never changes, see [upgrade_effects] below.
    [last_frame_time] is the clock reading in milliseconds. *)
Record t : Type := mk {
  bore : Q;
  stroke : Q;
  compression_ratio : Q;
  num_cylinders : Z;
  rpm : Q;
  max_rpm : Q;
  idle_rpm : Q;
  rod_length : Q;
  deck_height : Q;
  gear_shift_message : string;
  gear_shift_message_timer : Q;
  transmission_mode : TransmissionMode;
  frame_times : list Q;
  last_frame_time : Q;
  current_fps : Q;
  acceleration : Q;
  jerk : Q;
  displacement : Q;
  power_output : Q;
  torque : Q;
  fuel_consumption : Q;
  thermal_efficiency : Q;
  volumetric_efficiency : Q;
  mean_effective_pressure : Q;
  nox_emissions : Q;
  co2_emissions : Q;
  brake_specific_fuel_consumption : Q;
  rod_stroke_ratio : Q;
  piston_speed : Q;
  upgrades : list (string * bool);
  water_injection_active : bool;
  water_injection_amount : Q;
  engine_temperature : Q;
  optimal_temperature : Q;
  gearbox : Gearbox.t;
  vehicle_speed : Q;
  wheel_radius : Q;
  final_drive_ratio : Q;
  vehicle_mass : Q
}.

Definition set_rpm (v : Q) (e : t) : t :=
  mk (bore e) (stroke e) (compression_ratio e) (num_cylinders e) v (max_rpm e) (idle_rpm e)
     (rod_length e) (deck_height e) (gear_shift_message e) (gear_shift_message_timer e)
     (transmission_mode e) (frame_times e) (last_frame_time e) (current_fps e) (acceleration e)
     (jerk e) (displacement e) (power_output e) (torque e) (fuel_consumption e)
     (thermal_efficiency e) (volumetric_efficiency e) (mean_effective_pressure e)
     (nox_emissions e) (co2_emissions e) (brake_specific_fuel_consumption e)
     (rod_stroke_ratio e) (piston_speed e) (upgrades e) (water_injection_active e)
     (water_injection_amount e) (engine_temperature e) (optimal_temperature e) (gearbox e)
     (vehicle_speed e) (wheel_radius e) (final_drive_ratio e) (vehicle_mass e).

Definition set_gear_shift_message (v : string) (e : t) : t :=
  mk (bore e) (stroke e) (compression_ratio e) (num_cylinders e) (rpm e) (max_rpm e)
     (idle_rpm e) (rod_length e) (deck_height e) v (gear_shift_message_timer e)
     (transmission_mode e) (frame_times e) (last_frame_time e) (current_fps e) (acceleration e)
     (jerk e) (displacement e) (power_output e) (torque e) (fuel_consumption e)
     (thermal_efficiency e) (volumetric_efficiency e) (mean_effective_pressure e)
     (nox_emissions e) (co2_emissions e) (brake_specific_fuel_consumption e)
     (rod_stroke_ratio e) (piston_speed e) (upgrades e) (water_injection_active e)
     (water_injection_amount e) (engine_temperature e) (optimal_temperature e) (gearbox e)
     (vehicle_speed e) (wheel_radius e) (final_drive_ratio e) (vehicle_mass e).

Definition set_gear_shift_message_timer (v : Q) (e : t) : t :=
  mk (bore e) (stroke e) (compression_ratio e) (num_cylinders e) (rpm e) (max_rpm e)
     (idle_rpm e) (rod_length e) (deck_height e) (gear_shift_message e) v (transmission_mode e)
     (frame_times e) (last_frame_time e) (current_fps e) (acceleration e) (jerk e)
     (displacement e) (power_output e) (torque e) (fuel_consumption e) (thermal_efficiency e)
     (volumetric_efficiency e) (mean_effective_pressure e) (nox_emissions e) (co2_emissions e)
     (brake_specific_fuel_consumption e) (rod_stroke_ratio e) (piston_speed e) (upgrades e)
     (water_injection_active e) (water_injection_amount e) (engine_temperature e)
     (optimal_temperature e) (gearbox e) (vehicle_speed e) (wheel_radius e)
     (final_drive_ratio e) (vehicle_mass e).

Definition set_transmission_mode (v : TransmissionMode) (e : t) : t :=
  mk (bore e) (stroke e) (compression_ratio e) (num_cylinders e) (rpm e) (max_rpm e)
     (idle_rpm e) (rod_length e) (deck_height e) (gear_shift_message e)
     (gear_shift_message_timer e) v (frame_times e) (last_frame_time e) (current_fps e)
     (acceleration e) (jerk e) (displacement e) (power_output e) (torque e) (fuel_consumption e)
     (thermal_efficiency e) (volumetric_efficiency e) (mean_effective_pressure e)
     (nox_emissions e) (co2_emissions e) (brake_specific_fuel_consumption e)
     (rod_stroke_ratio e) (piston_speed e) (upgrades e) (water_injection_active e)
     (water_injection_amount e) (engine_temperature e) (optimal_temperature e) (gearbox e)
     (vehicle_speed e) (wheel_radius e) (final_drive_ratio e) (vehicle_mass e).

Definition set_acceleration (v : Q) (e : t) : t :=
  mk (bore e) (stroke e) (compression_ratio e) (num_cylinders e) (rpm e) (max_rpm e)
     (idle_rpm e) (rod_length e) (deck_height e) (gear_shift_message e)
     (gear_shift_message_timer e) (transmission_mode e) (frame_times e) (last_frame_time e)
     (current_fps e) v (jerk e) (displacement e) (power_output e) (torque e)
     (fuel_consumption e) (thermal_efficiency e) (volumetric_efficiency e)
     (mean_effective_pressure e) (nox_emissions e) (co2_emissions e)
     (brake_specific_fuel_consumption e) (rod_stroke_ratio e) (piston_speed e) (upgrades e)
     (water_injection_active e) (water_injection_amount e) (engine_temperature e)
     (optimal_temperature e) (gearbox e) (vehicle_speed e) (wheel_radius e)
     (final_drive_ratio e) (vehicle_mass e).

Definition set_jerk (v : Q) (e : t) : t :=
  mk (bore e) (stroke e) (compression_ratio e) (num_cylinders e) (rpm e) (max_rpm e)
     (idle_rpm e) (rod_length e) (deck_height e) (gear_shift_message e)
     (gear_shift_message_timer e) (transmission_mode e) (frame_times e) (last_frame_time e)
     (current_fps e) (acceleration e) v (displacement e) (power_output e) (torque e)
     (fuel_consumption e) (thermal_efficiency e) (volumetric_efficiency e)
     (mean_effective_pressure e) (nox_emissions e) (co2_emissions e)
     (brake_specific_fuel_consumption e) (rod_stroke_ratio e) (piston_speed e) (upgrades e)
     (water_injection_active e) (water_injection_amount e) (engine_temperature e)
     (optimal_temperature e) (gearbox e) (vehicle_speed e) (wheel_radius e)
     (final_drive_ratio e) (vehicle_mass e).

Definition set_displacement (v : Q) (e : t) : t :=
  mk (bore e) (stroke e) (compression_ratio e) (num_cylinders e) (rpm e) (max_rpm e)
     (idle_rpm e) (rod_length e) (deck_height e) (gear_shift_message e)
     (gear_shift_message_timer e) (transmission_mode e) (frame_times e) (last_frame_time e)
     (current_fps e) (acceleration e) (jerk e) v (power_output e) (torque e)
     (fuel_consumption e) (thermal_efficiency e) (volumetric_efficiency e)
     (mean_effective_pressure e) (nox_emissions e) (co2_emissions e)
     (brake_specific_fuel_consumption e) (rod_stroke_ratio e) (piston_speed e) (upgrades e)
     (water_injection_active e) (water_injection_amount e) (engine_temperature e)
     (optimal_temperature e) (gearbox e) (vehicle_speed e) (wheel_radius e)
     (final_drive_ratio e) (vehicle_mass e).

Definition set_power_output (v : Q) (e : t) : t :=
  mk (bore e) (stroke e) (compression_ratio e) (num_cylinders e) (rpm e) (max_rpm e)
     (idle_rpm e) (rod_length e) (deck_height e) (gear_shift_message e)
     (gear_shift_message_timer e) (transmission_mode e) (frame_times e) (last_frame_time e)
     (current_fps e) (acceleration e) (jerk e) (displacement e) v (torque e)
     (fuel_consumption e) (thermal_efficiency e) (volumetric_efficiency e)
     (mean_effective_pressure e) (nox_emissions e) (co2_emissions e)
     (brake_specific_fuel_consumption e) (rod_stroke_ratio e) (piston_speed e) (upgrades e)
     (water_injection_active e) (water_injection_amount e) (engine_temperature e)
     (optimal_temperature e) (gearbox e) (vehicle_speed e) (wheel_radius e)
     (final_drive_ratio e) (vehicle_mass e).

Definition set_torque (v : Q) (e : t) : t :=
  mk (bore e) (stroke e) (compression_ratio e) (num_cylinders e) (rpm e) (max_rpm e)
     (idle_rpm e) (rod_length e) (deck_height e) (gear_shift_message e)
     (gear_shift_message_timer e) (transmission_mode e) (frame_times e) (last_frame_time e)
     (current_fps e) (acceleration e) (jerk e) (displacement e) (power_output e) v
     (fuel_consumption e) (thermal_efficiency e) (volumetric_efficiency e)
     (mean_effective_pressure e) (nox_emissions e) (co2_emissions e)
     (brake_specific_fuel_consumption e) (rod_stroke_ratio e) (piston_speed e) (upgrades e)
     (water_injection_active e) (water_injection_amount e) (engine_temperature e)
     (optimal_temperature e) (gearbox e) (vehicle_speed e) (wheel_radius e)
     (final_drive_ratio e) (vehicle_mass e).

Definition set_fuel_consumption (v : Q) (e : t) : t :=
  mk (bore e) (stroke e) (compression_ratio e) (num_cylinders e) (rpm e) (max_rpm e)
     (idle_rpm e) (rod_length e) (deck_height e) (gear_shift_message e)
     (gear_shift_message_timer e) (transmission_mode e) (frame_times e) (last_frame_time e)
     (current_fps e) (acceleration e) (jerk e) (displacement e) (power_output e) (torque e) v
     (thermal_efficiency e) (volumetric_efficiency e) (mean_effective_pressure e)
     (nox_emissions e) (co2_emissions e) (brake_specific_fuel_consumption e)
     (rod_stroke_ratio e) (piston_speed e) (upgrades e) (water_injection_active e)
     (water_injection_amount e) (engine_temperature e) (optimal_temperature e) (gearbox e)
     (vehicle_speed e) (wheel_radius e) (final_drive_ratio e) (vehicle_mass e).

Definition set_thermal_efficiency (v : Q) (e : t) : t :=
  mk (bore e) (stroke e) (compression_ratio e) (num_cylinders e) (rpm e) (max_rpm e)
     (idle_rpm e) (rod_length e) (deck_height e) (gear_shift_message e)
     (gear_shift_message_timer e) (transmission_mode e) (frame_times e) (last_frame_time e)
     (current_fps e) (acceleration e) (jerk e) (displacement e) (power_output e) (torque e)
     (fuel_consumption e) v (volumetric_efficiency e) (mean_effective_pressure e)
     (nox_emissions e) (co2_emissions e) (brake_specific_fuel_consumption e)
     (rod_stroke_ratio e) (piston_speed e) (upgrades e) (water_injection_active e)
     (water_injection_amount e) (engine_temperature e) (optimal_temperature e) (gearbox e)
     (vehicle_speed e) (wheel_radius e) (final_drive_ratio e) (vehicle_mass e).

Definition set_volumetric_efficiency (v : Q) (e : t) : t :=
  mk (bore e) (stroke e) (compression_ratio e) (num_cylinders e) (rpm e) (max_rpm e)
     (idle_rpm e) (rod_length e) (deck_height e) (gear_shift_message e)
     (gear_shift_message_timer e) (transmission_mode e) (frame_times e) (last_frame_time e)
     (current_fps e) (acceleration e) (jerk e) (displacement e) (power_output e) (torque e)
     (fuel_consumption e) (thermal_efficiency e) v (mean_effective_pressure e) (nox_emissions e)
     (co2_emissions e) (brake_specific_fuel_consumption e) (rod_stroke_ratio e) (piston_speed e)
     (upgrades e) (water_injection_active e) (water_injection_amount e) (engine_temperature e)
     (optimal_temperature e) (gearbox e) (vehicle_speed e) (wheel_radius e)
     (final_drive_ratio e) (vehicle_mass e).

Definition set_nox_emissions (v : Q) (e : t) : t :=
  mk (bore e) (stroke e) (compression_ratio e) (num_cylinders e) (rpm e) (max_rpm e)
     (idle_rpm e) (rod_length e) (deck_height e) (gear_shift_message e)
     (gear_shift_message_timer e) (transmission_mode e) (frame_times e) (last_frame_time e)
     (current_fps e) (acceleration e) (jerk e) (displacement e) (power_output e) (torque e)
     (fuel_consumption e) (thermal_efficiency e) (volumetric_efficiency e)
     (mean_effective_pressure e) v (co2_emissions e) (brake_specific_fuel_consumption e)
     (rod_stroke_ratio e) (piston_speed e) (upgrades e) (water_injection_active e)
     (water_injection_amount e) (engine_temperature e) (optimal_temperature e) (gearbox e)
     (vehicle_speed e) (wheel_radius e) (final_drive_ratio e) (vehicle_mass e).

Definition set_co2_emissions (v : Q) (e : t) : t :=
  mk (bore e) (stroke e) (compression_ratio e) (num_cylinders e) (rpm e) (max_rpm e)
     (idle_rpm e) (rod_length e) (deck_height e) (gear_shift_message e)
     (gear_shift_message_timer e) (transmission_mode e) (frame_times e) (last_frame_time e)
     (current_fps e) (acceleration e) (jerk e) (displacement e) (power_output e) (torque e)
     (fuel_consumption e) (thermal_efficiency e) (volumetric_efficiency e)
     (mean_effective_pressure e) (nox_emissions e) v (brake_specific_fuel_consumption e)
     (rod_stroke_ratio e) (piston_speed e) (upgrades e) (water_injection_active e)
     (water_injection_amount e) (engine_temperature e) (optimal_temperature e) (gearbox e)
     (vehicle_speed e) (wheel_radius e) (final_drive_ratio e) (vehicle_mass e).

Definition set_brake_specific_fuel_consumption (v : Q) (e : t) : t :=
  mk (bore e) (stroke e) (compression_ratio e) (num_cylinders e) (rpm e) (max_rpm e)
     (idle_rpm e) (rod_length e) (deck_height e) (gear_shift_message e)
     (gear_shift_message_timer e) (transmission_mode e) (frame_times e) (last_frame_time e)
     (current_fps e) (acceleration e) (jerk e) (displacement e) (power_output e) (torque e)
     (fuel_consumption e) (thermal_efficiency e) (volumetric_efficiency e)
     (mean_effective_pressure e) (nox_emissions e) (co2_emissions e) v (rod_stroke_ratio e)
     (piston_speed e) (upgrades e) (water_injection_active e) (water_injection_amount e)
     (engine_temperature e) (optimal_temperature e) (gearbox e) (vehicle_speed e)
     (wheel_radius e) (final_drive_ratio e) (vehicle_mass e).

Definition set_rod_stroke_ratio (v : Q) (e : t) : t :=
  mk (bore e) (stroke e) (compression_ratio e) (num_cylinders e) (rpm e) (max_rpm e)
     (idle_rpm e) (rod_length e) (deck_height e) (gear_shift_message e)
     (gear_shift_message_timer e) (transmission_mode e) (frame_times e) (last_frame_time e)
     (current_fps e) (acceleration e) (jerk e) (displacement e) (power_output e) (torque e)
     (fuel_consumption e) (thermal_efficiency e) (volumetric_efficiency e)
     (mean_effective_pressure e) (nox_emissions e) (co2_emissions e)
     (brake_specific_fuel_consumption e) v (piston_speed e) (upgrades e)
     (water_injection_active e) (water_injection_amount e) (engine_temperature e)
     (optimal_temperature e) (gearbox e) (vehicle_speed e) (wheel_radius e)
     (final_drive_ratio e) (vehicle_mass e).

Definition set_piston_speed (v : Q) (e : t) : t :=
  mk (bore e) (stroke e) (compression_ratio e) (num_cylinders e) (rpm e) (max_rpm e)
     (idle_rpm e) (rod_length e) (deck_height e) (gear_shift_message e)
     (gear_shift_message_timer e) (transmission_mode e) (frame_times e) (last_frame_time e)
     (current_fps e) (acceleration e) (jerk e) (displacement e) (power_output e) (torque e)
     (fuel_consumption e) (thermal_efficiency e) (volumetric_efficiency e)
     (mean_effective_pressure e) (nox_emissions e) (co2_emissions e)
     (brake_specific_fuel_consumption e) (rod_stroke_ratio e) v (upgrades e)
     (water_injection_active e) (water_injection_amount e) (engine_temperature e)
     (optimal_temperature e) (gearbox e) (vehicle_speed e) (wheel_radius e)
     (final_drive_ratio e) (vehicle_mass e).

Definition set_upgrades (v : list (string * bool)) (e : t) : t :=
  mk (bore e) (stroke e) (compression_ratio e) (num_cylinders e) (rpm e) (max_rpm e)
     (idle_rpm e) (rod_length e) (deck_height e) (gear_shift_message e)
     (gear_shift_message_timer e) (transmission_mode e) (frame_times e) (last_frame_time e)
     (current_fps e) (acceleration e) (jerk e) (displacement e) (power_output e) (torque e)
     (fuel_consumption e) (thermal_efficiency e) (volumetric_efficiency e)
     (mean_effective_pressure e) (nox_emissions e) (co2_emissions e)
     (brake_specific_fuel_consumption e) (rod_stroke_ratio e) (piston_speed e) v
     (water_injection_active e) (water_injection_amount e) (engine_temperature e)
     (optimal_temperature e) (gearbox e) (vehicle_speed e) (wheel_radius e)
     (final_drive_ratio e) (vehicle_mass e).

Definition set_water_injection_active (v : bool) (e : t) : t :=
  mk (bore e) (stroke e) (compression_ratio e) (num_cylinders e) (rpm e) (max_rpm e)
     (idle_rpm e) (rod_length e) (deck_height e) (gear_shift_message e)
     (gear_shift_message_timer e) (transmission_mode e) (frame_times e) (last_frame_time e)
     (current_fps e) (acceleration e) (jerk e) (displacement e) (power_output e) (torque e)
     (fuel_consumption e) (thermal_efficiency e) (volumetric_efficiency e)
     (mean_effective_pressure e) (nox_emissions e) (co2_emissions e)
     (brake_specific_fuel_consumption e) (rod_stroke_ratio e) (piston_speed e) (upgrades e) v
     (water_injection_amount e) (engine_temperature e) (optimal_temperature e) (gearbox e)
     (vehicle_speed e) (wheel_radius e) (final_drive_ratio e) (vehicle_mass e).

Definition set_engine_temperature (v : Q) (e : t) : t :=
  mk (bore e) (stroke e) (compression_ratio e) (num_cylinders e) (rpm e) (max_rpm e)
     (idle_rpm e) (rod_length e) (deck_height e) (gear_shift_message e)
     (gear_shift_message_timer e) (transmission_mode e) (frame_times e) (last_frame_time e)
     (current_fps e) (acceleration e) (jerk e) (displacement e) (power_output e) (torque e)
     (fuel_consumption e) (thermal_efficiency e) (volumetric_efficiency e)
     (mean_effective_pressure e) (nox_emissions e) (co2_emissions e)
     (brake_specific_fuel_consumption e) (rod_stroke_ratio e) (piston_speed e) (upgrades e)
     (water_injection_active e) (water_injection_amount e) v (optimal_temperature e) (gearbox e)
     (vehicle_speed e) (wheel_radius e) (final_drive_ratio e) (vehicle_mass e).

Definition set_gearbox (v : Gearbox.t) (e : t) : t :=
  mk (bore e) (stroke e) (compression_ratio e) (num_cylinders e) (rpm e) (max_rpm e)
     (idle_rpm e) (rod_length e) (deck_height e) (gear_shift_message e)
     (gear_shift_message_timer e) (transmission_mode e) (frame_times e) (last_frame_time e)
     (current_fps e) (acceleration e) (jerk e) (displacement e) (power_output e) (torque e)
     (fuel_consumption e) (thermal_efficiency e) (volumetric_efficiency e)
     (mean_effective_pressure e) (nox_emissions e) (co2_emissions e)
     (brake_specific_fuel_consumption e) (rod_stroke_ratio e) (piston_speed e) (upgrades e)
     (water_injection_active e) (water_injection_amount e) (engine_temperature e)
     (optimal_temperature e) v (vehicle_speed e) (wheel_radius e) (final_drive_ratio e)
     (vehicle_mass e).

Definition set_vehicle_speed (v : Q) (e : t) : t :=
  mk (bore e) (stroke e) (compression_ratio e) (num_cylinders e) (rpm e) (max_rpm e)
     (idle_rpm e) (rod_length e) (deck_height e) (gear_shift_message e)
     (gear_shift_message_timer e) (transmission_mode e) (frame_times e) (last_frame_time e)
     (current_fps e) (acceleration e) (jerk e) (displacement e) (power_output e) (torque e)
     (fuel_consumption e) (thermal_efficiency e) (volumetric_efficiency e)
     (mean_effective_pressure e) (nox_emissions e) (co2_emissions e)
     (brake_specific_fuel_consumption e) (rod_stroke_ratio e) (piston_speed e) (upgrades e)
     (water_injection_active e) (water_injection_amount e) (engine_temperature e)
     (optimal_temperature e) (gearbox e) v (wheel_radius e) (final_drive_ratio e)
     (vehicle_mass e).


(** Text written to [std::cout], one entry per line. *)
Definition Out (A : Type) : Type := (A * list string)%type.

Section Model.

(** libm's [pow], called at lines 53 and 73. *)
Variable pow : Q -> Q -> Q.

(** *** Performance model (lines 52-117) *)

Definition calculate_displacement (e : t) : t :=
  set_displacement
    ((PI / 4.0) * pow (bore e) 2 * stroke e * inject_Z (num_cylinders e)) e.

Definition calculate_rod_stroke_ratio (e : t) : t :=
  set_rod_stroke_ratio (rod_length e / stroke e) e.

Definition calculate_piston_speed (e : t) : t :=
  set_piston_speed ((2 * stroke e * rpm e) / 60.0) e.

Definition calculate_power (e : t) : Q :=
  (mean_effective_pressure e * displacement e * rpm e) / inject_Z (120 * 1000).

Definition calculate_torque (e : t) : Q :=
  (power_output e * 1000 * 60) / (2 * PI * rpm e).

Definition calculate_thermal_efficiency (e : t) : Q :=
  1 - 1 / pow (compression_ratio e) (1.4 - 1).

(** The closures stored in [upgrade_effects] by the constructor
    (lines 168-206); each one mutates the engine it captured. *)
Definition upgrade_effects : list (string * (t -> t)) :=
  [ ("direct_injection"%string, fun e =>
       let e := set_fuel_consumption (fuel_consumption e * 0.9) e in
       set_thermal_efficiency (thermal_efficiency e * 1.05) e);
    ("turbocharger"%string, fun e =>
       let e := set_power_output (power_output e * 1.2) e in
       set_volumetric_efficiency (volumetric_efficiency e * 1.15) e);
    ("variable_valve_timing"%string, fun e =>
       let e := set_volumetric_efficiency (volumetric_efficiency e * 1.1) e in
       set_fuel_consumption (fuel_consumption e * 0.95) e);
    ("exhaust_gas_recirculation"%string, fun e =>
       set_nox_emissions (nox_emissions e * 0.7) e);
    ("waste_heat_recovery"%string, fun e =>
       set_thermal_efficiency (thermal_efficiency e * 1.05) e);
    ("smart_cooling"%string, fun e =>
       set_thermal_efficiency (thermal_efficiency e * 1.02) e);
    ("advanced_materials"%string, fun e =>
       set_power_output (power_output e * 1.05) e);
    ("enhanced_ecu"%string, fun e =>
       let e := set_fuel_consumption (fuel_consumption e * 0.95) e in
       set_power_output (power_output e * 1.05) e);
    ("cylinder_deactivation"%string, fun e =>
       set_fuel_consumption (fuel_consumption e * 0.92) e);
    ("variable_compression"%string, fun e =>
       let e := set_thermal_efficiency (thermal_efficiency e * 1.08) e in
       set_fuel_consumption (fuel_consumption e * 0.93) e);
    ("ceramic_coating"%string, fun e =>
       let e := set_thermal_efficiency (thermal_efficiency e * 1.03) e in
       set_engine_temperature (engine_temperature e - 5) e) ].

(** [upgrade_effects.contains(u)] and [upgrade_effects.at(u)] in one
    lookup: [None] when the key is absent. *)
Fixpoint effect_at (l : list (string * (t -> t))) (u : string) : option (t -> t) :=
  match l with
  | [] => None
  | (k, f) :: l' => if String.eqb u k then Some f else effect_at l' u
  end.

(** The range-for over [upgrades] (lines 84-88). *)
Fixpoint apply_active_upgrades (l : StdMap.t) (e : t) : t :=
  match l with
  | [] => e
  | (upgrade, is_active) :: l' =>
      let e :=
        if is_active then
          match effect_at upgrade_effects upgrade with
          | Some effect => effect e
          | None => e
          end
        else e in
      apply_active_upgrades l' e
  end.

(** [update_performance] (lines 76-111) runs six stages in sequence; each
    stage is a function of its own here.  Lines 77-82: *)
Definition base_metrics (e : t) : t :=
  let e := calculate_displacement e in
  let e := calculate_rod_stroke_ratio e in
  let e := calculate_piston_speed e in
  let e := set_power_output (calculate_power e) e in
  let e := set_torque (calculate_torque e) e in
  set_thermal_efficiency (calculate_thermal_efficiency e) e.

(** Lines 99-102. *)
Definition water_injection_adjustment (e : t) : t :=
  if water_injection_active e then
    let e := set_thermal_efficiency (thermal_efficiency e * 1.1) e in
    set_nox_emissions (nox_emissions e * 0.8) e
  else e.

(** Lines 104-107. *)
Definition temperature_adjustment (e : t) : t :=
  let temp_difference := std_abs (engine_temperature e - optimal_temperature e) in
  if Qltb 10 temp_difference
  then set_thermal_efficiency
         (thermal_efficiency e * (1 - 0.001 * temp_difference)) e
  else e.

(** Lines 90-97. *)
Definition consumption_and_emissions (e : t) : t :=
  let e := set_fuel_consumption
             ((power_output e * 3600) / (43000 * thermal_efficiency e)) e in
  let e := set_brake_specific_fuel_consumption
             ((fuel_consumption e * 3600) / power_output e) e in
  let e := set_co2_emissions (brake_specific_fuel_consumption e * 3.2) e in
  set_nox_emissions
    (0.01 * power_output e * (1 + (engine_temperature e - 90) / 100)) e.

(** Lines 109-110. *)
Definition clamp_volumetric_efficiency (e : t) : t :=
  set_volumetric_efficiency
    (std_min (std_max (volumetric_efficiency e) 0.7) 1.0) e.

Definition update_performance (e : t) : t :=
  let e := base_metrics e in
  let e := apply_active_upgrades (upgrades e) e in
  let e := consumption_and_emissions e in
  let e := water_injection_adjustment e in
  let e := temperature_adjustment e in
  clamp_volumetric_efficiency e.

Definition update_vehicle_speed (e : t) : t :=
  let wheel_rpm :=
    rpm e / (Gearbox.get_current_ratio (gearbox e) * final_drive_ratio e) in
  set_vehicle_speed ((wheel_rpm * 2 * PI * wheel_radius e) / 60) e.

(** *** Constructor (lines 119-210) *)

(** The member initialiser list; members it leaves out start at zero or
    empty and are written by the constructor body before any read. *)
Definition initial_members : t :=
  {| bore := 0.086; stroke := 0.086; compression_ratio := 11.0;
     num_cylinders := 3; rpm := 1000; max_rpm := 6000; idle_rpm := 800;
     rod_length := 0.143; deck_height := 0.2;
     gear_shift_message := ""%string; gear_shift_message_timer := 0.0;
     transmission_mode := Automatic;
     frame_times := []; last_frame_time := 0; current_fps := 0;
     acceleration := 0; jerk := 0;
     displacement := 0; power_output := 0; torque := 0;
     fuel_consumption := 0; thermal_efficiency := 0;
     volumetric_efficiency := 0.9; mean_effective_pressure := 1000000;
     nox_emissions := 0.5; co2_emissions := 0;
     brake_specific_fuel_consumption := 0;
     rod_stroke_ratio := 0; piston_speed := 0;
     upgrades := StdMap.empty;
     water_injection_active := false; water_injection_amount := 0.005;
     engine_temperature := 90; optimal_temperature := 90;
     gearbox := Gearbox.make; vehicle_speed := 0;
     wheel_radius := 0.3175; final_drive_ratio := 3.73;
     vehicle_mass := 1500 |}.

(** The upgrade identifiers, in the order the constructor registers them
    (lines 156-166). *)
Definition registered_upgrades : list string :=
  [ "direct_injection"; "turbocharger"; "variable_valve_timing";
    "exhaust_gas_recirculation"; "waste_heat_recovery"; "smart_cooling";
    "advanced_materials"; "enhanced_ecu"; "cylinder_deactivation";
    "variable_compression"; "ceramic_coating" ]%string.

Definition make : t :=
  let e := initial_members in
  let e := calculate_displacement e in
  let e := calculate_rod_stroke_ratio e in
  let e := calculate_piston_speed e in
  let e :=
    fold_left (fun e u => set_upgrades (StdMap.assign u false (upgrades e)) e)
              registered_upgrades e in
  let e := update_performance e in
  update_vehicle_speed e.

(** *** Commands (lines 212-218, 296-311, 405-503) *)

Definition toggle_transmission_mode (e : t) : Out t :=
  let e :=
    set_transmission_mode
      (match transmission_mode e with Automatic => Manual | Manual => Automatic end) e in
  (e, [String.append "Transmission mode switched to "
         (match transmission_mode e with
          | Automatic => "Automatic" | Manual => "Manual" end)%string]).

Definition apply_upgrade (upgrade : string) (e : t) : Out t :=
  if (StdMap.count upgrade (upgrades e) >? 0)%Z then
    let e := set_upgrades (StdMap.assign upgrade true (upgrades e)) e in
    (update_performance e, [String.append upgrade " applied"])
  else
    (e, [String.append "Unknown upgrade: " upgrade]).

Definition toggle_water_injection (activate : bool) (e : t) : Out t :=
  let e := set_water_injection_active activate e in
  (update_performance e,
   [String.append "Water injection "
      (if water_injection_active e then "activated" else "deactivated")%string]).

(** [accelerate] (lines 405-426): the pedal step on rpm and temperature
    (lines 406-417), the recomputation, then the gear change of lines
    422-425. *)
Definition accelerate_pedal (e : t) : t :=
  let e := set_rpm (rpm e + 100) e in
  let e := if Qltb (max_rpm e) (rpm e) then set_rpm (max_rpm e) e else e in
  let temp_increase := 0.5 * (1 - (engine_temperature e - 90) / 100) in
  let e := set_engine_temperature
             (engine_temperature e + std_max 0.0 temp_increase) e in
  if Qltb 110 (engine_temperature e) then set_engine_temperature 110 e else e.

Definition accelerate_shift (e : t) : t :=
  if Qltb 4000 (rpm e) && (Gearbox.get_current_gear (gearbox e) <? 5)%Z then
    let e := set_gearbox (Gearbox.shift_up (gearbox e)) e in
    set_rpm (rpm e - 1500) e
  else e.

Definition accelerate (e : t) : t :=
  let e := accelerate_pedal e in
  let e := update_performance e in
  let e := update_vehicle_speed e in
  accelerate_shift e.

(** [decelerate] (lines 428-449): the pedal step (lines 429-440), the
    recomputation, then the gear change of lines 445-448. *)
Definition decelerate_pedal (e : t) : t :=
  let e := set_rpm (rpm e - 100) e in
  let e := if Qltb (rpm e) (idle_rpm e) then set_rpm (idle_rpm e) e else e in
  let temp_decrease := 0.2 * ((engine_temperature e - 90) / 100) in
  let e := set_engine_temperature
             (engine_temperature e - std_max 0.0 temp_decrease) e in
  if Qltb (engine_temperature e) 85 then set_engine_temperature 85 e else e.

Definition decelerate_shift (e : t) : t :=
  if Qltb (rpm e) 2000 && (Gearbox.get_current_gear (gearbox e) >? 1)%Z then
    let e := set_gearbox (Gearbox.shift_down (gearbox e)) e in
    set_rpm (rpm e + 1500) e
  else e.

Definition decelerate (e : t) : t :=
  let e := decelerate_pedal e in
  let e := update_performance e in
  let e := update_vehicle_speed e in
  decelerate_shift e.

Definition manual_upshift (e : t) : t :=
  match transmission_mode e with
  | Manual =>
      let previous_gear := Gearbox.get_current_gear (gearbox e) in
      let e := set_gearbox (Gearbox.shift_up (gearbox e)) e in
      if negb (Gearbox.get_current_gear (gearbox e) =? previous_gear)%Z then
        let e := set_rpm (rpm e - 1500) e in
        let e := set_rpm (std_max (rpm e) (idle_rpm e)) e in
        let e := set_gear_shift_message
                   (String.append "Manually shifted up to gear "
                      (to_string (Gearbox.get_current_gear (gearbox e)))) e in
        set_gear_shift_message_timer 3.0 e
      else
        let e := set_gear_shift_message "Already in highest gear" e in
        set_gear_shift_message_timer 3.0 e
  | Automatic => e
  end.

Definition manual_downshift (e : t) : t :=
  match transmission_mode e with
  | Manual =>
      let previous_gear := Gearbox.get_current_gear (gearbox e) in
      let e := set_gearbox (Gearbox.shift_down (gearbox e)) e in
      if negb (Gearbox.get_current_gear (gearbox e) =? previous_gear)%Z then
        let e := set_rpm (rpm e + 1500) e in
        let e := set_rpm (std_min (rpm e) (max_rpm e)) e in
        let e := set_gear_shift_message
                   (String.append "Manually shifted down to gear "
                      (to_string (Gearbox.get_current_gear (gearbox e)))) e in
        set_gear_shift_message_timer 3.0 e
      else
        let e := set_gear_shift_message "Already in lowest gear" e in
        set_gear_shift_message_timer 3.0 e
  | Automatic => e
  end.

(** *** The per-tick update (lines 220-273)

    [update_dynamics] draws from [std::rand] twice; the two values drawn
    are the arguments [r1] and [r2]. *)

(** Lines 221-236: jerk, acceleration, rpm and temperature. *)
Definition integrate (dt : Q) (r1 : Z) (e : t) : t :=
  let e := set_jerk (jerk e + inject_Z (Z.rem r1 201 - 100) * dt) e in
  let e := set_jerk (std_max (-500.0) (std_min 500.0 (jerk e))) e in
  let e := set_acceleration (acceleration e + jerk e * dt) e in
  let e := set_acceleration (std_max (-50.0) (std_min 50.0 (acceleration e))) e in
  let e := set_rpm (rpm e + acceleration e * dt * 10) e in
  let e := set_rpm (std_max (idle_rpm e) (std_min (max_rpm e) (rpm e))) e in
  let temp_change := (if Qltb 0 (acceleration e) then 0.5 else -0.2) * dt in
  let e := set_engine_temperature (engine_temperature e + temp_change) e in
  set_engine_temperature
    (std_max 85.0 (std_min 110.0 (engine_temperature e))) e.

(** Lines 238-241: the random water-injection toggle. *)
Definition random_water_injection (r2 : Z) (e : t) : Out t :=
  if (Z.rem r2 1000 <? 5)%Z
  then toggle_water_injection (negb (water_injection_active e)) e
  else (e, []).

(** Lines 245-254: the automatic gear change. *)
Definition automatic_shift (e : t) : t :=
  match transmission_mode e with
  | Automatic =>
      if Qltb 4000 (rpm e) && (Gearbox.get_current_gear (gearbox e) <? 5)%Z then
        let e := set_gearbox (Gearbox.shift_up (gearbox e)) e in
        set_rpm (rpm e - 1500) e
      else if Qltb (rpm e) 2000 && (Gearbox.get_current_gear (gearbox e) >? 1)%Z then
        let e := set_gearbox (Gearbox.shift_down (gearbox e)) e in
        set_rpm (rpm e + 1500) e
      else e
  | Manual => e
  end.

(** Lines 262-272: the gear-shift message and its timer. *)
Definition update_gear_shift_message (dt : Q) (previous_gear : Z) (e : t) : t :=
  if negb (Gearbox.get_current_gear (gearbox e) =? previous_gear)%Z then
    let e := set_gear_shift_message
               (String.append "Shifted to gear "
                  (to_string (Gearbox.get_current_gear (gearbox e)))) e in
    set_gear_shift_message_timer 3.0 e
  else if Qltb 0 (gear_shift_message_timer e) then
    let e := set_gear_shift_message_timer (gear_shift_message_timer e - dt) e in
    if Qle_bool (gear_shift_message_timer e) 0
    then set_gear_shift_message ""%string e
    else e
  else e.

Definition update_dynamics (dt : Q) (r1 r2 : Z) (e : t) : Out t :=
  let e := integrate dt r1 e in
  let (e, out) := random_water_injection r2 e in
  let previous_gear := Gearbox.get_current_gear (gearbox e) in
  let e := automatic_shift e in
  let e := set_rpm (std_max (idle_rpm e) (std_min (max_rpm e) (rpm e))) e in
  let e := update_performance e in
  let e := update_vehicle_speed e in
  (update_gear_shift_message dt previous_gear e, out).

(** *** Runs of the simulation *)

(** The key dispatch of [run_simulation] (lines 566-583). *)
Definition handle_input (input : ascii) (e : t) : Out t :=
  if Ascii.eqb input "a" then (set_acceleration (acceleration e + 10) e, [])
  else if Ascii.eqb input "d" then (set_acceleration (acceleration e - 10) e, [])
  else if Ascii.eqb input "e" then (manual_upshift e, [])
  else if Ascii.eqb input "q" then (manual_downshift e, [])
  else if Ascii.eqb input "m" then toggle_transmission_mode e
  else (e, []).

(** One call made on the engine after its construction: a public member
    function, or the key dispatch of the main loop. *)
Inductive Call : Type :=
  | UpdateDynamics (dt : Q) (r1 r2 : Z)
  | ApplyUpgrade (upgrade : string)
  | ToggleWaterInjection (activate : bool)
  | Accelerate
  | Decelerate
  | ToggleTransmissionMode
  | ManualUpshift
  | ManualDownshift
  | HandleInput (input : ascii).

Definition perform (c : Call) (e : t) : Out t :=
  match c with
  | UpdateDynamics dt r1 r2 => update_dynamics dt r1 r2 e
  | ApplyUpgrade upgrade => apply_upgrade upgrade e
  | ToggleWaterInjection activate => toggle_water_injection activate e
  | Accelerate => (accelerate e, [])
  | Decelerate => (decelerate e, [])
  | ToggleTransmissionMode => toggle_transmission_mode e
  | ManualUpshift => (manual_upshift e, [])
  | ManualDownshift => (manual_downshift e, [])
  | HandleInput input => handle_input input e
  end.

(** The engine after a sequence of calls (the text written is dropped). *)
Definition run (cs : list Call) (e : t) : t :=
  fold_left (fun e c => fst (perform c e)) cs e.

(** A sequence of ticks: consecutive calls of [update_dynamics]. *)
Definition ticks (l : list (Q * Z * Z)) : list Call :=
  map (fun '(dt, r1, r2) => UpdateDynamics dt r1 r2) l.

(** *** The frame clock and the main loop (lines 275-294, 313-339, 552-599) *)

Definition set_frame_times (v : list Q) (e : t) : t :=
  mk (bore e) (stroke e) (compression_ratio e) (num_cylinders e) (rpm e) (max_rpm e)
     (idle_rpm e) (rod_length e) (deck_height e) (gear_shift_message e)
     (gear_shift_message_timer e) (transmission_mode e) v (last_frame_time e) (current_fps e)
     (acceleration e) (jerk e) (displacement e) (power_output e) (torque e) (fuel_consumption e)
     (thermal_efficiency e) (volumetric_efficiency e) (mean_effective_pressure e)
     (nox_emissions e) (co2_emissions e) (brake_specific_fuel_consumption e)
     (rod_stroke_ratio e) (piston_speed e) (upgrades e) (water_injection_active e)
     (water_injection_amount e) (engine_temperature e) (optimal_temperature e) (gearbox e)
     (vehicle_speed e) (wheel_radius e) (final_drive_ratio e) (vehicle_mass e).

Definition set_last_frame_time (v : Q) (e : t) : t :=
  mk (bore e) (stroke e) (compression_ratio e) (num_cylinders e) (rpm e) (max_rpm e)
     (idle_rpm e) (rod_length e) (deck_height e) (gear_shift_message e)
     (gear_shift_message_timer e) (transmission_mode e) (frame_times e) v (current_fps e)
     (acceleration e) (jerk e) (displacement e) (power_output e) (torque e) (fuel_consumption e)
     (thermal_efficiency e) (volumetric_efficiency e) (mean_effective_pressure e)
     (nox_emissions e) (co2_emissions e) (brake_specific_fuel_consumption e)
     (rod_stroke_ratio e) (piston_speed e) (upgrades e) (water_injection_active e)
     (water_injection_amount e) (engine_temperature e) (optimal_temperature e) (gearbox e)
     (vehicle_speed e) (wheel_radius e) (final_drive_ratio e) (vehicle_mass e).

Definition set_current_fps (v : Q) (e : t) : t :=
  mk (bore e) (stroke e) (compression_ratio e) (num_cylinders e) (rpm e) (max_rpm e)
     (idle_rpm e) (rod_length e) (deck_height e) (gear_shift_message e)
     (gear_shift_message_timer e) (transmission_mode e) (frame_times e) (last_frame_time e) v
     (acceleration e) (jerk e) (displacement e) (power_output e) (torque e) (fuel_consumption e)
     (thermal_efficiency e) (volumetric_efficiency e) (mean_effective_pressure e)
     (nox_emissions e) (co2_emissions e) (brake_specific_fuel_consumption e)
     (rod_stroke_ratio e) (piston_speed e) (upgrades e) (water_injection_active e)
     (water_injection_amount e) (engine_temperature e) (optimal_temperature e) (gearbox e)
     (vehicle_speed e) (wheel_radius e) (final_drive_ratio e) (vehicle_mass e).
(** [calculate_fps] (lines 276-294).  [current_time] is the reading of
    [high_resolution_clock::now()], in milliseconds; the queue
    [frame_times] is a list with its front first.  The value returned is
    the quotient of line 293; where the durations sum to zero the C++
    quotient is infinite and the value here carries no meaning. *)
Definition calculate_fps (current_time : Q) (e : t) : Q * t :=
  let frame_time := current_time - last_frame_time e in
  let e := set_last_frame_time current_time e in
  let e := set_frame_times (frame_times e ++ [frame_time]) e in
  let e := if (Z.of_nat (length (frame_times e)) >? 60)%Z
           then set_frame_times (tl (frame_times e)) e else e in
  let total_time := fold_left Qplus (frame_times e) 0.0 in
  (inject_Z (Z.of_nat (length (frame_times e))) / (total_time / 1000.0), e).

(** The test of [simulate_performance] that decides whether the gear
    notification is drawn (line 331). *)
Definition notification_shown (e : t) : bool :=
  negb (String.eqb (gear_shift_message e) "")
  && Qltb 0 (gear_shift_message_timer e).

(** One iteration of the loop of [run_simulation] (lines 563-598), on the
    engine: the key dispatch, the tick with the elapsed time, and the
    frame clock.  [simulate_performance] in between only writes to the
    terminal. *)
Definition frame (input : ascii) (elapsed : Q) (r1 r2 : Z) (current_time : Q)
    (e : t) : t :=
  let e := fst (handle_input input e) in
  let e := fst (update_dynamics elapsed r1 r2 e) in
  let (fps, e) := calculate_fps current_time e in
  set_current_fps fps e.

(** *** Start-up ([main], file part_000 lines 6-31) *)

Definition available_upgrades : list string :=
  [ "direct_injection"; "turbocharger"; "variable_valve_timing";
    "exhaust_gas_recirculation"; "waste_heat_recovery"; "smart_cooling";
    "advanced_materials"; "enhanced_ecu"; "cylinder_deactivation";
    "variable_compression"; "ceramic_coating" ]%string.

(** The loop of lines 23-27: [draws] holds the values returned by
    [dis(gen)], one per upgrade; an upgrade is applied when its draw is
    not zero. *)
Fixpoint apply_drawn_upgrades (us : list string) (draws : list Z) (e : t) : Out t :=
  match us, draws with
  | upgrade :: us', d :: draws' =>
      if negb (d =? 0)%Z then
        let (e, out) := apply_upgrade upgrade e in
        let (e, out') := apply_drawn_upgrades us' draws' e in
        (e, out ++ out')
      else apply_drawn_upgrades us' draws' e
  | _, _ => (e, [])
  end.

End Model.

End SixStrokeEngine.

(** ** Auxiliary definitions for the statements *)

Module Frame.
Import SixStrokeEngine.

(** The twelve members written by [update_performance] and by the upgrade
    closures, replaced at once. *)
Definition with_performance (d rs ps p tq te fc bs co nx ve tmp : Q) (e : t) : t :=
  mk (bore e) (stroke e) (compression_ratio e) (num_cylinders e) (rpm e) (max_rpm e)
     (idle_rpm e) (rod_length e) (deck_height e) (gear_shift_message e)
     (gear_shift_message_timer e) (transmission_mode e) (frame_times e) (last_frame_time e)
     (current_fps e) (acceleration e) (jerk e) d p tq fc te ve (mean_effective_pressure e) nx co
     bs rs ps (upgrades e) (water_injection_active e) (water_injection_amount e) tmp
     (optimal_temperature e) (gearbox e) (vehicle_speed e) (wheel_radius e)
     (final_drive_ratio e) (vehicle_mass e).

(** [e'] differs from [e] at most in those twelve members. *)
Definition only_performance_changed (e e' : t) : Prop :=
  exists d rs ps p tq te fc bs co nx ve tmp,
    e' = with_performance d rs ps p tq te fc bs co nx ve tmp e.

(** The six members written by the upgrade closures, replaced at once. *)
Definition with_tuning (p te ve tmp fc nx : Q) (e : t) : t :=
  mk (bore e) (stroke e) (compression_ratio e) (num_cylinders e) (rpm e) (max_rpm e)
     (idle_rpm e) (rod_length e) (deck_height e) (gear_shift_message e)
     (gear_shift_message_timer e) (transmission_mode e) (frame_times e) (last_frame_time e)
     (current_fps e) (acceleration e) (jerk e) (displacement e) p (torque e) fc te ve
     (mean_effective_pressure e) nx (co2_emissions e) (brake_specific_fuel_consumption e)
     (rod_stroke_ratio e) (piston_speed e) (upgrades e) (water_injection_active e)
     (water_injection_amount e) tmp (optimal_temperature e) (gearbox e) (vehicle_speed e)
     (wheel_radius e) (final_drive_ratio e) (vehicle_mass e).

(** [e'] differs from [e] at most in those six members. *)
Definition only_tuning_changed (e e' : t) : Prop :=
  exists p te ve tmp fc nx, e' = with_tuning p te ve tmp fc nx e.

(** The engine after the loop over the upgrades (lines 77-88), and the
    rest of the recomputation (lines 90-110). *)
Definition upgraded (pow : Q -> Q -> Q) (e : t) : t :=
  apply_active_upgrades (upgrades (base_metrics pow e)) (base_metrics pow e).

Definition finish (x : t) : t :=
  clamp_volumetric_efficiency
    (temperature_adjustment
       (water_injection_adjustment (consumption_and_emissions x))).

End Frame.

(** Every gearbox the program builds has the five ratios of the
    constructor and a gear index between 1 and 5. *)
Definition five_speed (g : Gearbox.t) : Prop :=
  Gearbox.gear_ratios g = Gearbox.gear_ratios Gearbox.make /\
  (1 <= Gearbox.current_gear g <= 5)%Z.

(** The keys of the [upgrades] map, in the order [std::map] keeps them:
    the eleven identifiers the constructor registers, sorted. *)
Definition known_upgrades : list string :=
  [ "advanced_materials"; "ceramic_coating"; "cylinder_deactivation";
    "direct_injection"; "enhanced_ecu"; "exhaust_gas_recirculation";
    "smart_cooling"; "turbocharger"; "variable_compression";
    "variable_valve_timing"; "waste_heat_recovery" ]%string.

(** The state of the [upgrades] map in every engine built by the
    constructor: exactly the registered keys. *)
Definition registered (e : SixStrokeEngine.t) : Prop :=
  StdMap.keys (SixStrokeEngine.upgrades e) = known_upgrades.

(** Values for [pow] at the two calls the program makes, used to run the
    model on concrete inputs: [pow(x, 2)] is [x * x], and
    [pow(11.0, 1.4 - 1)] is 2.6095 to four decimals. *)
Definition pow_sample (x y : Q) : Q :=
  if Qeq_bool y 2 then x * x
  else if Qeq_bool x 11 && Qeq_bool y 0.4 then 2.6095
  else 1.

(** The multipliers written in the upgrade closures (lines 168-206), as
    data: one factor per member a closure scales (1 where it scales
    nothing), and the amount it subtracts from the temperature. *)
Record Factors : Type := {
  power_factor : Q;
  fuel_factor : Q;
  thermal_factor : Q;
  volumetric_factor : Q;
  nox_factor : Q;
  temperature_drop : Q
}.

Definition no_effect : Factors :=
  {| power_factor := 1; fuel_factor := 1; thermal_factor := 1;
     volumetric_factor := 1; nox_factor := 1; temperature_drop := 0 |}.

Definition documented_effect (u : string) : Factors :=
  if String.eqb u "direct_injection" then
    {| power_factor := 1; fuel_factor := 0.9; thermal_factor := 1.05;
       volumetric_factor := 1; nox_factor := 1; temperature_drop := 0 |}
  else if String.eqb u "turbocharger" then
    {| power_factor := 1.2; fuel_factor := 1; thermal_factor := 1;
       volumetric_factor := 1.15; nox_factor := 1; temperature_drop := 0 |}
  else if String.eqb u "variable_valve_timing" then
    {| power_factor := 1; fuel_factor := 0.95; thermal_factor := 1;
       volumetric_factor := 1.1; nox_factor := 1; temperature_drop := 0 |}
  else if String.eqb u "exhaust_gas_recirculation" then
    {| power_factor := 1; fuel_factor := 1; thermal_factor := 1;
       volumetric_factor := 1; nox_factor := 0.7; temperature_drop := 0 |}
  else if String.eqb u "waste_heat_recovery" then
    {| power_factor := 1; fuel_factor := 1; thermal_factor := 1.05;
       volumetric_factor := 1; nox_factor := 1; temperature_drop := 0 |}
  else if String.eqb u "smart_cooling" then
    {| power_factor := 1; fuel_factor := 1; thermal_factor := 1.02;
       volumetric_factor := 1; nox_factor := 1; temperature_drop := 0 |}
  else if String.eqb u "advanced_materials" then
    {| power_factor := 1.05; fuel_factor := 1; thermal_factor := 1;
       volumetric_factor := 1; nox_factor := 1; temperature_drop := 0 |}
  else if String.eqb u "enhanced_ecu" then
    {| power_factor := 1.05; fuel_factor := 0.95; thermal_factor := 1;
       volumetric_factor := 1; nox_factor := 1; temperature_drop := 0 |}
  else if String.eqb u "cylinder_deactivation" then
    {| power_factor := 1; fuel_factor := 0.92; thermal_factor := 1;
       volumetric_factor := 1; nox_factor := 1; temperature_drop := 0 |}
  else if String.eqb u "variable_compression" then
    {| power_factor := 1; fuel_factor := 0.93; thermal_factor := 1.08;
       volumetric_factor := 1; nox_factor := 1; temperature_drop := 0 |}
  else if String.eqb u "ceramic_coating" then
    {| power_factor := 1; fuel_factor := 1; thermal_factor := 1.03;
       volumetric_factor := 1; nox_factor := 1; temperature_drop := 5 |}
  else no_effect.

(** The product of one factor over the active entries of the map. *)
Fixpoint gain (factor : Factors -> Q) (m : StdMap.t) : Q :=
  match m with
  | [] => 1
  | (u, is_active) :: m' =>
      (if is_active then factor (documented_effect u) else 1) * gain factor m'
  end.

(** The sum of the temperature drops over the active entries. *)
Fixpoint total_drop (m : StdMap.t) : Q :=
  match m with
  | [] => 0
  | (u, is_active) :: m' =>
      (if is_active then temperature_drop (documented_effect u) else 0)
      + total_drop m'
  end.

(** Whether the map holds the flag [true] for [u]. *)
Definition active (u : string) (m : StdMap.t) : bool :=
  match StdMap.find u m with
  | Some true => true
  | _ => false
  end.

(** One recomputation of the volumetric efficiency under the flags [m]:
    the stored value times the active volumetric factors, clamped as in
    line 110. *)
Definition recomputed_volumetric_efficiency (m : StdMap.t) (v : Q) : Q :=
  std_min (std_max (v * gain volumetric_factor m) 0.7) 1.0.


(** The rpm limits of the constructor, and an rpm between them. *)
Definition within_limits (e : SixStrokeEngine.t) : Prop :=
  SixStrokeEngine.idle_rpm e = 800 /\ SixStrokeEngine.max_rpm e = 6000 /\
  800 <= SixStrokeEngine.rpm e /\ SixStrokeEngine.rpm e <= 6000.

(** A notification whose timer has run out is empty. *)
Definition expired_is_empty (e : SixStrokeEngine.t) : Prop :=
  SixStrokeEngine.gear_shift_message_timer e <= 0 ->
  SixStrokeEngine.gear_shift_message e = ""%string.

(** The last 60 entries of a list: the capacity of [frame_times]. *)
Definition window (l : list Q) : list Q := skipn (length l - 60)%nat l.

(** The frame durations measured at the clock readings [ts], the first
    one from [t0]. *)
Fixpoint durations (t0 : Q) (ts : list Q) : list Q :=
  match ts with
  | [] => []
  | t :: ts' => (t - t0) :: durations t ts'
  end.

(** Successive calls of [calculate_fps] at the clock readings [ts]. *)
Fixpoint clock_run (ts : list Q) (e : SixStrokeEngine.t) : SixStrokeEngine.t :=
  match ts with
  | [] => e
  | t :: ts' => clock_run ts' (snd (SixStrokeEngine.calculate_fps t e))
  end.

(** The upgrades of [us] whose draw is not zero, and whether [u] is one
    of them. *)
Fixpoint selected (us : list string) (draws : list Z) : list string :=
  match us, draws with
  | u :: us', d :: draws' =>
      if negb (d =? 0)%Z then u :: selected us' draws' else selected us' draws'
  | _, _ => []
  end.

Definition drawn (us : list string) (draws : list Z) (u : string) : bool :=
  existsb (String.eqb u) (selected us draws).

(** What holds of the volumetric efficiency in every state reached from
    the constructor: it lies in [[0.9, 1.0]], and is 1.0 as soon as the
    turbocharger is active. *)
Definition saturated_under_turbocharger (e : SixStrokeEngine.t) : Prop :=
  registered e /\
  0.9 <= SixStrokeEngine.volumetric_efficiency e /\ SixStrokeEngine.volumetric_efficiency e <= 1.0 /\
  (active "turbocharger" (SixStrokeEngine.upgrades e) = true -> SixStrokeEngine.volumetric_efficiency e == 1.0).

(** ** The recomputation in binary64 arithmetic *)

(** [update_performance] once more, on the doubles of the program: every
    operation below is the IEEE 754 binary64 operation, rounded to
    nearest on its own (no fused multiply-add, no extended precision),
    and the operations come in the order the source writes them.
    Integer literals and the [int] member, taken non-negative, are
    converted to [double] where the C++ expression converts them.  The
    record holds the members that [update_performance] and the closures
    read or write. *)
Module Binary64.
Import PrimInt63 PrimFloat.
#[local] Set Warnings "-inexact-float".
Local Open Scope float_scope.

(** [std::max(a, b)] is [(a < b) ? b : a], and [std::min(a, b)] is
    [(b < a) ? b : a]. *)
Definition std_max (a b : float) : float := if a <? b then b else a.

Definition std_min (a b : float) : float := if b <? a then b else a.

(** Line 16. *)
Definition PI : float := 3.14159265358979323846.

Record t : Type := mk {
  bore : float;
  stroke : float;
  num_cylinders : PrimInt63.int;
  rod_length : float;
  rpm : float;
  mean_effective_pressure : float;
  compression_ratio : float;
  displacement : float;
  rod_stroke_ratio : float;
  piston_speed : float;
  power_output : float;
  torque : float;
  thermal_efficiency : float;
  volumetric_efficiency : float;
  fuel_consumption : float;
  brake_specific_fuel_consumption : float;
  co2_emissions : float;
  nox_emissions : float;
  upgrades : StdMap.t;
  water_injection_active : bool;
  engine_temperature : float;
  optimal_temperature : float
}.

Definition set_displacement (v : float) (e : t) : t :=
  mk (bore e) (stroke e) (num_cylinders e) (rod_length e) (rpm e) (mean_effective_pressure e)
     (compression_ratio e) v (rod_stroke_ratio e) (piston_speed e) (power_output e) (torque e)
     (thermal_efficiency e) (volumetric_efficiency e) (fuel_consumption e)
     (brake_specific_fuel_consumption e) (co2_emissions e) (nox_emissions e) (upgrades e)
     (water_injection_active e) (engine_temperature e) (optimal_temperature e).

Definition set_rod_stroke_ratio (v : float) (e : t) : t :=
  mk (bore e) (stroke e) (num_cylinders e) (rod_length e) (rpm e) (mean_effective_pressure e)
     (compression_ratio e) (displacement e) v (piston_speed e) (power_output e) (torque e)
     (thermal_efficiency e) (volumetric_efficiency e) (fuel_consumption e)
     (brake_specific_fuel_consumption e) (co2_emissions e) (nox_emissions e) (upgrades e)
     (water_injection_active e) (engine_temperature e) (optimal_temperature e).

Definition set_piston_speed (v : float) (e : t) : t :=
  mk (bore e) (stroke e) (num_cylinders e) (rod_length e) (rpm e) (mean_effective_pressure e)
     (compression_ratio e) (displacement e) (rod_stroke_ratio e) v (power_output e) (torque e)
     (thermal_efficiency e) (volumetric_efficiency e) (fuel_consumption e)
     (brake_specific_fuel_consumption e) (co2_emissions e) (nox_emissions e) (upgrades e)
     (water_injection_active e) (engine_temperature e) (optimal_temperature e).

Definition set_power_output (v : float) (e : t) : t :=
  mk (bore e) (stroke e) (num_cylinders e) (rod_length e) (rpm e) (mean_effective_pressure e)
     (compression_ratio e) (displacement e) (rod_stroke_ratio e) (piston_speed e) v (torque e)
     (thermal_efficiency e) (volumetric_efficiency e) (fuel_consumption e)
     (brake_specific_fuel_consumption e) (co2_emissions e) (nox_emissions e) (upgrades e)
     (water_injection_active e) (engine_temperature e) (optimal_temperature e).

Definition set_torque (v : float) (e : t) : t :=
  mk (bore e) (stroke e) (num_cylinders e) (rod_length e) (rpm e) (mean_effective_pressure e)
     (compression_ratio e) (displacement e) (rod_stroke_ratio e) (piston_speed e)
     (power_output e) v (thermal_efficiency e) (volumetric_efficiency e) (fuel_consumption e)
     (brake_specific_fuel_consumption e) (co2_emissions e) (nox_emissions e) (upgrades e)
     (water_injection_active e) (engine_temperature e) (optimal_temperature e).

Definition set_thermal_efficiency (v : float) (e : t) : t :=
  mk (bore e) (stroke e) (num_cylinders e) (rod_length e) (rpm e) (mean_effective_pressure e)
     (compression_ratio e) (displacement e) (rod_stroke_ratio e) (piston_speed e)
     (power_output e) (torque e) v (volumetric_efficiency e) (fuel_consumption e)
     (brake_specific_fuel_consumption e) (co2_emissions e) (nox_emissions e) (upgrades e)
     (water_injection_active e) (engine_temperature e) (optimal_temperature e).

Definition set_volumetric_efficiency (v : float) (e : t) : t :=
  mk (bore e) (stroke e) (num_cylinders e) (rod_length e) (rpm e) (mean_effective_pressure e)
     (compression_ratio e) (displacement e) (rod_stroke_ratio e) (piston_speed e)
     (power_output e) (torque e) (thermal_efficiency e) v (fuel_consumption e)
     (brake_specific_fuel_consumption e) (co2_emissions e) (nox_emissions e) (upgrades e)
     (water_injection_active e) (engine_temperature e) (optimal_temperature e).

Definition set_fuel_consumption (v : float) (e : t) : t :=
  mk (bore e) (stroke e) (num_cylinders e) (rod_length e) (rpm e) (mean_effective_pressure e)
     (compression_ratio e) (displacement e) (rod_stroke_ratio e) (piston_speed e)
     (power_output e) (torque e) (thermal_efficiency e) (volumetric_efficiency e) v
     (brake_specific_fuel_consumption e) (co2_emissions e) (nox_emissions e) (upgrades e)
     (water_injection_active e) (engine_temperature e) (optimal_temperature e).

Definition set_brake_specific_fuel_consumption (v : float) (e : t) : t :=
  mk (bore e) (stroke e) (num_cylinders e) (rod_length e) (rpm e) (mean_effective_pressure e)
     (compression_ratio e) (displacement e) (rod_stroke_ratio e) (piston_speed e)
     (power_output e) (torque e) (thermal_efficiency e) (volumetric_efficiency e)
     (fuel_consumption e) v (co2_emissions e) (nox_emissions e) (upgrades e)
     (water_injection_active e) (engine_temperature e) (optimal_temperature e).

Definition set_co2_emissions (v : float) (e : t) : t :=
  mk (bore e) (stroke e) (num_cylinders e) (rod_length e) (rpm e) (mean_effective_pressure e)
     (compression_ratio e) (displacement e) (rod_stroke_ratio e) (piston_speed e)
     (power_output e) (torque e) (thermal_efficiency e) (volumetric_efficiency e)
     (fuel_consumption e) (brake_specific_fuel_consumption e) v (nox_emissions e) (upgrades e)
     (water_injection_active e) (engine_temperature e) (optimal_temperature e).

Definition set_nox_emissions (v : float) (e : t) : t :=
  mk (bore e) (stroke e) (num_cylinders e) (rod_length e) (rpm e) (mean_effective_pressure e)
     (compression_ratio e) (displacement e) (rod_stroke_ratio e) (piston_speed e)
     (power_output e) (torque e) (thermal_efficiency e) (volumetric_efficiency e)
     (fuel_consumption e) (brake_specific_fuel_consumption e) (co2_emissions e) v (upgrades e)
     (water_injection_active e) (engine_temperature e) (optimal_temperature e).

Definition set_water_injection_active (v : bool) (e : t) : t :=
  mk (bore e) (stroke e) (num_cylinders e) (rod_length e) (rpm e) (mean_effective_pressure e)
     (compression_ratio e) (displacement e) (rod_stroke_ratio e) (piston_speed e)
     (power_output e) (torque e) (thermal_efficiency e) (volumetric_efficiency e)
     (fuel_consumption e) (brake_specific_fuel_consumption e) (co2_emissions e)
     (nox_emissions e) (upgrades e) v (engine_temperature e) (optimal_temperature e).

Definition set_engine_temperature (v : float) (e : t) : t :=
  mk (bore e) (stroke e) (num_cylinders e) (rod_length e) (rpm e) (mean_effective_pressure e)
     (compression_ratio e) (displacement e) (rod_stroke_ratio e) (piston_speed e)
     (power_output e) (torque e) (thermal_efficiency e) (volumetric_efficiency e)
     (fuel_consumption e) (brake_specific_fuel_consumption e) (co2_emissions e)
     (nox_emissions e) (upgrades e) (water_injection_active e) v (optimal_temperature e).

Section Model.

(** libm's [pow], called at lines 53 and 73. *)
Variable pow : float -> float -> float.

Definition calculate_displacement (e : t) : t :=
  set_displacement
    ((PI / 4.0) * pow (bore e) 2 * stroke e * of_uint63 (num_cylinders e)) e.

Definition calculate_rod_stroke_ratio (e : t) : t :=
  set_rod_stroke_ratio (rod_length e / stroke e) e.

Definition calculate_piston_speed (e : t) : t :=
  set_piston_speed ((2 * stroke e * rpm e) / 60.0) e.

Definition calculate_power (e : t) : float :=
  (mean_effective_pressure e * displacement e * rpm e)
  / of_uint63 (PrimInt63.mul 120 1000).

Definition calculate_torque (e : t) : float :=
  (power_output e * 1000 * 60) / (2 * PI * rpm e).

Definition calculate_thermal_efficiency (e : t) : float :=
  1 - 1 / pow (compression_ratio e) (1.4 - 1).

(** The closures of lines 168-206. *)
Definition upgrade_effects : list (string * (t -> t)) :=
  [ ("direct_injection"%string, fun e =>
       let e := set_fuel_consumption (fuel_consumption e * 0.9) e in
       set_thermal_efficiency (thermal_efficiency e * 1.05) e);
    ("turbocharger"%string, fun e =>
       let e := set_power_output (power_output e * 1.2) e in
       set_volumetric_efficiency (volumetric_efficiency e * 1.15) e);
    ("variable_valve_timing"%string, fun e =>
       let e := set_volumetric_efficiency (volumetric_efficiency e * 1.1) e in
       set_fuel_consumption (fuel_consumption e * 0.95) e);
    ("exhaust_gas_recirculation"%string, fun e =>
       set_nox_emissions (nox_emissions e * 0.7) e);
    ("waste_heat_recovery"%string, fun e =>
       set_thermal_efficiency (thermal_efficiency e * 1.05) e);
    ("smart_cooling"%string, fun e =>
       set_thermal_efficiency (thermal_efficiency e * 1.02) e);
    ("advanced_materials"%string, fun e =>
       set_power_output (power_output e * 1.05) e);
    ("enhanced_ecu"%string, fun e =>
       let e := set_fuel_consumption (fuel_consumption e * 0.95) e in
       set_power_output (power_output e * 1.05) e);
    ("cylinder_deactivation"%string, fun e =>
       set_fuel_consumption (fuel_consumption e * 0.92) e);
    ("variable_compression"%string, fun e =>
       let e := set_thermal_efficiency (thermal_efficiency e * 1.08) e in
       set_fuel_consumption (fuel_consumption e * 0.93) e);
    ("ceramic_coating"%string, fun e =>
       let e := set_thermal_efficiency (thermal_efficiency e * 1.03) e in
       set_engine_temperature (engine_temperature e - 5) e) ].

Fixpoint effect_at (l : list (string * (t -> t))) (u : string) : option (t -> t) :=
  match l with
  | [] => None
  | (k, f) :: l' => if String.eqb u k then Some f else effect_at l' u
  end.

(** The range-for over [upgrades] (lines 84-88). *)
Fixpoint apply_active_upgrades (l : StdMap.t) (e : t) : t :=
  match l with
  | [] => e
  | (upgrade, is_active) :: l' =>
      let e :=
        if (is_active : bool) then
          match effect_at upgrade_effects upgrade with
          | Some effect => effect e
          | None => e
          end
        else e in
      apply_active_upgrades l' e
  end.

(** Lines 77-82. *)
Definition base_metrics (e : t) : t :=
  let e := calculate_displacement e in
  let e := calculate_rod_stroke_ratio e in
  let e := calculate_piston_speed e in
  let e := set_power_output (calculate_power e) e in
  let e := set_torque (calculate_torque e) e in
  set_thermal_efficiency (calculate_thermal_efficiency e) e.

(** Lines 90-97. *)
Definition consumption_and_emissions (e : t) : t :=
  let e := set_fuel_consumption
             ((power_output e * 3600) / (43000 * thermal_efficiency e)) e in
  let e := set_brake_specific_fuel_consumption
             ((fuel_consumption e * 3600) / power_output e) e in
  let e := set_co2_emissions (brake_specific_fuel_consumption e * 3.2) e in
  set_nox_emissions
    (0.01 * power_output e * (1 + (engine_temperature e - 90) / 100)) e.

(** Lines 99-102. *)
Definition water_injection_adjustment (e : t) : t :=
  if water_injection_active e then
    let e := set_thermal_efficiency (thermal_efficiency e * 1.1) e in
    set_nox_emissions (nox_emissions e * 0.8) e
  else e.

(** Lines 104-107. *)
Definition temperature_adjustment (e : t) : t :=
  let temp_difference := abs (engine_temperature e - optimal_temperature e) in
  if 10 <? temp_difference
  then set_thermal_efficiency
         (thermal_efficiency e * (1 - 0.001 * temp_difference)) e
  else e.

(** Lines 109-110. *)
Definition clamp_volumetric_efficiency (e : t) : t :=
  set_volumetric_efficiency
    (std_min (std_max (volumetric_efficiency e) 0.7) 1.0) e.

(** The engine after the loop over the upgrades (lines 77-88). *)
Definition upgraded (e : t) : t :=
  let e := base_metrics e in
  apply_active_upgrades (upgrades e) e.

Definition update_performance (e : t) : t :=
  let e := upgraded e in
  let e := consumption_and_emissions e in
  let e := water_injection_adjustment e in
  let e := temperature_adjustment e in
  clamp_volumetric_efficiency e.

End Model.

(** The values glibc's [pow] returns at the two calls the constructed
    engine makes: [pow(0.086, 2)] is the rounded square, and
    [pow(11.0, 1.4 - 1)] is 2.6094986352788725. *)
Definition pow_sample (x y : float) : float :=
  if y =? 2 then x * x
  else if (x =? 11) && (y =? 1.4 - 1) then 0x1.4e040d20bd5cap+1
  else 1.

(** The members as the constructor leaves them before its first
    recomputation (lines 120-166), at the engine temperature
    [temperature]. *)
Definition constructed_at (temperature : float) : t :=
  {| bore := 0.086; stroke := 0.086; num_cylinders := 3%uint63;
     rod_length := 0.143; rpm := 1000; mean_effective_pressure := 1000000;
     compression_ratio := 11.0;
     displacement := 0; rod_stroke_ratio := 0; piston_speed := 0;
     power_output := 0; torque := 0; thermal_efficiency := 0;
     volumetric_efficiency := 0.9; fuel_consumption := 0;
     brake_specific_fuel_consumption := 0; co2_emissions := 0;
     nox_emissions := 0.5;
     upgrades :=
       fold_left (fun m u => StdMap.assign u false m)
         SixStrokeEngine.registered_upgrades StdMap.empty;
     water_injection_active := false;
     engine_temperature := temperature; optimal_temperature := 90 |}.

End Binary64.

(** * Properties *)

Import SixStrokeEngine.
Import Frame.

(** ** Comparisons and clamping *)

Lemma Qltb_lt (x y : Q) : Qltb x y = true <-> x < y.
Proof. unfold Qltb, Qlt. apply Z.ltb_lt. Qed.

Lemma Qltb_ge (x y : Q) : Qltb x y = false <-> y <= x.
Proof. unfold Qltb, Qle. rewrite Z.ltb_ge. reflexivity. Qed.

Lemma Qltb_spec (x y : Q) : reflect (x < y) (Qltb x y).
Proof.
  destruct (Qltb x y) eqn:H; constructor.
  - now apply Qltb_lt.
  - apply Qltb_ge in H. now apply Qle_not_lt.
Qed.

Lemma std_max_lb_l (a b : Q) : a <= std_max a b.
Proof. unfold std_max. destruct (Qltb_spec a b); lra. Qed.

Lemma std_max_lb_r (a b : Q) : b <= std_max a b.
Proof. unfold std_max. destruct (Qltb_spec a b); lra. Qed.

Lemma std_max_lub (a b c : Q) : a <= c -> b <= c -> std_max a b <= c.
Proof. unfold std_max. destruct (Qltb_spec a b); lra. Qed.

Lemma std_min_ub_l (a b : Q) : std_min a b <= a.
Proof. unfold std_min. destruct (Qltb_spec b a); lra. Qed.

Lemma std_min_ub_r (a b : Q) : std_min a b <= b.
Proof. unfold std_min. destruct (Qltb_spec b a); lra. Qed.

Lemma std_min_glb (a b c : Q) : c <= a -> c <= b -> c <= std_min a b.
Proof. unfold std_min. destruct (Qltb_spec b a); lra. Qed.

(** The clamp [std::max(lo, std::min(hi, x))] lands in [[lo, hi]]. *)
Lemma clamp_bounds (lo hi x : Q) :
  lo <= hi -> lo <= std_max lo (std_min hi x) /\ std_max lo (std_min hi x) <= hi.
Proof.
  intros Hb. split.
  - apply std_max_lb_l.
  - apply std_max_lub; [exact Hb | apply std_min_ub_l].
Qed.

(** The clamp [std::min(std::max(x, lo), hi)] lands in [[lo, hi]] too. *)
Lemma clamp_bounds' (lo hi x : Q) :
  lo <= hi -> lo <= std_min (std_max x lo) hi /\ std_min (std_max x lo) hi <= hi.
Proof.
  intros Hb. split.
  - apply std_min_glb; [apply std_max_lb_r | exact Hb].
  - apply std_min_ub_r.
Qed.

#[global] Instance std_max_proper : Proper (Qeq ==> Qeq ==> Qeq) std_max.
Proof.
  intros a a' Ha b b' Hb. unfold std_max.
  destruct (Qltb_spec a b), (Qltb_spec a' b'); lra.
Qed.

#[global] Instance std_min_proper : Proper (Qeq ==> Qeq ==> Qeq) std_min.
Proof.
  intros a a' Ha b b' Hb. unfold std_min.
  destruct (Qltb_spec b a), (Qltb_spec b' a'); lra.
Qed.

(** ** The gearbox *)

Lemma five_speed_make : five_speed Gearbox.make.
Proof. split; [reflexivity | simpl; lia]. Qed.

Lemma shift_up_gear (g : Gearbox.t) :
  Gearbox.gear_ratios g = Gearbox.gear_ratios Gearbox.make ->
  Gearbox.current_gear (Gearbox.shift_up g) =
    if (Gearbox.current_gear g <? 5)%Z
    then (Gearbox.current_gear g + 1)%Z else Gearbox.current_gear g.
Proof.
  intros Hr. unfold Gearbox.shift_up. rewrite Hr. simpl.
  destruct (Gearbox.current_gear g <? 5)%Z; reflexivity.
Qed.

Lemma shift_down_gear (g : Gearbox.t) :
  Gearbox.current_gear (Gearbox.shift_down g) =
    if (Gearbox.current_gear g >? 1)%Z
    then (Gearbox.current_gear g - 1)%Z else Gearbox.current_gear g.
Proof.
  unfold Gearbox.shift_down.
  destruct (Gearbox.current_gear g >? 1)%Z; reflexivity.
Qed.

Lemma shift_up_ratios (g : Gearbox.t) :
  Gearbox.gear_ratios (Gearbox.shift_up g) = Gearbox.gear_ratios g.
Proof.
  unfold Gearbox.shift_up.
  destruct (Gearbox.current_gear g <? _)%Z; reflexivity.
Qed.

Lemma shift_down_ratios (g : Gearbox.t) :
  Gearbox.gear_ratios (Gearbox.shift_down g) = Gearbox.gear_ratios g.
Proof.
  unfold Gearbox.shift_down.
  destruct (Gearbox.current_gear g >? 1)%Z; reflexivity.
Qed.

Lemma five_speed_shift_up (g : Gearbox.t) :
  five_speed g -> five_speed (Gearbox.shift_up g).
Proof.
  intros [Hr Hg]. split.
  - now rewrite shift_up_ratios.
  - rewrite (shift_up_gear g Hr).
    destruct (Z.ltb_spec (Gearbox.current_gear g) 5); lia.
Qed.

Lemma five_speed_shift_down (g : Gearbox.t) :
  five_speed g -> five_speed (Gearbox.shift_down g).
Proof.
  intros [Hr Hg]. split.
  - now rewrite shift_down_ratios.
  - rewrite shift_down_gear. rewrite Z.gtb_ltb.
    destruct (Z.ltb_spec 1 (Gearbox.current_gear g)); lia.
Qed.

(** The four cases of a shift in a five-gear gearbox. *)
Lemma gearbox_shift_cases (g : Gearbox.t) :
  five_speed g ->
  (Gearbox.current_gear g = 5%Z -> Gearbox.shift_up g = g) /\
  (Gearbox.current_gear g = 1%Z -> Gearbox.shift_down g = g) /\
  (Gearbox.current_gear g <> 5%Z ->
     Gearbox.current_gear (Gearbox.shift_up g) = (Gearbox.current_gear g + 1)%Z) /\
  (Gearbox.current_gear g <> 1%Z ->
     Gearbox.current_gear (Gearbox.shift_down g) = (Gearbox.current_gear g - 1)%Z).
Proof.
  intros [Hr Hg]. repeat split.
  - intros H5. unfold Gearbox.shift_up. rewrite Hr, H5. reflexivity.
  - intros H1. unfold Gearbox.shift_down. rewrite H1. reflexivity.
  - intros Hn. rewrite (shift_up_gear g Hr).
    destruct (Z.ltb_spec (Gearbox.current_gear g) 5); [reflexivity | lia].
  - intros Hn. rewrite shift_down_gear, Z.gtb_ltb.
    destruct (Z.ltb_spec 1 (Gearbox.current_gear g)); [reflexivity | lia].
Qed.

(** C8.  In the five-gear gearbox, [shift_up] at the top gear and
    [shift_down] at gear 1 return the gearbox unchanged; at every other
    gear [shift_up] raises and [shift_down] lowers the index by exactly
    one.  Both are total functions, and neither touches the ratios. *)
Theorem gearbox_shift_clamped (g : Gearbox.t) :
  five_speed g ->
  (Gearbox.current_gear g = 5%Z -> Gearbox.shift_up g = g) /\
  (Gearbox.current_gear g = 1%Z -> Gearbox.shift_down g = g) /\
  (Gearbox.current_gear g <> 5%Z ->
     Gearbox.get_current_gear (Gearbox.shift_up g) =
       (Gearbox.get_current_gear g + 1)%Z) /\
  (Gearbox.current_gear g <> 1%Z ->
     Gearbox.get_current_gear (Gearbox.shift_down g) =
       (Gearbox.get_current_gear g - 1)%Z) /\
  Gearbox.gear_ratios (Gearbox.shift_up g) = Gearbox.gear_ratios g /\
  Gearbox.gear_ratios (Gearbox.shift_down g) = Gearbox.gear_ratios g.
Proof.
  intros Hfive.
  destruct (gearbox_shift_cases g Hfive) as (Hup5 & Hdn1 & Hup & Hdn).
  unfold Gearbox.get_current_gear.
  repeat split; auto using shift_up_ratios, shift_down_ratios.
Qed.

(** The theorem at gear 5 of the constructor's gearbox. *)
Lemma gearbox_shift_clamped_witness :
  Gearbox.shift_up (Gearbox.mk [3.42; 2.14; 1.45; 1.0; 0.83] 5) =
    Gearbox.mk [3.42; 2.14; 1.45; 1.0; 0.83] 5 /\
  Gearbox.get_current_gear
    (Gearbox.shift_down (Gearbox.mk [3.42; 2.14; 1.45; 1.0; 0.83] 5)) = 4%Z.
Proof.
  assert (Hg : five_speed (Gearbox.mk [3.42; 2.14; 1.45; 1.0; 0.83] 5))
    by (split; [reflexivity | simpl; lia]).
  destruct (gearbox_shift_clamped _ Hg) as (Hup & _ & _ & Hdown & _).
  split.
  - apply Hup. reflexivity.
  - apply Hdown. simpl. lia.
Defined.

Section Stages.

Variable pow : Q -> Q -> Q.

(** [update_performance] is the loop over the upgrades followed by the
    rest of the recomputation. *)
Lemma update_performance_stages (e : t) :
  update_performance pow e = finish (upgraded pow e).
Proof. unfold update_performance, finish, upgraded. cbv zeta. reflexivity. Qed.

End Stages.

(** ** What the performance recomputation may write *)

Lemma opc_refl (e : t) : only_performance_changed e e.
Proof. destruct e. do 12 eexists. reflexivity. Qed.

Lemma opc_trans (e1 e2 e3 : t) :
  only_performance_changed e1 e2 -> only_performance_changed e2 e3 ->
  only_performance_changed e1 e3.
Proof.
  intros (d & rs & ps & p & tq & te & fc & bs & co & nx & ve & tmp & ->).
  intros (d' & rs' & ps' & p' & tq' & te' & fc' & bs' & co' & nx' & ve' & tmp' & ->).
  do 12 eexists. reflexivity.
Qed.

Ltac opc_setter :=
  let e := fresh "e" in
  intros; match goal with |- only_performance_changed ?x _ => destruct x end;
  do 12 eexists; reflexivity.

Lemma opc_set_displacement v e : only_performance_changed e (set_displacement v e).
Proof. opc_setter. Qed.
Lemma opc_set_rod_stroke_ratio v e : only_performance_changed e (set_rod_stroke_ratio v e).
Proof. opc_setter. Qed.
Lemma opc_set_piston_speed v e : only_performance_changed e (set_piston_speed v e).
Proof. opc_setter. Qed.
Lemma opc_set_power_output v e : only_performance_changed e (set_power_output v e).
Proof. opc_setter. Qed.
Lemma opc_set_torque v e : only_performance_changed e (set_torque v e).
Proof. opc_setter. Qed.
Lemma opc_set_thermal_efficiency v e :
  only_performance_changed e (set_thermal_efficiency v e).
Proof. opc_setter. Qed.
Lemma opc_set_fuel_consumption v e : only_performance_changed e (set_fuel_consumption v e).
Proof. opc_setter. Qed.
Lemma opc_set_brake_specific_fuel_consumption v e :
  only_performance_changed e (set_brake_specific_fuel_consumption v e).
Proof. opc_setter. Qed.
Lemma opc_set_co2_emissions v e : only_performance_changed e (set_co2_emissions v e).
Proof. opc_setter. Qed.
Lemma opc_set_nox_emissions v e : only_performance_changed e (set_nox_emissions v e).
Proof. opc_setter. Qed.
Lemma opc_set_volumetric_efficiency v e :
  only_performance_changed e (set_volumetric_efficiency v e).
Proof. opc_setter. Qed.
Lemma opc_set_engine_temperature v e :
  only_performance_changed e (set_engine_temperature v e).
Proof. opc_setter. Qed.

Create HintDb opc.
#[global] Hint Resolve opc_refl opc_set_displacement opc_set_rod_stroke_ratio
  opc_set_piston_speed opc_set_power_output opc_set_torque
  opc_set_thermal_efficiency opc_set_fuel_consumption
  opc_set_brake_specific_fuel_consumption opc_set_co2_emissions
  opc_set_nox_emissions opc_set_volumetric_efficiency
  opc_set_engine_temperature : opc.

(** Chains of writes to performance members. *)
Ltac opc_chain :=
  repeat first
    [ solve [auto with opc]
    | eapply opc_trans; [ | solve [auto with opc] ] ].

(** The closures write less: six members only. *)
Lemma otc_refl (e : t) : only_tuning_changed e e.
Proof. destruct e. do 6 eexists. reflexivity. Qed.

Lemma otc_trans (e1 e2 e3 : t) :
  only_tuning_changed e1 e2 -> only_tuning_changed e2 e3 ->
  only_tuning_changed e1 e3.
Proof.
  intros (p & te & ve & tmp & fc & nx & ->) (p' & te' & ve' & tmp' & fc' & nx' & ->).
  do 6 eexists. reflexivity.
Qed.

Lemma otc_opc (e e' : t) : only_tuning_changed e e' -> only_performance_changed e e'.
Proof.
  intros (p & te & ve & tmp & fc & nx & ->). destruct e. do 12 eexists. reflexivity.
Qed.

Ltac otc_setter :=
  intros; match goal with |- only_tuning_changed ?x _ => destruct x end;
  do 6 eexists; reflexivity.

Lemma otc_set_power_output v e : only_tuning_changed e (set_power_output v e).
Proof. otc_setter. Qed.
Lemma otc_set_thermal_efficiency v e :
  only_tuning_changed e (set_thermal_efficiency v e).
Proof. otc_setter. Qed.
Lemma otc_set_volumetric_efficiency v e :
  only_tuning_changed e (set_volumetric_efficiency v e).
Proof. otc_setter. Qed.
Lemma otc_set_engine_temperature v e :
  only_tuning_changed e (set_engine_temperature v e).
Proof. otc_setter. Qed.
Lemma otc_set_fuel_consumption v e : only_tuning_changed e (set_fuel_consumption v e).
Proof. otc_setter. Qed.
Lemma otc_set_nox_emissions v e : only_tuning_changed e (set_nox_emissions v e).
Proof. otc_setter. Qed.

Create HintDb otc.
#[global] Hint Resolve otc_refl otc_set_power_output otc_set_thermal_efficiency
  otc_set_volumetric_efficiency otc_set_engine_temperature
  otc_set_fuel_consumption otc_set_nox_emissions : otc.

Ltac otc_chain :=
  repeat first
    [ solve [auto with otc]
    | eapply otc_trans; [ | solve [auto with otc] ] ].

Section Frames.

Variable pow : Q -> Q -> Q.

Lemma otc_effect (u : string) (f : t -> t) (e : t) :
  effect_at upgrade_effects u = Some f -> only_tuning_changed e (f e).
Proof.
  unfold upgrade_effects, effect_at.
  repeat (destruct (String.eqb u _);
          [ intros [= <-]; cbv beta zeta; otc_chain | ]).
  discriminate.
Qed.

Lemma otc_apply_active_upgrades (l : StdMap.t) (e : t) :
  only_tuning_changed e (apply_active_upgrades l e).
Proof.
  revert e. induction l as [| [u b] l IH]; intros e; cbn [apply_active_upgrades].
  - apply otc_refl.
  - eapply otc_trans; [ | apply IH ].
    destruct b; [ | apply otc_refl ].
    destruct (effect_at upgrade_effects u) as [f |] eqn:Hf; [ | apply otc_refl ].
    now apply otc_effect with (u := u).
Qed.

Lemma opc_apply_active_upgrades (l : StdMap.t) (e : t) :
  only_performance_changed e (apply_active_upgrades l e).
Proof. apply otc_opc, otc_apply_active_upgrades. Qed.

Lemma opc_base_metrics (e : t) : only_performance_changed e (base_metrics pow e).
Proof.
  unfold base_metrics, calculate_displacement, calculate_rod_stroke_ratio,
    calculate_piston_speed.
  cbv zeta. opc_chain.
Qed.

Lemma opc_consumption_and_emissions (e : t) :
  only_performance_changed e (consumption_and_emissions e).
Proof. unfold consumption_and_emissions. cbv zeta. opc_chain. Qed.

Lemma opc_water_injection_adjustment (e : t) :
  only_performance_changed e (water_injection_adjustment e).
Proof.
  unfold water_injection_adjustment.
  destruct (water_injection_active e); cbv zeta; opc_chain.
Qed.

Lemma opc_temperature_adjustment (e : t) :
  only_performance_changed e (temperature_adjustment e).
Proof.
  unfold temperature_adjustment. cbv zeta.
  destruct (Qltb 10 _); opc_chain.
Qed.

Lemma opc_clamp_volumetric_efficiency (e : t) :
  only_performance_changed e (clamp_volumetric_efficiency e).
Proof. unfold clamp_volumetric_efficiency. opc_chain. Qed.

Lemma opc_upgraded (e : t) : only_performance_changed e (upgraded pow e).
Proof.
  unfold upgraded.
  eapply opc_trans; [ apply opc_base_metrics | apply opc_apply_active_upgrades ].
Qed.

Lemma opc_finish (x : t) : only_performance_changed x (finish x).
Proof.
  unfold finish.
  eapply opc_trans; [ | apply opc_clamp_volumetric_efficiency ].
  eapply opc_trans; [ | apply opc_temperature_adjustment ].
  eapply opc_trans; [ | apply opc_water_injection_adjustment ].
  apply opc_consumption_and_emissions.
Qed.

Lemma opc_update_performance (e : t) :
  only_performance_changed e (update_performance pow e).
Proof.
  rewrite update_performance_stages.
  eapply opc_trans; [ apply opc_upgraded | apply opc_finish ].
Qed.

End Frames.

(** Members outside the twelve keep their values. *)
Ltac opc_member H :=
  destruct H as (? & ? & ? & ? & ? & ? & ? & ? & ? & ? & ? & ? & ->); reflexivity.

Lemma opc_rpm (e e' : t) : only_performance_changed e e' -> rpm e' = rpm e.
Proof. intros H. opc_member H. Qed.
Lemma opc_max_rpm (e e' : t) : only_performance_changed e e' -> max_rpm e' = max_rpm e.
Proof. intros H. opc_member H. Qed.
Lemma opc_idle_rpm (e e' : t) : only_performance_changed e e' -> idle_rpm e' = idle_rpm e.
Proof. intros H. opc_member H. Qed.
Lemma opc_gearbox (e e' : t) : only_performance_changed e e' -> gearbox e' = gearbox e.
Proof. intros H. opc_member H. Qed.
Lemma opc_transmission_mode (e e' : t) : only_performance_changed e e' -> transmission_mode e' = transmission_mode e.
Proof. intros H. opc_member H. Qed.
Lemma opc_upgrades (e e' : t) : only_performance_changed e e' -> upgrades e' = upgrades e.
Proof. intros H. opc_member H. Qed.
Lemma opc_water_injection_active (e e' : t) : only_performance_changed e e' -> water_injection_active e' = water_injection_active e.
Proof. intros H. opc_member H. Qed.
Lemma opc_optimal_temperature (e e' : t) : only_performance_changed e e' -> optimal_temperature e' = optimal_temperature e.
Proof. intros H. opc_member H. Qed.
Lemma opc_acceleration (e e' : t) : only_performance_changed e e' -> acceleration e' = acceleration e.
Proof. intros H. opc_member H. Qed.
Lemma opc_jerk (e e' : t) : only_performance_changed e e' -> jerk e' = jerk e.
Proof. intros H. opc_member H. Qed.
Lemma opc_gear_shift_message (e e' : t) : only_performance_changed e e' -> gear_shift_message e' = gear_shift_message e.
Proof. intros H. opc_member H. Qed.
Lemma opc_gear_shift_message_timer (e e' : t) : only_performance_changed e e' -> gear_shift_message_timer e' = gear_shift_message_timer e.
Proof. intros H. opc_member H. Qed.

Section PerformanceFrame.

Variable pow : Q -> Q -> Q.

Lemma update_performance_rpm (e : t) : rpm (update_performance pow e) = rpm e.
Proof. apply opc_rpm, opc_update_performance. Qed.
Lemma update_performance_max_rpm (e : t) : max_rpm (update_performance pow e) = max_rpm e.
Proof. apply opc_max_rpm, opc_update_performance. Qed.
Lemma update_performance_idle_rpm (e : t) : idle_rpm (update_performance pow e) = idle_rpm e.
Proof. apply opc_idle_rpm, opc_update_performance. Qed.
Lemma update_performance_gearbox (e : t) : gearbox (update_performance pow e) = gearbox e.
Proof. apply opc_gearbox, opc_update_performance. Qed.
Lemma update_performance_transmission_mode (e : t) : transmission_mode (update_performance pow e) = transmission_mode e.
Proof. apply opc_transmission_mode, opc_update_performance. Qed.
Lemma update_performance_upgrades (e : t) : upgrades (update_performance pow e) = upgrades e.
Proof. apply opc_upgrades, opc_update_performance. Qed.
Lemma update_performance_water_injection_active (e : t) : water_injection_active (update_performance pow e) = water_injection_active e.
Proof. apply opc_water_injection_active, opc_update_performance. Qed.
Lemma update_performance_optimal_temperature (e : t) : optimal_temperature (update_performance pow e) = optimal_temperature e.
Proof. apply opc_optimal_temperature, opc_update_performance. Qed.
Lemma update_performance_acceleration (e : t) : acceleration (update_performance pow e) = acceleration e.
Proof. apply opc_acceleration, opc_update_performance. Qed.
Lemma update_performance_jerk (e : t) : jerk (update_performance pow e) = jerk e.
Proof. apply opc_jerk, opc_update_performance. Qed.
Lemma update_performance_gear_shift_message (e : t) : gear_shift_message (update_performance pow e) = gear_shift_message e.
Proof. apply opc_gear_shift_message, opc_update_performance. Qed.
Lemma update_performance_gear_shift_message_timer (e : t) : gear_shift_message_timer (update_performance pow e) = gear_shift_message_timer e.
Proof. apply opc_gear_shift_message_timer, opc_update_performance. Qed.

End PerformanceFrame.

Create Rewrite HintDb frame.
#[global] Hint Rewrite update_performance_rpm update_performance_max_rpm update_performance_idle_rpm update_performance_gearbox update_performance_transmission_mode update_performance_upgrades update_performance_water_injection_active update_performance_optimal_temperature update_performance_acceleration update_performance_jerk update_performance_gear_shift_message update_performance_gear_shift_message_timer : frame.


(** ** The upgrade map *)

Lemma known_upgrades_registered (u : string) :
  In u known_upgrades <-> In u registered_upgrades.
Proof.
  unfold known_upgrades, registered_upgrades. simpl. tauto.
Qed.

Lemma count_absent (k : string) (m : StdMap.t) :
  ~ In k (StdMap.keys m) -> StdMap.count k m = 0%Z.
Proof.
  induction m as [| [k' v] m IH]; intros Hn; simpl in *.
  - reflexivity.
  - destruct (String.eqb_spec k k') as [-> | Hne].
    + exfalso. apply Hn. now left.
    + apply IH. intros Hin. apply Hn. now right.
Qed.

Lemma count_present (k : string) (m : StdMap.t) :
  In k (StdMap.keys m) -> StdMap.count k m = 1%Z.
Proof.
  induction m as [| [k' v] m IH]; intros Hin; simpl in *.
  - contradiction.
  - destruct (String.eqb_spec k k') as [-> | Hne]; [reflexivity |].
    apply IH. destruct Hin as [-> | Hin]; [contradiction | exact Hin].
Qed.

(** A map over the registered keys, entry by entry. *)
Lemma registered_entries (m : StdMap.t) :
  StdMap.keys m = known_upgrades ->
  exists b1 b2 b3 b4 b5 b6 b7 b8 b9 b10 b11,
    m = [ ("advanced_materials", b1); ("ceramic_coating", b2);
          ("cylinder_deactivation", b3); ("direct_injection", b4);
          ("enhanced_ecu", b5); ("exhaust_gas_recirculation", b6);
          ("smart_cooling", b7); ("turbocharger", b8);
          ("variable_compression", b9); ("variable_valve_timing", b10);
          ("waste_heat_recovery", b11) ]%string.
Proof.
  unfold StdMap.keys, known_upgrades. intros H.
  repeat (destruct m as [| [? ?] m]; [discriminate H |]).
  destruct m; [| discriminate H].
  simpl in H. injection H as -> -> -> -> -> -> -> -> -> -> ->.
  do 11 eexists. reflexivity.
Qed.

(** Assigning the flag of a registered key keeps the set of keys. *)
Lemma assign_keys (u : string) (v : bool) (m : StdMap.t) :
  StdMap.keys m = known_upgrades -> In u known_upgrades ->
  StdMap.keys (StdMap.assign u v m) = known_upgrades.
Proof.
  intros Hk Hu.
  destruct (registered_entries m Hk)
    as (b1 & b2 & b3 & b4 & b5 & b6 & b7 & b8 & b9 & b10 & b11 & ->).
  unfold known_upgrades in Hu. simpl in Hu.
  repeat (destruct Hu as [<- | Hu]; [reflexivity |]).
  contradiction.
Qed.

Section Commands.

Variable pow : Q -> Q -> Q.

Lemma registered_make : registered (make pow).
Proof. reflexivity. Qed.

(** C5.  An identifier outside the eleven registered ones is reported on
    the output as unknown, and [apply_upgrade] returns the engine it was
    given: no member changes, and the call returns normally. *)
Theorem apply_upgrade_unknown (id : string) (e : t) :
  registered e -> ~ In id known_upgrades ->
  apply_upgrade pow id e = (e, [String.append "Unknown upgrade: " id]).
Proof.
  intros Hreg Hid. unfold apply_upgrade.
  rewrite count_absent; [reflexivity |].
  now rewrite Hreg.
Qed.

End Commands.

(** The theorem on the engine as constructed and the identifier "nitro". *)
Lemma apply_upgrade_unknown_witness :
  apply_upgrade pow_sample "nitro" (make pow_sample) =
    (make pow_sample, ["Unknown upgrade: nitro"%string]).
Proof.
  apply (apply_upgrade_unknown pow_sample "nitro" (make pow_sample)).
  - reflexivity.
  - unfold known_upgrades. simpl. intuition discriminate.
Defined.

(** Reading a member of an engine built by a setter.  The equation
    used is proved on variables, so that no large term is ever
    compared with another. *)
Ltac is_member f :=
  lazymatch f with
  | bore => idtac | stroke => idtac | compression_ratio => idtac | num_cylinders => idtac
  | rpm => idtac | max_rpm => idtac | idle_rpm => idtac | rod_length => idtac |
  deck_height => idtac | gear_shift_message => idtac | gear_shift_message_timer => idtac |
  transmission_mode => idtac | frame_times => idtac | last_frame_time => idtac |
  current_fps => idtac | acceleration => idtac | jerk => idtac | displacement => idtac |
  power_output => idtac | torque => idtac | fuel_consumption => idtac | thermal_efficiency
  => idtac | volumetric_efficiency => idtac | mean_effective_pressure => idtac |
  nox_emissions => idtac | co2_emissions => idtac | brake_specific_fuel_consumption =>
  idtac | rod_stroke_ratio => idtac | piston_speed => idtac | upgrades => idtac |
  water_injection_active => idtac | water_injection_amount => idtac | engine_temperature
  => idtac | optimal_temperature => idtac | gearbox => idtac | vehicle_speed => idtac |
  wheel_radius => idtac | final_drive_ratio => idtac | vehicle_mass => idtac
  end.

Ltac over_setter f g v s :=
  is_member f;
  first
    [ let H := fresh "H" in
      assert (H : forall v' s', f (g v' s') = f s') by (intros; reflexivity);
      rewrite (H v s); clear H
    | let H := fresh "H" in
      assert (H : forall v' s', f (g v' s') = v') by (intros; reflexivity);
      rewrite (H v s); clear H ].

Ltac members :=
  repeat match goal with
    | |- context [?f (set_rpm ?v ?s)] => over_setter f set_rpm v s
    | |- context [?f (set_gear_shift_message ?v ?s)] => over_setter f set_gear_shift_message v s
    | |- context [?f (set_gear_shift_message_timer ?v ?s)] => over_setter f set_gear_shift_message_timer v s
    | |- context [?f (set_transmission_mode ?v ?s)] => over_setter f set_transmission_mode v s
    | |- context [?f (set_acceleration ?v ?s)] => over_setter f set_acceleration v s
    | |- context [?f (set_jerk ?v ?s)] => over_setter f set_jerk v s
    | |- context [?f (set_displacement ?v ?s)] => over_setter f set_displacement v s
    | |- context [?f (set_power_output ?v ?s)] => over_setter f set_power_output v s
    | |- context [?f (set_torque ?v ?s)] => over_setter f set_torque v s
    | |- context [?f (set_fuel_consumption ?v ?s)] => over_setter f set_fuel_consumption v s
    | |- context [?f (set_thermal_efficiency ?v ?s)] => over_setter f set_thermal_efficiency v s
    | |- context [?f (set_volumetric_efficiency ?v ?s)] => over_setter f set_volumetric_efficiency v s
    | |- context [?f (set_nox_emissions ?v ?s)] => over_setter f set_nox_emissions v s
    | |- context [?f (set_co2_emissions ?v ?s)] => over_setter f set_co2_emissions v s
    | |- context [?f (set_brake_specific_fuel_consumption ?v ?s)] => over_setter f set_brake_specific_fuel_consumption v s
    | |- context [?f (set_rod_stroke_ratio ?v ?s)] => over_setter f set_rod_stroke_ratio v s
    | |- context [?f (set_piston_speed ?v ?s)] => over_setter f set_piston_speed v s
    | |- context [?f (set_upgrades ?v ?s)] => over_setter f set_upgrades v s
    | |- context [?f (set_water_injection_active ?v ?s)] => over_setter f set_water_injection_active v s
    | |- context [?f (set_engine_temperature ?v ?s)] => over_setter f set_engine_temperature v s
    | |- context [?f (set_gearbox ?v ?s)] => over_setter f set_gearbox v s
    | |- context [?f (set_vehicle_speed ?v ?s)] => over_setter f set_vehicle_speed v s
    end.

(** ** Manual gear changes *)

Lemma set_gearbox_same (e : t) : set_gearbox (gearbox e) e = e.
Proof. destruct e. reflexivity. Qed.

(** C6.  [manual_upshift] and [manual_downshift] return the engine
    unchanged unless the transmission mode is Manual.  In Manual mode, at
    the top gear (for the upshift) or at gear 1 (for the downshift) only
    the notification changes: it reads "Already in highest gear" or
    "Already in lowest gear", with a timer of 3 seconds, and gear and rpm
    stay.  Otherwise the gear moves by exactly one, rpm loses 1500 and is
    raised to [idle_rpm] if below (upshift) or gains 1500 and is lowered
    to [max_rpm] if above (downshift), staying inside the limits it was
    in, and the notification names the new gear with the same timer. *)
Theorem manual_shift_commands (e : t) :
  five_speed (gearbox e) ->
  (transmission_mode e = Automatic ->
     manual_upshift e = e /\ manual_downshift e = e) /\
  (transmission_mode e = Manual ->
     (Gearbox.get_current_gear (gearbox e) = 5%Z ->
        manual_upshift e =
          set_gear_shift_message_timer 3.0
            (set_gear_shift_message "Already in highest gear" e)) /\
     (Gearbox.get_current_gear (gearbox e) = 1%Z ->
        manual_downshift e =
          set_gear_shift_message_timer 3.0
            (set_gear_shift_message "Already in lowest gear" e)) /\
     (Gearbox.get_current_gear (gearbox e) <> 5%Z ->
        Gearbox.get_current_gear (gearbox (manual_upshift e)) =
          (Gearbox.get_current_gear (gearbox e) + 1)%Z /\
        rpm (manual_upshift e) = std_max (rpm e - 1500) (idle_rpm e) /\
        gear_shift_message (manual_upshift e) =
          String.append "Manually shifted up to gear "
            (to_string (Gearbox.get_current_gear (gearbox e) + 1)) /\
        gear_shift_message_timer (manual_upshift e) = 3.0 /\
        (idle_rpm e <= rpm e <= max_rpm e ->
           idle_rpm e <= rpm (manual_upshift e) <= max_rpm e)) /\
     (Gearbox.get_current_gear (gearbox e) <> 1%Z ->
        Gearbox.get_current_gear (gearbox (manual_downshift e)) =
          (Gearbox.get_current_gear (gearbox e) - 1)%Z /\
        rpm (manual_downshift e) = std_min (rpm e + 1500) (max_rpm e) /\
        gear_shift_message (manual_downshift e) =
          String.append "Manually shifted down to gear "
            (to_string (Gearbox.get_current_gear (gearbox e) - 1)) /\
        gear_shift_message_timer (manual_downshift e) = 3.0 /\
        (idle_rpm e <= rpm e <= max_rpm e ->
           idle_rpm e <= rpm (manual_downshift e) <= max_rpm e))).
Proof.
  intros Hfive.
  destruct (gearbox_shift_cases (gearbox e) Hfive) as (Hup5 & Hdn1 & Hup & Hdn).
  unfold Gearbox.get_current_gear in *.
  split; [| intros H; split; [| split; [| split]]].
  - intros Hm. unfold manual_upshift, manual_downshift. rewrite Hm. now split.
  - intros H5. unfold manual_upshift. rewrite H. cbv zeta.
    unfold Gearbox.get_current_gear.
    rewrite (Hup5 H5). members.
    rewrite Z.eqb_refl. cbn [negb]. now rewrite set_gearbox_same.
  - intros H1. unfold manual_downshift. rewrite H. cbv zeta.
    unfold Gearbox.get_current_gear.
    rewrite (Hdn1 H1). members.
    rewrite Z.eqb_refl. cbn [negb]. now rewrite set_gearbox_same.
  - intros Hn. specialize (Hup Hn).
    assert (Hneq : negb (Gearbox.current_gear (Gearbox.shift_up (gearbox e)) =?
                         Gearbox.current_gear (gearbox e))%Z = true).
    { rewrite Hup. apply negb_true_iff, Z.eqb_neq. lia. }
    unfold manual_upshift. rewrite H. cbv zeta.
    unfold Gearbox.get_current_gear. members.
    rewrite Hneq. cbn. rewrite Hup.
    repeat split; try reflexivity.
    + apply std_max_lb_r.
    + apply std_max_lub; lra.
  - intros Hn. specialize (Hdn Hn).
    assert (Hneq : negb (Gearbox.current_gear (Gearbox.shift_down (gearbox e)) =?
                         Gearbox.current_gear (gearbox e))%Z = true).
    { rewrite Hdn. apply negb_true_iff, Z.eqb_neq. lia. }
    unfold manual_downshift. rewrite H. cbv zeta.
    unfold Gearbox.get_current_gear. members.
    rewrite Hneq. cbn. rewrite Hdn.
    repeat split; try reflexivity.
    + apply std_min_glb; lra.
    + apply std_min_ub_r.
Qed.

(** The theorem on the constructed engine switched to Manual mode: the
    upshift from gear 1 reaches gear 2. *)
Lemma manual_shift_commands_witness :
  Gearbox.get_current_gear
    (gearbox (manual_upshift (set_transmission_mode Manual (make pow_sample)))) = 2%Z.
Proof.
  destruct (manual_shift_commands (set_transmission_mode Manual (make pow_sample)))
    as [_ H].
  - split; [reflexivity | vm_compute; split; discriminate].
  - destruct (H eq_refl) as (_ & _ & Hup & _).
    destruct Hup as [Hg _].
    + intros Hfalse. vm_compute in Hfalse. discriminate Hfalse.
    + exact Hg.
Defined.

(** ** Members that the control code leaves alone *)

Ltac break_branches :=
  repeat match goal with
    | |- context [if ?c then _ else _] => destruct c eqn:?
    | |- context [match transmission_mode ?e with _ => _ end] =>
        destruct (transmission_mode e) eqn:?
    end.

Ltac frame_done := repeat split; solve [reflexivity | assumption | congruence].

Section ControlFrames.

Variable pow : Q -> Q -> Q.

Lemma integrate_idle_rpm (dt : Q) (r1 : Z) (e : t) :
  idle_rpm (integrate dt r1 e) = idle_rpm e.
Proof. unfold integrate. cbv zeta. reflexivity. Qed.

Lemma integrate_max_rpm (dt : Q) (r1 : Z) (e : t) :
  max_rpm (integrate dt r1 e) = max_rpm e.
Proof. unfold integrate. cbv zeta. reflexivity. Qed.

Lemma integrate_gearbox (dt : Q) (r1 : Z) (e : t) :
  gearbox (integrate dt r1 e) = gearbox e.
Proof. unfold integrate. cbv zeta. reflexivity. Qed.

Lemma integrate_transmission_mode (dt : Q) (r1 : Z) (e : t) :
  transmission_mode (integrate dt r1 e) = transmission_mode e.
Proof. unfold integrate. cbv zeta. reflexivity. Qed.

Lemma integrate_upgrades (dt : Q) (r1 : Z) (e : t) :
  upgrades (integrate dt r1 e) = upgrades e.
Proof. unfold integrate. cbv zeta. reflexivity. Qed.

Lemma integrate_volumetric_efficiency (dt : Q) (r1 : Z) (e : t) :
  volumetric_efficiency (integrate dt r1 e) = volumetric_efficiency e.
Proof. unfold integrate. cbv zeta. reflexivity. Qed.

Lemma integrate_water_injection_active (dt : Q) (r1 : Z) (e : t) :
  water_injection_active (integrate dt r1 e) = water_injection_active e.
Proof. unfold integrate. cbv zeta. reflexivity. Qed.

Lemma integrate_optimal_temperature (dt : Q) (r1 : Z) (e : t) :
  optimal_temperature (integrate dt r1 e) = optimal_temperature e.
Proof. unfold integrate. cbv zeta. reflexivity. Qed.

Lemma automatic_shift_idle_rpm  (e : t) :
  idle_rpm (automatic_shift e) = idle_rpm e.
Proof. unfold automatic_shift. break_branches; frame_done. Qed.

Lemma automatic_shift_max_rpm  (e : t) :
  max_rpm (automatic_shift e) = max_rpm e.
Proof. unfold automatic_shift. break_branches; frame_done. Qed.

Lemma automatic_shift_transmission_mode  (e : t) :
  transmission_mode (automatic_shift e) = transmission_mode e.
Proof. unfold automatic_shift. break_branches; frame_done. Qed.

Lemma automatic_shift_upgrades  (e : t) :
  upgrades (automatic_shift e) = upgrades e.
Proof. unfold automatic_shift. break_branches; frame_done. Qed.

Lemma automatic_shift_volumetric_efficiency  (e : t) :
  volumetric_efficiency (automatic_shift e) = volumetric_efficiency e.
Proof. unfold automatic_shift. break_branches; frame_done. Qed.

Lemma automatic_shift_engine_temperature  (e : t) :
  engine_temperature (automatic_shift e) = engine_temperature e.
Proof. unfold automatic_shift. break_branches; frame_done. Qed.

Lemma automatic_shift_water_injection_active  (e : t) :
  water_injection_active (automatic_shift e) = water_injection_active e.
Proof. unfold automatic_shift. break_branches; frame_done. Qed.

Lemma automatic_shift_optimal_temperature  (e : t) :
  optimal_temperature (automatic_shift e) = optimal_temperature e.
Proof. unfold automatic_shift. break_branches; frame_done. Qed.

Lemma update_gear_shift_message_idle_rpm (dt : Q) (g : Z) (e : t) :
  idle_rpm (update_gear_shift_message dt g e) = idle_rpm e.
Proof. unfold update_gear_shift_message. break_branches; frame_done. Qed.

Lemma update_gear_shift_message_max_rpm (dt : Q) (g : Z) (e : t) :
  max_rpm (update_gear_shift_message dt g e) = max_rpm e.
Proof. unfold update_gear_shift_message. break_branches; frame_done. Qed.

Lemma update_gear_shift_message_rpm (dt : Q) (g : Z) (e : t) :
  rpm (update_gear_shift_message dt g e) = rpm e.
Proof. unfold update_gear_shift_message. break_branches; frame_done. Qed.

Lemma update_gear_shift_message_gearbox (dt : Q) (g : Z) (e : t) :
  gearbox (update_gear_shift_message dt g e) = gearbox e.
Proof. unfold update_gear_shift_message. break_branches; frame_done. Qed.

Lemma update_gear_shift_message_transmission_mode (dt : Q) (g : Z) (e : t) :
  transmission_mode (update_gear_shift_message dt g e) = transmission_mode e.
Proof. unfold update_gear_shift_message. break_branches; frame_done. Qed.

Lemma update_gear_shift_message_upgrades (dt : Q) (g : Z) (e : t) :
  upgrades (update_gear_shift_message dt g e) = upgrades e.
Proof. unfold update_gear_shift_message. break_branches; frame_done. Qed.

Lemma update_gear_shift_message_volumetric_efficiency (dt : Q) (g : Z) (e : t) :
  volumetric_efficiency (update_gear_shift_message dt g e) = volumetric_efficiency e.
Proof. unfold update_gear_shift_message. break_branches; frame_done. Qed.

Lemma update_gear_shift_message_engine_temperature (dt : Q) (g : Z) (e : t) :
  engine_temperature (update_gear_shift_message dt g e) = engine_temperature e.
Proof. unfold update_gear_shift_message. break_branches; frame_done. Qed.

Lemma update_gear_shift_message_water_injection_active (dt : Q) (g : Z) (e : t) :
  water_injection_active (update_gear_shift_message dt g e) = water_injection_active e.
Proof. unfold update_gear_shift_message. break_branches; frame_done. Qed.

Lemma update_gear_shift_message_optimal_temperature (dt : Q) (g : Z) (e : t) :
  optimal_temperature (update_gear_shift_message dt g e) = optimal_temperature e.
Proof. unfold update_gear_shift_message. break_branches; frame_done. Qed.

Lemma update_vehicle_speed_idle_rpm  (e : t) :
  idle_rpm (update_vehicle_speed e) = idle_rpm e.
Proof. reflexivity. Qed.

Lemma update_vehicle_speed_max_rpm  (e : t) :
  max_rpm (update_vehicle_speed e) = max_rpm e.
Proof. reflexivity. Qed.

Lemma update_vehicle_speed_rpm  (e : t) :
  rpm (update_vehicle_speed e) = rpm e.
Proof. reflexivity. Qed.

Lemma update_vehicle_speed_gearbox  (e : t) :
  gearbox (update_vehicle_speed e) = gearbox e.
Proof. reflexivity. Qed.

Lemma update_vehicle_speed_transmission_mode  (e : t) :
  transmission_mode (update_vehicle_speed e) = transmission_mode e.
Proof. reflexivity. Qed.

Lemma update_vehicle_speed_upgrades  (e : t) :
  upgrades (update_vehicle_speed e) = upgrades e.
Proof. reflexivity. Qed.

Lemma update_vehicle_speed_volumetric_efficiency  (e : t) :
  volumetric_efficiency (update_vehicle_speed e) = volumetric_efficiency e.
Proof. reflexivity. Qed.

Lemma update_vehicle_speed_engine_temperature  (e : t) :
  engine_temperature (update_vehicle_speed e) = engine_temperature e.
Proof. reflexivity. Qed.

Lemma update_vehicle_speed_water_injection_active  (e : t) :
  water_injection_active (update_vehicle_speed e) = water_injection_active e.
Proof. reflexivity. Qed.

Lemma update_vehicle_speed_optimal_temperature  (e : t) :
  optimal_temperature (update_vehicle_speed e) = optimal_temperature e.
Proof. reflexivity. Qed.

Lemma accelerate_pedal_idle_rpm (e : t) :
  idle_rpm (accelerate_pedal e) = idle_rpm e.
Proof. unfold accelerate_pedal. cbv zeta. break_branches; frame_done. Qed.

Lemma accelerate_pedal_max_rpm (e : t) :
  max_rpm (accelerate_pedal e) = max_rpm e.
Proof. unfold accelerate_pedal. cbv zeta. break_branches; frame_done. Qed.

Lemma accelerate_pedal_gearbox (e : t) :
  gearbox (accelerate_pedal e) = gearbox e.
Proof. unfold accelerate_pedal. cbv zeta. break_branches; frame_done. Qed.

Lemma accelerate_pedal_transmission_mode (e : t) :
  transmission_mode (accelerate_pedal e) = transmission_mode e.
Proof. unfold accelerate_pedal. cbv zeta. break_branches; frame_done. Qed.

Lemma accelerate_pedal_upgrades (e : t) :
  upgrades (accelerate_pedal e) = upgrades e.
Proof. unfold accelerate_pedal. cbv zeta. break_branches; frame_done. Qed.

Lemma accelerate_pedal_volumetric_efficiency (e : t) :
  volumetric_efficiency (accelerate_pedal e) = volumetric_efficiency e.
Proof. unfold accelerate_pedal. cbv zeta. break_branches; frame_done. Qed.

Lemma accelerate_pedal_water_injection_active (e : t) :
  water_injection_active (accelerate_pedal e) = water_injection_active e.
Proof. unfold accelerate_pedal. cbv zeta. break_branches; frame_done. Qed.

Lemma accelerate_pedal_optimal_temperature (e : t) :
  optimal_temperature (accelerate_pedal e) = optimal_temperature e.
Proof. unfold accelerate_pedal. cbv zeta. break_branches; frame_done. Qed.

Lemma accelerate_pedal_jerk (e : t) :
  jerk (accelerate_pedal e) = jerk e.
Proof. unfold accelerate_pedal. cbv zeta. break_branches; frame_done. Qed.

Lemma accelerate_pedal_acceleration (e : t) :
  acceleration (accelerate_pedal e) = acceleration e.
Proof. unfold accelerate_pedal. cbv zeta. break_branches; frame_done. Qed.

Lemma decelerate_pedal_idle_rpm (e : t) :
  idle_rpm (decelerate_pedal e) = idle_rpm e.
Proof. unfold decelerate_pedal. cbv zeta. break_branches; frame_done. Qed.

Lemma decelerate_pedal_max_rpm (e : t) :
  max_rpm (decelerate_pedal e) = max_rpm e.
Proof. unfold decelerate_pedal. cbv zeta. break_branches; frame_done. Qed.

Lemma decelerate_pedal_gearbox (e : t) :
  gearbox (decelerate_pedal e) = gearbox e.
Proof. unfold decelerate_pedal. cbv zeta. break_branches; frame_done. Qed.

Lemma decelerate_pedal_transmission_mode (e : t) :
  transmission_mode (decelerate_pedal e) = transmission_mode e.
Proof. unfold decelerate_pedal. cbv zeta. break_branches; frame_done. Qed.

Lemma decelerate_pedal_upgrades (e : t) :
  upgrades (decelerate_pedal e) = upgrades e.
Proof. unfold decelerate_pedal. cbv zeta. break_branches; frame_done. Qed.

Lemma decelerate_pedal_volumetric_efficiency (e : t) :
  volumetric_efficiency (decelerate_pedal e) = volumetric_efficiency e.
Proof. unfold decelerate_pedal. cbv zeta. break_branches; frame_done. Qed.

Lemma decelerate_pedal_water_injection_active (e : t) :
  water_injection_active (decelerate_pedal e) = water_injection_active e.
Proof. unfold decelerate_pedal. cbv zeta. break_branches; frame_done. Qed.

Lemma decelerate_pedal_optimal_temperature (e : t) :
  optimal_temperature (decelerate_pedal e) = optimal_temperature e.
Proof. unfold decelerate_pedal. cbv zeta. break_branches; frame_done. Qed.

Lemma decelerate_pedal_jerk (e : t) :
  jerk (decelerate_pedal e) = jerk e.
Proof. unfold decelerate_pedal. cbv zeta. break_branches; frame_done. Qed.

Lemma decelerate_pedal_acceleration (e : t) :
  acceleration (decelerate_pedal e) = acceleration e.
Proof. unfold decelerate_pedal. cbv zeta. break_branches; frame_done. Qed.

Lemma accelerate_shift_idle_rpm (e : t) :
  idle_rpm (accelerate_shift e) = idle_rpm e.
Proof. unfold accelerate_shift. break_branches; frame_done. Qed.

Lemma accelerate_shift_max_rpm (e : t) :
  max_rpm (accelerate_shift e) = max_rpm e.
Proof. unfold accelerate_shift. break_branches; frame_done. Qed.

Lemma accelerate_shift_transmission_mode (e : t) :
  transmission_mode (accelerate_shift e) = transmission_mode e.
Proof. unfold accelerate_shift. break_branches; frame_done. Qed.

Lemma accelerate_shift_upgrades (e : t) :
  upgrades (accelerate_shift e) = upgrades e.
Proof. unfold accelerate_shift. break_branches; frame_done. Qed.

Lemma accelerate_shift_volumetric_efficiency (e : t) :
  volumetric_efficiency (accelerate_shift e) = volumetric_efficiency e.
Proof. unfold accelerate_shift. break_branches; frame_done. Qed.

Lemma accelerate_shift_engine_temperature (e : t) :
  engine_temperature (accelerate_shift e) = engine_temperature e.
Proof. unfold accelerate_shift. break_branches; frame_done. Qed.

Lemma accelerate_shift_water_injection_active (e : t) :
  water_injection_active (accelerate_shift e) = water_injection_active e.
Proof. unfold accelerate_shift. break_branches; frame_done. Qed.

Lemma accelerate_shift_optimal_temperature (e : t) :
  optimal_temperature (accelerate_shift e) = optimal_temperature e.
Proof. unfold accelerate_shift. break_branches; frame_done. Qed.

Lemma accelerate_shift_jerk (e : t) :
  jerk (accelerate_shift e) = jerk e.
Proof. unfold accelerate_shift. break_branches; frame_done. Qed.

Lemma accelerate_shift_acceleration (e : t) :
  acceleration (accelerate_shift e) = acceleration e.
Proof. unfold accelerate_shift. break_branches; frame_done. Qed.

Lemma decelerate_shift_idle_rpm (e : t) :
  idle_rpm (decelerate_shift e) = idle_rpm e.
Proof. unfold decelerate_shift. break_branches; frame_done. Qed.

Lemma decelerate_shift_max_rpm (e : t) :
  max_rpm (decelerate_shift e) = max_rpm e.
Proof. unfold decelerate_shift. break_branches; frame_done. Qed.

Lemma decelerate_shift_transmission_mode (e : t) :
  transmission_mode (decelerate_shift e) = transmission_mode e.
Proof. unfold decelerate_shift. break_branches; frame_done. Qed.

Lemma decelerate_shift_upgrades (e : t) :
  upgrades (decelerate_shift e) = upgrades e.
Proof. unfold decelerate_shift. break_branches; frame_done. Qed.

Lemma decelerate_shift_volumetric_efficiency (e : t) :
  volumetric_efficiency (decelerate_shift e) = volumetric_efficiency e.
Proof. unfold decelerate_shift. break_branches; frame_done. Qed.

Lemma decelerate_shift_engine_temperature (e : t) :
  engine_temperature (decelerate_shift e) = engine_temperature e.
Proof. unfold decelerate_shift. break_branches; frame_done. Qed.

Lemma decelerate_shift_water_injection_active (e : t) :
  water_injection_active (decelerate_shift e) = water_injection_active e.
Proof. unfold decelerate_shift. break_branches; frame_done. Qed.

Lemma decelerate_shift_optimal_temperature (e : t) :
  optimal_temperature (decelerate_shift e) = optimal_temperature e.
Proof. unfold decelerate_shift. break_branches; frame_done. Qed.

Lemma decelerate_shift_jerk (e : t) :
  jerk (decelerate_shift e) = jerk e.
Proof. unfold decelerate_shift. break_branches; frame_done. Qed.

Lemma decelerate_shift_acceleration (e : t) :
  acceleration (decelerate_shift e) = acceleration e.
Proof. unfold decelerate_shift. break_branches; frame_done. Qed.

Lemma manual_upshift_idle_rpm (e : t) :
  idle_rpm (manual_upshift e) = idle_rpm e.
Proof. unfold manual_upshift. cbv zeta. break_branches; frame_done. Qed.

Lemma manual_upshift_max_rpm (e : t) :
  max_rpm (manual_upshift e) = max_rpm e.
Proof. unfold manual_upshift. cbv zeta. break_branches; frame_done. Qed.

Lemma manual_upshift_transmission_mode (e : t) :
  transmission_mode (manual_upshift e) = transmission_mode e.
Proof. unfold manual_upshift. cbv zeta. break_branches; frame_done. Qed.

Lemma manual_upshift_upgrades (e : t) :
  upgrades (manual_upshift e) = upgrades e.
Proof. unfold manual_upshift. cbv zeta. break_branches; frame_done. Qed.

Lemma manual_upshift_volumetric_efficiency (e : t) :
  volumetric_efficiency (manual_upshift e) = volumetric_efficiency e.
Proof. unfold manual_upshift. cbv zeta. break_branches; frame_done. Qed.

Lemma manual_upshift_engine_temperature (e : t) :
  engine_temperature (manual_upshift e) = engine_temperature e.
Proof. unfold manual_upshift. cbv zeta. break_branches; frame_done. Qed.

Lemma manual_upshift_water_injection_active (e : t) :
  water_injection_active (manual_upshift e) = water_injection_active e.
Proof. unfold manual_upshift. cbv zeta. break_branches; frame_done. Qed.

Lemma manual_upshift_optimal_temperature (e : t) :
  optimal_temperature (manual_upshift e) = optimal_temperature e.
Proof. unfold manual_upshift. cbv zeta. break_branches; frame_done. Qed.

Lemma manual_upshift_jerk (e : t) :
  jerk (manual_upshift e) = jerk e.
Proof. unfold manual_upshift. cbv zeta. break_branches; frame_done. Qed.

Lemma manual_upshift_acceleration (e : t) :
  acceleration (manual_upshift e) = acceleration e.
Proof. unfold manual_upshift. cbv zeta. break_branches; frame_done. Qed.

Lemma manual_downshift_idle_rpm (e : t) :
  idle_rpm (manual_downshift e) = idle_rpm e.
Proof. unfold manual_downshift. cbv zeta. break_branches; frame_done. Qed.

Lemma manual_downshift_max_rpm (e : t) :
  max_rpm (manual_downshift e) = max_rpm e.
Proof. unfold manual_downshift. cbv zeta. break_branches; frame_done. Qed.

Lemma manual_downshift_transmission_mode (e : t) :
  transmission_mode (manual_downshift e) = transmission_mode e.
Proof. unfold manual_downshift. cbv zeta. break_branches; frame_done. Qed.

Lemma manual_downshift_upgrades (e : t) :
  upgrades (manual_downshift e) = upgrades e.
Proof. unfold manual_downshift. cbv zeta. break_branches; frame_done. Qed.

Lemma manual_downshift_volumetric_efficiency (e : t) :
  volumetric_efficiency (manual_downshift e) = volumetric_efficiency e.
Proof. unfold manual_downshift. cbv zeta. break_branches; frame_done. Qed.

Lemma manual_downshift_engine_temperature (e : t) :
  engine_temperature (manual_downshift e) = engine_temperature e.
Proof. unfold manual_downshift. cbv zeta. break_branches; frame_done. Qed.

Lemma manual_downshift_water_injection_active (e : t) :
  water_injection_active (manual_downshift e) = water_injection_active e.
Proof. unfold manual_downshift. cbv zeta. break_branches; frame_done. Qed.

Lemma manual_downshift_optimal_temperature (e : t) :
  optimal_temperature (manual_downshift e) = optimal_temperature e.
Proof. unfold manual_downshift. cbv zeta. break_branches; frame_done. Qed.

Lemma manual_downshift_jerk (e : t) :
  jerk (manual_downshift e) = jerk e.
Proof. unfold manual_downshift. cbv zeta. break_branches; frame_done. Qed.

Lemma manual_downshift_acceleration (e : t) :
  acceleration (manual_downshift e) = acceleration e.
Proof. unfold manual_downshift. cbv zeta. break_branches; frame_done. Qed.

Lemma update_vehicle_speed_jerk (e : t) :
  jerk (update_vehicle_speed e) = jerk e.
Proof. reflexivity. Qed.

Lemma update_vehicle_speed_acceleration (e : t) :
  acceleration (update_vehicle_speed e) = acceleration e.
Proof. reflexivity. Qed.

Lemma toggle_water_injection_frame (b : bool) (e : t) :
  only_performance_changed
    (set_water_injection_active b e) (fst (toggle_water_injection pow b e)).
Proof. unfold toggle_water_injection. cbn [fst]. apply opc_update_performance. Qed.

Lemma random_water_injection_idle_rpm (r2 : Z) (e : t) :
  idle_rpm (fst (random_water_injection pow r2 e)) = idle_rpm e.
Proof.
  unfold random_water_injection, toggle_water_injection.
  destruct (Z.rem r2 1000 <? 5)%Z; cbn [fst]; autorewrite with frame; reflexivity.
Qed.

Lemma random_water_injection_max_rpm (r2 : Z) (e : t) :
  max_rpm (fst (random_water_injection pow r2 e)) = max_rpm e.
Proof.
  unfold random_water_injection, toggle_water_injection.
  destruct (Z.rem r2 1000 <? 5)%Z; cbn [fst]; autorewrite with frame; reflexivity.
Qed.

Lemma random_water_injection_rpm (r2 : Z) (e : t) :
  rpm (fst (random_water_injection pow r2 e)) = rpm e.
Proof.
  unfold random_water_injection, toggle_water_injection.
  destruct (Z.rem r2 1000 <? 5)%Z; cbn [fst]; autorewrite with frame; reflexivity.
Qed.

Lemma random_water_injection_gearbox (r2 : Z) (e : t) :
  gearbox (fst (random_water_injection pow r2 e)) = gearbox e.
Proof.
  unfold random_water_injection, toggle_water_injection.
  destruct (Z.rem r2 1000 <? 5)%Z; cbn [fst]; autorewrite with frame; reflexivity.
Qed.

Lemma random_water_injection_transmission_mode (r2 : Z) (e : t) :
  transmission_mode (fst (random_water_injection pow r2 e)) = transmission_mode e.
Proof.
  unfold random_water_injection, toggle_water_injection.
  destruct (Z.rem r2 1000 <? 5)%Z; cbn [fst]; autorewrite with frame; reflexivity.
Qed.

Lemma random_water_injection_upgrades (r2 : Z) (e : t) :
  upgrades (fst (random_water_injection pow r2 e)) = upgrades e.
Proof.
  unfold random_water_injection, toggle_water_injection.
  destruct (Z.rem r2 1000 <? 5)%Z; cbn [fst]; autorewrite with frame; reflexivity.
Qed.

Lemma random_water_injection_optimal_temperature (r2 : Z) (e : t) :
  optimal_temperature (fst (random_water_injection pow r2 e)) = optimal_temperature e.
Proof.
  unfold random_water_injection, toggle_water_injection.
  destruct (Z.rem r2 1000 <? 5)%Z; cbn [fst]; autorewrite with frame; reflexivity.
Qed.

(** The shape of a tick: the engine after the tick is the notification
    update applied to the recomputation of the re-clamped state. *)
Lemma update_dynamics_unfold (dt : Q) (r1 r2 : Z) (e : t) :
  fst (update_dynamics pow dt r1 r2 e) =
    let m := fst (random_water_injection pow r2 (integrate dt r1 e)) in
    let s := automatic_shift m in
    let c := set_rpm (std_max (idle_rpm s) (std_min (max_rpm s) (rpm s))) s in
    update_gear_shift_message dt (Gearbox.get_current_gear (gearbox m))
      (update_vehicle_speed (update_performance pow c)).
Proof.
  unfold update_dynamics.
  destruct (random_water_injection pow r2 (integrate dt r1 e)) as [m out].
  reflexivity.
Qed.

(** After a tick, rpm lies between the limits, and the limits are those
    of the engine before the tick. *)
Lemma update_dynamics_idle_rpm (dt : Q) (r1 r2 : Z) (e : t) :
  idle_rpm (fst (update_dynamics pow dt r1 r2 e)) = idle_rpm e.
Proof.
  rewrite update_dynamics_unfold. cbv zeta.
  rewrite update_gear_shift_message_idle_rpm, update_vehicle_speed_idle_rpm,
    update_performance_idle_rpm.
  members.
  now rewrite automatic_shift_idle_rpm, random_water_injection_idle_rpm,
    integrate_idle_rpm.
Qed.

Lemma update_dynamics_max_rpm (dt : Q) (r1 r2 : Z) (e : t) :
  max_rpm (fst (update_dynamics pow dt r1 r2 e)) = max_rpm e.
Proof.
  rewrite update_dynamics_unfold. cbv zeta.
  rewrite update_gear_shift_message_max_rpm, update_vehicle_speed_max_rpm,
    update_performance_max_rpm.
  members.
  now rewrite automatic_shift_max_rpm, random_water_injection_max_rpm,
    integrate_max_rpm.
Qed.

(** The rpm after a tick is the re-clamped rpm of line 257. *)
Lemma update_dynamics_rpm (dt : Q) (r1 r2 : Z) (e : t) :
  rpm (fst (update_dynamics pow dt r1 r2 e)) =
    std_max (idle_rpm e)
      (std_min (max_rpm e)
         (rpm (automatic_shift
                 (fst (random_water_injection pow r2 (integrate dt r1 e)))))).
Proof.
  rewrite update_dynamics_unfold. cbv zeta.
  rewrite update_gear_shift_message_rpm, update_vehicle_speed_rpm,
    update_performance_rpm.
  members.
  now rewrite automatic_shift_idle_rpm, automatic_shift_max_rpm,
    random_water_injection_idle_rpm, random_water_injection_max_rpm,
    integrate_idle_rpm, integrate_max_rpm.
Qed.

End ControlFrames.

#[global] Hint Rewrite integrate_idle_rpm integrate_max_rpm integrate_gearbox integrate_transmission_mode integrate_upgrades integrate_volumetric_efficiency integrate_water_injection_active integrate_optimal_temperature automatic_shift_idle_rpm automatic_shift_max_rpm automatic_shift_transmission_mode automatic_shift_upgrades automatic_shift_volumetric_efficiency automatic_shift_engine_temperature automatic_shift_water_injection_active automatic_shift_optimal_temperature update_gear_shift_message_idle_rpm update_gear_shift_message_max_rpm update_gear_shift_message_rpm update_gear_shift_message_gearbox update_gear_shift_message_transmission_mode update_gear_shift_message_upgrades update_gear_shift_message_volumetric_efficiency update_gear_shift_message_engine_temperature update_gear_shift_message_water_injection_active update_gear_shift_message_optimal_temperature update_vehicle_speed_idle_rpm update_vehicle_speed_max_rpm update_vehicle_speed_rpm update_vehicle_speed_gearbox update_vehicle_speed_transmission_mode update_vehicle_speed_upgrades update_vehicle_speed_volumetric_efficiency update_vehicle_speed_engine_temperature update_vehicle_speed_water_injection_active update_vehicle_speed_optimal_temperature random_water_injection_idle_rpm random_water_injection_max_rpm random_water_injection_rpm random_water_injection_gearbox random_water_injection_transmission_mode random_water_injection_upgrades random_water_injection_optimal_temperature accelerate_pedal_idle_rpm accelerate_pedal_max_rpm accelerate_pedal_gearbox accelerate_pedal_transmission_mode accelerate_pedal_upgrades accelerate_pedal_volumetric_efficiency accelerate_pedal_water_injection_active accelerate_pedal_optimal_temperature accelerate_pedal_jerk accelerate_pedal_acceleration decelerate_pedal_idle_rpm decelerate_pedal_max_rpm decelerate_pedal_gearbox decelerate_pedal_transmission_mode decelerate_pedal_upgrades decelerate_pedal_volumetric_efficiency decelerate_pedal_water_injection_active decelerate_pedal_optimal_temperature decelerate_pedal_jerk decelerate_pedal_acceleration accelerate_shift_idle_rpm accelerate_shift_max_rpm accelerate_shift_transmission_mode accelerate_shift_upgrades accelerate_shift_volumetric_efficiency accelerate_shift_engine_temperature accelerate_shift_water_injection_active accelerate_shift_optimal_temperature accelerate_shift_jerk accelerate_shift_acceleration decelerate_shift_idle_rpm decelerate_shift_max_rpm decelerate_shift_transmission_mode decelerate_shift_upgrades decelerate_shift_volumetric_efficiency decelerate_shift_engine_temperature decelerate_shift_water_injection_active decelerate_shift_optimal_temperature decelerate_shift_jerk decelerate_shift_acceleration manual_upshift_idle_rpm manual_upshift_max_rpm manual_upshift_transmission_mode manual_upshift_upgrades manual_upshift_volumetric_efficiency manual_upshift_engine_temperature manual_upshift_water_injection_active manual_upshift_optimal_temperature manual_upshift_jerk manual_upshift_acceleration manual_downshift_idle_rpm manual_downshift_max_rpm manual_downshift_transmission_mode manual_downshift_upgrades manual_downshift_volumetric_efficiency manual_downshift_engine_temperature manual_downshift_water_injection_active manual_downshift_optimal_temperature manual_downshift_jerk manual_downshift_acceleration update_vehicle_speed_jerk update_vehicle_speed_acceleration : frame.


(** ** The rpm limits are constants of a run *)

Section Limits.

Variable pow : Q -> Q -> Q.

Lemma accelerate_limits (e : t) :
  idle_rpm (accelerate pow e) = idle_rpm e /\ max_rpm (accelerate pow e) = max_rpm e.
Proof. unfold accelerate. cbv zeta. autorewrite with frame. split; reflexivity. Qed.

Lemma decelerate_limits (e : t) :
  idle_rpm (decelerate pow e) = idle_rpm e /\ max_rpm (decelerate pow e) = max_rpm e.
Proof. unfold decelerate. cbv zeta. autorewrite with frame. split; reflexivity. Qed.

Lemma update_dynamics_limits (dt : Q) (r1 r2 : Z) (e : t) :
  idle_rpm (fst (update_dynamics pow dt r1 r2 e)) = idle_rpm e /\
  max_rpm (fst (update_dynamics pow dt r1 r2 e)) = max_rpm e.
Proof. split; [apply update_dynamics_idle_rpm | apply update_dynamics_max_rpm]. Qed.

Lemma perform_limits (c : Call) (e : t) :
  idle_rpm (fst (perform pow c e)) = idle_rpm e /\
  max_rpm (fst (perform pow c e)) = max_rpm e.
Proof.
  destruct c; cbn [perform fst].
  - apply update_dynamics_limits.
  - unfold apply_upgrade. break_branches; cbn [fst]; autorewrite with frame;
      split; reflexivity.
  - unfold toggle_water_injection. cbn [fst]. autorewrite with frame. split; reflexivity.
  - apply accelerate_limits.
  - apply decelerate_limits.
  - split; reflexivity.
  - autorewrite with frame. split; reflexivity.
  - autorewrite with frame. split; reflexivity.
  - unfold handle_input. break_branches; cbn [fst]; autorewrite with frame;
      split; reflexivity.
Qed.

Lemma run_limits (cs : list Call) (e : t) :
  idle_rpm (run pow cs e) = idle_rpm e /\ max_rpm (run pow cs e) = max_rpm e.
Proof.
  revert e. unfold run. induction cs as [| c cs IH]; intros e; cbn [fold_left].
  - split; reflexivity.
  - destruct (IH (fst (perform pow c e))) as [-> ->]. apply perform_limits.
Qed.

(** C1.  Whatever calls were made on the engine since its construction,
    and for every time step and every pair of random draws, the rpm after
    a call of [update_dynamics] lies between [idle_rpm] and [max_rpm]. *)
Theorem rpm_bounded_after_every_tick (cs : list Call) (dt : Q) (r1 r2 : Z) :
  idle_rpm (fst (update_dynamics pow dt r1 r2 (run pow cs (make pow)))) <=
    rpm (fst (update_dynamics pow dt r1 r2 (run pow cs (make pow)))) /\
  rpm (fst (update_dynamics pow dt r1 r2 (run pow cs (make pow)))) <=
    max_rpm (fst (update_dynamics pow dt r1 r2 (run pow cs (make pow)))).
Proof.
  destruct (run_limits cs (make pow)) as [Hi Hm].
  assert (Hlim : idle_rpm (run pow cs (make pow)) <= max_rpm (run pow cs (make pow))).
  { rewrite Hi, Hm. vm_compute. discriminate. }
  rewrite update_dynamics_idle_rpm, update_dynamics_max_rpm, update_dynamics_rpm.
  apply clamp_bounds. exact Hlim.
Qed.

End Limits.

(** ** The upgrade closures in closed form *)

(** Each registered closure scales by its documented factors. *)
Lemma effect_documented (u : string) (f : t -> t) (e : t) :
  effect_at upgrade_effects u = Some f ->
  power_output (f e) == power_output e * power_factor (documented_effect u) /\
  thermal_efficiency (f e) ==
    thermal_efficiency e * thermal_factor (documented_effect u) /\
  volumetric_efficiency (f e) ==
    volumetric_efficiency e * volumetric_factor (documented_effect u) /\
  fuel_consumption (f e) == fuel_consumption e * fuel_factor (documented_effect u) /\
  nox_emissions (f e) == nox_emissions e * nox_factor (documented_effect u) /\
  engine_temperature (f e) ==
    engine_temperature e - temperature_drop (documented_effect u).
Proof.
  unfold upgrade_effects, effect_at, documented_effect.
  repeat (destruct (String.eqb u _);
          [ intros [= <-]; cbn; repeat split; lra | ]).
  discriminate.
Qed.

(** An identifier without a closure has no documented effect. *)
Lemma effect_absent (u : string) :
  effect_at upgrade_effects u = None -> documented_effect u = no_effect.
Proof.
  unfold upgrade_effects, effect_at, documented_effect.
  repeat (destruct (String.eqb u _); [ discriminate | ]).
  reflexivity.
Qed.

(** The loop over the map multiplies each member by the product of the
    factors of the active upgrades. *)
Lemma apply_active_upgrades_closed_form (l : StdMap.t) (e : t) :
  power_output (apply_active_upgrades l e) == power_output e * gain power_factor l /\
  thermal_efficiency (apply_active_upgrades l e) ==
    thermal_efficiency e * gain thermal_factor l /\
  volumetric_efficiency (apply_active_upgrades l e) ==
    volumetric_efficiency e * gain volumetric_factor l /\
  engine_temperature (apply_active_upgrades l e) ==
    engine_temperature e - total_drop l.
Proof.
  revert e. induction l as [| [u b] l IH]; intros e;
    cbn [apply_active_upgrades gain total_drop].
  - repeat split; lra.
  - destruct b; [ | destruct (IH e) as (Hp & Ht & Hv & Hd); repeat split; lra ].
    destruct (effect_at upgrade_effects u) as [f |] eqn:Hf.
    + destruct (IH (f e)) as (Hp & Ht & Hv & Hd).
      destruct (effect_documented u f e Hf) as (Ep & Et & Ev & _ & _ & Ed).
      rewrite Hp, Ht, Hv, Hd, Ep, Et, Ev, Ed.
      repeat split; ring.
    + rewrite (effect_absent u Hf). cbn [power_factor thermal_factor
        volumetric_factor temperature_drop no_effect].
      destruct (IH e) as (Hp & Ht & Hv & Hd). repeat split; lra.
Qed.

(** ** The recomputation, member by member *)

Lemma finish_power_output (x : t) : power_output (finish x) = power_output x.
Proof.
  unfold finish, clamp_volumetric_efficiency, temperature_adjustment,
    water_injection_adjustment, consumption_and_emissions.
  cbv zeta. break_branches; reflexivity.
Qed.

Lemma finish_engine_temperature (x : t) :
  engine_temperature (finish x) = engine_temperature x.
Proof.
  unfold finish, clamp_volumetric_efficiency, temperature_adjustment,
    water_injection_adjustment, consumption_and_emissions.
  cbv zeta. break_branches; reflexivity.
Qed.

Lemma finish_volumetric_efficiency (x : t) :
  volumetric_efficiency (finish x) =
    std_min (std_max (volumetric_efficiency x) 0.7) 1.0.
Proof.
  unfold finish, clamp_volumetric_efficiency, temperature_adjustment,
    water_injection_adjustment, consumption_and_emissions.
  cbv zeta. break_branches; reflexivity.
Qed.

Lemma finish_thermal_efficiency (x : t) :
  thermal_efficiency (finish x) =
    if Qltb 10 (std_abs (engine_temperature x - optimal_temperature x)) then
      (if water_injection_active x
       then thermal_efficiency x * 1.1 else thermal_efficiency x)
      * (1 - 0.001 * std_abs (engine_temperature x - optimal_temperature x))
    else
      (if water_injection_active x
       then thermal_efficiency x * 1.1 else thermal_efficiency x).
Proof.
  unfold finish, clamp_volumetric_efficiency, temperature_adjustment,
    water_injection_adjustment, consumption_and_emissions.
  cbv zeta. members.
  destruct (water_injection_active x); members;
    destruct (Qltb 10 _); reflexivity.
Qed.

Lemma finish_nox_emissions (x : t) :
  nox_emissions (finish x) =
    if water_injection_active x
    then 0.01 * power_output x * (1 + (engine_temperature x - 90) / 100) * 0.8
    else 0.01 * power_output x * (1 + (engine_temperature x - 90) / 100).
Proof.
  unfold finish, clamp_volumetric_efficiency, temperature_adjustment,
    water_injection_adjustment, consumption_and_emissions.
  cbv zeta. members.
  destruct (water_injection_active x); members;
    destruct (Qltb 10 _); reflexivity.
Qed.


Lemma finish_structure (x : t) :
  displacement (finish x) = displacement x /\
  rod_stroke_ratio (finish x) = rod_stroke_ratio x /\
  piston_speed (finish x) = piston_speed x /\
  torque (finish x) = torque x.
Proof.
  unfold finish, clamp_volumetric_efficiency, temperature_adjustment,
    water_injection_adjustment, consumption_and_emissions.
  cbv zeta. break_branches; repeat split; reflexivity.
Qed.

Ltac otc_member H :=
  destruct H as (? & ? & ? & ? & ? & ? & ->); reflexivity.

Lemma otc_structure (e e' : t) :
  only_tuning_changed e e' ->
  displacement e' = displacement e /\
  rod_stroke_ratio e' = rod_stroke_ratio e /\
  piston_speed e' = piston_speed e /\
  torque e' = torque e.
Proof. intros H. repeat split; otc_member H. Qed.

Section Recomputation.

Variable pow : Q -> Q -> Q.

Lemma base_metrics_upgrades (e : t) : upgrades (base_metrics pow e) = upgrades e.
Proof. apply opc_upgrades, opc_base_metrics. Qed.

Lemma base_metrics_power_output (e : t) :
  power_output (base_metrics pow e) = calculate_power (calculate_displacement pow e).
Proof. reflexivity. Qed.

Lemma base_metrics_thermal_efficiency (e : t) :
  thermal_efficiency (base_metrics pow e) = calculate_thermal_efficiency pow e.
Proof. reflexivity. Qed.

Lemma base_metrics_volumetric_efficiency (e : t) :
  volumetric_efficiency (base_metrics pow e) = volumetric_efficiency e.
Proof. reflexivity. Qed.

Lemma base_metrics_engine_temperature (e : t) :
  engine_temperature (base_metrics pow e) = engine_temperature e.
Proof. reflexivity. Qed.

(** After the loop: each member is its recomputed base value times the
    product of the factors of the active upgrades. *)
Lemma upgraded_closed_form (e : t) :
  power_output (upgraded pow e) ==
    calculate_power (calculate_displacement pow e) * gain power_factor (upgrades e) /\
  thermal_efficiency (upgraded pow e) ==
    calculate_thermal_efficiency pow e * gain thermal_factor (upgrades e) /\
  volumetric_efficiency (upgraded pow e) ==
    volumetric_efficiency e * gain volumetric_factor (upgrades e) /\
  engine_temperature (upgraded pow e) ==
    engine_temperature e - total_drop (upgrades e).
Proof.
  unfold upgraded. rewrite base_metrics_upgrades.
  destruct (apply_active_upgrades_closed_form (upgrades e) (base_metrics pow e))
    as (Hp & Ht & Hv & Hd).
  rewrite base_metrics_power_output in Hp.
  rewrite base_metrics_thermal_efficiency in Ht.
  rewrite base_metrics_volumetric_efficiency in Hv.
  rewrite base_metrics_engine_temperature in Hd.
  repeat split; assumption.
Qed.

(** The volumetric efficiency after a recomputation: the stored value
    times the active volumetric factors, clamped to [[0.7, 1.0]]. *)
Lemma update_performance_volumetric_efficiency (e : t) :
  volumetric_efficiency (update_performance pow e) ==
    std_min
      (std_max (volumetric_efficiency e * gain volumetric_factor (upgrades e)) 0.7)
      1.0.
Proof.
  rewrite update_performance_stages, finish_volumetric_efficiency.
  destruct (upgraded_closed_form e) as (_ & _ & -> & _). reflexivity.
Qed.

Lemma update_performance_volumetric_efficiency_bounds (e : t) :
  0.7 <= volumetric_efficiency (update_performance pow e) /\
  volumetric_efficiency (update_performance pow e) <= 1.0.
Proof.
  rewrite update_performance_stages, finish_volumetric_efficiency.
  apply clamp_bounds'. lra.
Qed.

(** The temperature after a recomputation: the stored value minus 5 for
    an active ceramic coating. *)
Lemma update_performance_engine_temperature (e : t) :
  engine_temperature (update_performance pow e) ==
    engine_temperature e - total_drop (upgrades e).
Proof.
  rewrite update_performance_stages, finish_engine_temperature.
  apply upgraded_closed_form.
Qed.

End Recomputation.

(** ** Water injection in exact arithmetic *)

Section WaterInjection.

Variable pow : Q -> Q -> Q.

Lemma effect_set_water_injection_active (u : string) (f : t -> t) (b : bool) (x : t) :
  effect_at upgrade_effects u = Some f ->
  f (set_water_injection_active b x) = set_water_injection_active b (f x).
Proof.
  unfold upgrade_effects, effect_at.
  repeat (destruct (String.eqb u _); [ intros [= <-]; reflexivity | ]).
  discriminate.
Qed.

Lemma apply_active_upgrades_set_water_injection_active
    (l : StdMap.t) (b : bool) (x : t) :
  apply_active_upgrades l (set_water_injection_active b x) =
    set_water_injection_active b (apply_active_upgrades l x).
Proof.
  revert x. induction l as [| [u a] l IH]; intros x; cbn [apply_active_upgrades].
  - reflexivity.
  - destruct a; [ | apply IH ].
    destruct (effect_at upgrade_effects u) as [f |] eqn:Hf; [ | apply IH ].
    rewrite (effect_set_water_injection_active u f b x Hf). apply IH.
Qed.

(** The water-injection flag is not read before line 99: setting it
    commutes with the first two stages of the recomputation. *)
Lemma upgraded_set_water_injection_active (b : bool) (e : t) :
  upgraded pow (set_water_injection_active b e) =
    set_water_injection_active b (upgraded pow e).
Proof.
  unfold upgraded.
  replace (base_metrics pow (set_water_injection_active b e))
    with (set_water_injection_active b (base_metrics pow e)) by reflexivity.
  replace (upgrades (set_water_injection_active b (base_metrics pow e)))
    with (upgrades (base_metrics pow e)) by reflexivity.
  apply apply_active_upgrades_set_water_injection_active.
Qed.

(** In exact arithmetic the two factors of lines 99-102 pass through
    the temperature penalty of lines 104-107: the recomputation with
    water injection gives 1.1 times the thermal efficiency, and 0.8
    times the NOx emissions, of the recomputation without. *)
Lemma water_injection_factors_in_exact_arithmetic (e : t) :
  thermal_efficiency (update_performance pow (set_water_injection_active true e)) ==
    1.1 * thermal_efficiency
            (update_performance pow (set_water_injection_active false e)) /\
  nox_emissions (update_performance pow (set_water_injection_active true e)) ==
    0.8 * nox_emissions
            (update_performance pow (set_water_injection_active false e)).
Proof.
  rewrite !update_performance_stages, !upgraded_set_water_injection_active.
  rewrite !finish_thermal_efficiency, !finish_nox_emissions.
  generalize (upgraded pow e). intros x.
  members.
  split.
  - destruct (Qltb 10 _); ring.
  - ring.
Qed.

End WaterInjection.

(** ** Water injection in binary64 arithmetic *)

Section WaterInjectionBinary64.

Import PrimFloat.
#[local] Set Warnings "-inexact-float".
Local Open Scope float_scope.

Variable pow : float -> float -> float.

Lemma binary64_effect_set_water_injection_active
    (u : string) (f : Binary64.t -> Binary64.t) (b : bool) (x : Binary64.t) :
  Binary64.effect_at Binary64.upgrade_effects u = Some f ->
  f (Binary64.set_water_injection_active b x) =
    Binary64.set_water_injection_active b (f x).
Proof.
  unfold Binary64.upgrade_effects, Binary64.effect_at.
  repeat (destruct (String.eqb u _); [ intros [= <-]; reflexivity | ]).
  discriminate.
Qed.

Lemma binary64_apply_active_upgrades_set_water_injection_active
    (l : StdMap.t) (b : bool) (x : Binary64.t) :
  Binary64.apply_active_upgrades l (Binary64.set_water_injection_active b x) =
    Binary64.set_water_injection_active b (Binary64.apply_active_upgrades l x).
Proof.
  revert x. induction l as [| [u a] l IH]; intros x;
    cbn [Binary64.apply_active_upgrades].
  - reflexivity.
  - destruct a; [ | apply IH ].
    destruct (Binary64.effect_at Binary64.upgrade_effects u) as [f |] eqn:Hf;
      [ | apply IH ].
    rewrite (binary64_effect_set_water_injection_active u f b x Hf). apply IH.
Qed.

(** The flag is not read before line 99. *)
Lemma binary64_upgraded_set_water_injection_active (b : bool) (e : Binary64.t) :
  Binary64.upgraded pow (Binary64.set_water_injection_active b e) =
    Binary64.set_water_injection_active b (Binary64.upgraded pow e).
Proof.
  unfold Binary64.upgraded. cbv zeta.
  replace (Binary64.base_metrics pow (Binary64.set_water_injection_active b e))
    with (Binary64.set_water_injection_active b (Binary64.base_metrics pow e))
    by reflexivity.
  replace (Binary64.upgrades
             (Binary64.set_water_injection_active b (Binary64.base_metrics pow e)))
    with (Binary64.upgrades (Binary64.base_metrics pow e)) by reflexivity.
  apply binary64_apply_active_upgrades_set_water_injection_active.
Qed.

(** C7.  In the doubles of the program, for every engine state: with [x]
    the engine after the loop over the upgrades, the recomputation
    without water injection ends with the NOx figure of line 97 and with
    the thermal efficiency of [x] under the temperature penalty of lines
    104-107; with water injection the NOx figure is that one times 0.8,
    and lines 99-102 multiply the thermal efficiency of [x] by 1.1
    before the penalty is applied.  Where the penalty does not apply the
    thermal efficiency is that of the inactive recomputation times
    1.1. *)
Theorem water_injection_factors (e : Binary64.t) :
  let x := Binary64.upgraded pow e in
  let temp_difference :=
    abs (Binary64.engine_temperature x - Binary64.optimal_temperature x) in
  let on :=
    Binary64.update_performance pow (Binary64.set_water_injection_active true e) in
  let off :=
    Binary64.update_performance pow (Binary64.set_water_injection_active false e) in
  Binary64.nox_emissions off =
    0.01 * Binary64.power_output x
    * (1 + (Binary64.engine_temperature x - 90) / 100) /\
  Binary64.nox_emissions on = Binary64.nox_emissions off * 0.8 /\
  Binary64.thermal_efficiency off =
    (if 10 <? temp_difference
     then Binary64.thermal_efficiency x * (1 - 0.001 * temp_difference)
     else Binary64.thermal_efficiency x) /\
  Binary64.thermal_efficiency on =
    (if 10 <? temp_difference
     then Binary64.thermal_efficiency x * 1.1 * (1 - 0.001 * temp_difference)
     else Binary64.thermal_efficiency x * 1.1) /\
  ((10 <? temp_difference) = false ->
   Binary64.thermal_efficiency on =
     Binary64.thermal_efficiency off * 1.1).
Proof.
  cbv zeta. unfold Binary64.update_performance. cbv zeta.
  rewrite !binary64_upgraded_set_water_injection_active.
  generalize (Binary64.upgraded pow e). intros x. destruct x.
  unfold Binary64.clamp_volumetric_efficiency, Binary64.temperature_adjustment,
    Binary64.water_injection_adjustment, Binary64.consumption_and_emissions.
  cbn.
  match goal with
  | |- context [if ?c then _ else _] => destruct c
  end;
    (split; [ reflexivity | ]); (split; [ reflexivity | ]);
    (split; [ reflexivity | ]); (split; [ reflexivity | ]);
    intros H; [ discriminate H | reflexivity ].
Qed.

End WaterInjectionBinary64.

Section WaterInjectionOnTheConstructedEngine.

Import PrimFloat.
#[local] Set Warnings "-inexact-float".
Local Open Scope float_scope.

(** The constructed engine at 105 degrees: the temperature penalty
    applies, and the thermal efficiency with water injection is one unit
    in the last place below 1.1 times the one without
    (0.6682861403904478 against 0.6682861403904479). *)
Lemma thermal_efficiency_not_scaled_exactly :
  let on :=
    Binary64.update_performance Binary64.pow_sample
      (Binary64.set_water_injection_active true (Binary64.constructed_at 105)) in
  let off :=
    Binary64.update_performance Binary64.pow_sample
      (Binary64.set_water_injection_active false (Binary64.constructed_at 105)) in
  Binary64.thermal_efficiency on = 0x1.562999dab1aefp-1 /\
  1.1 * Binary64.thermal_efficiency off = 0x1.562999dab1af0p-1 /\
  Binary64.thermal_efficiency off * 1.1 = 0x1.562999dab1af0p-1 /\
  (Binary64.thermal_efficiency on
   =? 1.1 * Binary64.thermal_efficiency off) = false.
Proof.
  cbv zeta. repeat split; vm_compute; reflexivity.
Qed.

(** The theorem on the constructed engine at 90 degrees, where the
    penalty does not apply. *)
Lemma water_injection_factors_witness :
  Binary64.thermal_efficiency
    (Binary64.update_performance Binary64.pow_sample
       (Binary64.set_water_injection_active true (Binary64.constructed_at 90))) =
  Binary64.thermal_efficiency
    (Binary64.update_performance Binary64.pow_sample
       (Binary64.set_water_injection_active false (Binary64.constructed_at 90)))
  * 1.1.
Proof.
  destruct (water_injection_factors Binary64.pow_sample (Binary64.constructed_at 90))
    as (_ & _ & _ & _ & H).
  apply H. vm_compute. reflexivity.
Defined.

End WaterInjectionOnTheConstructedEngine.

(** ** Volumetric efficiency and temperature across ticks *)

Lemma if_same {A : Type} (b : bool) (x : A) : (if b then x else x) = x.
Proof. destruct b; reflexivity. Qed.

Lemma gain_volumetric_registered (m : StdMap.t) :
  StdMap.keys m = known_upgrades ->
  gain volumetric_factor m ==
    (if active "turbocharger" m then 1.15 else 1)
    * (if active "variable_valve_timing" m then 1.1 else 1).
Proof.
  intros Hk.
  destruct (registered_entries m Hk)
    as (b1 & b2 & b3 & b4 & b5 & b6 & b7 & b8 & b9 & b10 & b11 & ->).
  unfold active. cbn. rewrite !if_same.
  destruct b8, b10; reflexivity.
Qed.

Lemma total_drop_registered (m : StdMap.t) :
  StdMap.keys m = known_upgrades ->
  total_drop m == if active "ceramic_coating" m then 5 else 0.
Proof.
  intros Hk.
  destruct (registered_entries m Hk)
    as (b1 & b2 & b3 & b4 & b5 & b6 & b7 & b8 & b9 & b10 & b11 & ->).
  unfold active. cbn. rewrite !if_same.
  destruct b2; reflexivity.
Qed.

#[global] Instance recomputed_volumetric_efficiency_proper (m : StdMap.t) :
  Proper (Qeq ==> Qeq) (recomputed_volumetric_efficiency m).
Proof.
  intros v v' Hv. unfold recomputed_volumetric_efficiency. now rewrite Hv.
Qed.

(** A recomputation never lowers a volumetric efficiency that is at most
    1, and keeps it at most 1. *)
Lemma recomputed_volumetric_efficiency_monotone (m : StdMap.t) (v : Q) :
  StdMap.keys m = known_upgrades -> v <= 1 ->
  v <= recomputed_volumetric_efficiency m v /\
  recomputed_volumetric_efficiency m v <= 1.
Proof.
  intros Hk Hv. unfold recomputed_volumetric_efficiency.
  rewrite (gain_volumetric_registered m Hk).
  unfold std_min, std_max.
  destruct (active "turbocharger" m), (active "variable_valve_timing" m);
    repeat match goal with
      | |- context [Qltb ?a ?b] => destruct (Qltb_spec a b)
      end; lra.
Qed.

(** With the turbocharger active, one recomputation takes every value
    from 0.9 upwards to 1.0. *)
Lemma recomputed_volumetric_efficiency_saturates (m : StdMap.t) (v : Q) :
  StdMap.keys m = known_upgrades -> active "turbocharger" m = true ->
  0.9 <= v -> recomputed_volumetric_efficiency m v == 1.0.
Proof.
  intros Hk Ht Hv. unfold recomputed_volumetric_efficiency.
  rewrite (gain_volumetric_registered m Hk), Ht.
  unfold std_min, std_max.
  destruct (active "variable_valve_timing" m);
    repeat match goal with
      | |- context [Qltb ?a ?b] => destruct (Qltb_spec a b)
      end; lra.
Qed.

Section Ticks.

Variable pow : Q -> Q -> Q.

Lemma update_dynamics_upgrades (dt : Q) (r1 r2 : Z) (e : t) :
  upgrades (fst (update_dynamics pow dt r1 r2 e)) = upgrades e.
Proof.
  rewrite update_dynamics_unfold. cbv zeta.
  autorewrite with frame. members. autorewrite with frame.
  reflexivity.
Qed.

(** A tick recomputes the volumetric efficiency once, or twice when the
    random draw toggles the water injection. *)
Lemma update_dynamics_volumetric_efficiency (dt : Q) (r1 r2 : Z) (e : t) :
  volumetric_efficiency (fst (update_dynamics pow dt r1 r2 e)) ==
    if (Z.rem r2 1000 <? 5)%Z
    then recomputed_volumetric_efficiency (upgrades e)
           (recomputed_volumetric_efficiency (upgrades e) (volumetric_efficiency e))
    else recomputed_volumetric_efficiency (upgrades e) (volumetric_efficiency e).
Proof.
  rewrite update_dynamics_unfold. cbv zeta.
  autorewrite with frame.
  rewrite update_performance_volumetric_efficiency.
  members. autorewrite with frame.
  unfold random_water_injection, toggle_water_injection.
  destruct (Z.rem r2 1000 <? 5)%Z; cbn [fst].
  - rewrite update_performance_volumetric_efficiency.
    members.
    autorewrite with frame. reflexivity.
  - autorewrite with frame. reflexivity.
Qed.

(** After every tick the volumetric efficiency lies in [[0.7, 1.0]]. *)
Lemma update_dynamics_volumetric_efficiency_bounds (dt : Q) (r1 r2 : Z) (e : t) :
  0.7 <= volumetric_efficiency (fst (update_dynamics pow dt r1 r2 e)) /\
  volumetric_efficiency (fst (update_dynamics pow dt r1 r2 e)) <= 1.0.
Proof.
  rewrite update_dynamics_unfold. cbv zeta. autorewrite with frame.
  apply update_performance_volumetric_efficiency_bounds.
Qed.

End Ticks.

Section Temperature.

Variable pow : Q -> Q -> Q.

Lemma integrate_engine_temperature_bounds (dt : Q) (r1 : Z) (e : t) :
  85 <= engine_temperature (integrate dt r1 e) /\
  engine_temperature (integrate dt r1 e) <= 110.
Proof.
  unfold integrate. cbv zeta. members.
  match goal with
  | |- _ <= std_max _ (std_min _ ?x) /\ _ =>
      destruct (clamp_bounds 85.0 110.0 x ltac:(lra)) as [Hlo Hhi]
  end.
  split; lra.
Qed.

(** The random toggle recomputes the performance once when it fires. *)
Lemma random_water_injection_engine_temperature (r2 : Z) (e : t) :
  engine_temperature (fst (random_water_injection pow r2 e)) ==
    engine_temperature e
    - (if (Z.rem r2 1000 <? 5)%Z then total_drop (upgrades e) else 0).
Proof.
  unfold random_water_injection, toggle_water_injection.
  destruct (Z.rem r2 1000 <? 5)%Z; cbn [fst].
  - etransitivity; [ apply update_performance_engine_temperature | ].
    members. reflexivity.
  - ring.
Qed.

(** The temperature after a tick: the clamped temperature of line 236,
    minus the drops of the active upgrades once per recomputation. *)
Lemma update_dynamics_engine_temperature (dt : Q) (r1 r2 : Z) (e : t) :
  engine_temperature (fst (update_dynamics pow dt r1 r2 e)) ==
    engine_temperature (integrate dt r1 e)
    - (if (Z.rem r2 1000 <? 5)%Z then 2 else 1) * total_drop (upgrades e).
Proof.
  rewrite update_dynamics_unfold. cbv zeta.
  autorewrite with frame.
  etransitivity; [ apply update_performance_engine_temperature | ].
  members. autorewrite with frame.
  pose proof (random_water_injection_engine_temperature r2 (integrate dt r1 e)) as H.
  autorewrite with frame in H.
  revert H.
  generalize (engine_temperature
                (fst (random_water_injection pow r2 (integrate dt r1 e)))).
  generalize (engine_temperature (integrate dt r1 e)).
  generalize (total_drop (upgrades e)).
  intros d T0 T1 H.
  destruct (Z.rem r2 1000 <? 5)%Z; lra.
Qed.

(** Without the ceramic coating the temperature after a tick is the
    clamped one, between 85 and 110. *)
Lemma update_dynamics_engine_temperature_bounds (dt : Q) (r1 r2 : Z) (e : t) :
  registered e -> active "ceramic_coating" (upgrades e) = false ->
  85 <= engine_temperature (fst (update_dynamics pow dt r1 r2 e)) /\
  engine_temperature (fst (update_dynamics pow dt r1 r2 e)) <= 110.
Proof.
  intros Hreg Hc.
  rewrite update_dynamics_engine_temperature.
  rewrite (total_drop_registered _ Hreg), Hc.
  destruct (integrate_engine_temperature_bounds dt r1 e) as [Hlo Hhi].
  revert Hlo Hhi.
  generalize (engine_temperature (integrate dt r1 e)). intros T0 Hlo Hhi.
  destruct (Z.rem r2 1000 <? 5)%Z; split; lra.
Qed.

(** With the ceramic coating active the recomputation of line 259 runs
    after the clamp of line 236 and subtracts 5 again at every tick. *)
Lemma update_dynamics_engine_temperature_ceramic (dt : Q) (r1 r2 : Z) (e : t) :
  registered e -> active "ceramic_coating" (upgrades e) = true ->
  engine_temperature (fst (update_dynamics pow dt r1 r2 e)) ==
    engine_temperature (integrate dt r1 e)
    - (if (Z.rem r2 1000 <? 5)%Z then 10 else 5).
Proof.
  intros Hreg Hc.
  rewrite update_dynamics_engine_temperature.
  rewrite (total_drop_registered _ Hreg), Hc.
  generalize (engine_temperature (integrate dt r1 e)). intros T0.
  destruct (Z.rem r2 1000 <? 5)%Z; ring.
Qed.

End Temperature.

(** C2.  The claim asks for a temperature between 85 and 110 after every
    tick.  On the constructed engine, with the ceramic coating applied, one
    tick of 1/60 s (a first draw of 100, which leaves the jerk alone, and a
    second of 500, which does not toggle the water injection) ends with a
    temperature of 80; the volumetric efficiency is 0.9, inside its
    range. *)
Theorem ceramic_coating_tick_temperature :
  engine_temperature
    (run pow_sample
       [ApplyUpgrade "ceramic_coating"; UpdateDynamics (1 # 60) 100 500]
       (make pow_sample)) == 80 /\
  volumetric_efficiency
    (run pow_sample
       [ApplyUpgrade "ceramic_coating"; UpdateDynamics (1 # 60) 100 500]
       (make pow_sample)) == 0.9.
Proof. split; vm_compute; reflexivity. Qed.

(** ** The automatic gear change of a tick *)

Lemma automatic_shift_up (m : t) :
  transmission_mode m = Automatic ->
  4000 < rpm m -> (Gearbox.get_current_gear (gearbox m) < 5)%Z ->
  gearbox (automatic_shift m) = Gearbox.shift_up (gearbox m) /\
  rpm (automatic_shift m) = rpm m - 1500.
Proof.
  intros Hmode Hrpm Hgear. unfold automatic_shift. rewrite Hmode.
  apply Qltb_lt in Hrpm. apply Z.ltb_lt in Hgear. rewrite Hrpm, Hgear.
  split; reflexivity.
Qed.

Lemma automatic_shift_down (m : t) :
  transmission_mode m = Automatic ->
  rpm m < 2000 -> (Gearbox.get_current_gear (gearbox m) > 1)%Z ->
  gearbox (automatic_shift m) = Gearbox.shift_down (gearbox m) /\
  rpm (automatic_shift m) = rpm m + 1500.
Proof.
  intros Hmode Hrpm Hgear. unfold automatic_shift. rewrite Hmode.
  assert (Hno : Qltb 4000 (rpm m) = false) by (apply Qltb_ge; lra).
  apply Qltb_lt in Hrpm. rewrite Z.gt_lt_iff in Hgear.
  rewrite <- Z.gtb_lt in Hgear.
  rewrite Hno, Hrpm, Hgear. split; reflexivity.
Qed.

(** Outside the two rules, and always in Manual mode, the tick leaves
    gear and rpm to the re-clamp alone. *)
Lemma automatic_shift_idle (m : t) :
  transmission_mode m = Manual \/
  (~ (4000 < rpm m /\ (Gearbox.get_current_gear (gearbox m) < 5)%Z) /\
   ~ (rpm m < 2000 /\ (Gearbox.get_current_gear (gearbox m) > 1)%Z)) ->
  automatic_shift m = m.
Proof.
  intros [Hmode | [Hup Hdown]]; unfold automatic_shift.
  - rewrite Hmode. reflexivity.
  - destruct (transmission_mode m); [ | reflexivity ].
    destruct (Qltb_spec 4000 (rpm m)), (Qltb_spec (rpm m) 2000),
      (Z.ltb_spec (Gearbox.get_current_gear (gearbox m)) 5);
      rewrite ?Z.gtb_ltb;
      destruct (Z.ltb_spec 1 (Gearbox.get_current_gear (gearbox m)));
      cbn [andb]; try reflexivity; exfalso; (apply Hup + apply Hdown); split;
        (assumption || lia).
Qed.

Lemma update_gear_shift_message_changed (dt : Q) (g : Z) (x : t) :
  Gearbox.get_current_gear (gearbox x) <> g ->
  gear_shift_message (update_gear_shift_message dt g x) =
    String.append "Shifted to gear "
      (to_string (Gearbox.get_current_gear (gearbox x))) /\
  gear_shift_message_timer (update_gear_shift_message dt g x) = 3.0.
Proof.
  intros Hne. unfold update_gear_shift_message.
  apply Z.eqb_neq in Hne. rewrite Hne. split; reflexivity.
Qed.

Section AutomaticTick.

Variable pow : Q -> Q -> Q.

Lemma update_dynamics_gearbox (dt : Q) (r1 r2 : Z) (e : t) :
  gearbox (fst (update_dynamics pow dt r1 r2 e)) =
    gearbox (automatic_shift
               (fst (random_water_injection pow r2 (integrate dt r1 e)))).
Proof.
  rewrite update_dynamics_unfold. cbv zeta.
  autorewrite with frame. members. reflexivity.
Qed.

Lemma update_dynamics_message (dt : Q) (r1 r2 : Z) (e : t) :
  Gearbox.get_current_gear (gearbox (fst (update_dynamics pow dt r1 r2 e))) <>
    Gearbox.get_current_gear (gearbox e) ->
  gear_shift_message (fst (update_dynamics pow dt r1 r2 e)) =
    String.append "Shifted to gear "
      (to_string
         (Gearbox.get_current_gear (gearbox (fst (update_dynamics pow dt r1 r2 e)))))
  /\ gear_shift_message_timer (fst (update_dynamics pow dt r1 r2 e)) = 3.0.
Proof.
  rewrite update_dynamics_gearbox.
  rewrite update_dynamics_unfold. cbv zeta.
  rewrite (random_water_injection_gearbox pow r2 (integrate dt r1 e)),
    integrate_gearbox.
  intros Hne.
  match goal with
  | |- context [update_gear_shift_message dt ?g ?x] =>
      assert (Hx : gearbox x =
                   gearbox (automatic_shift
                      (fst (random_water_injection pow r2 (integrate dt r1 e)))))
        by (autorewrite with frame; members; reflexivity);
      generalize dependent x
  end.
  intros x Hx.
  generalize dependent (automatic_shift
    (fst (random_water_injection pow r2 (integrate dt r1 e)))).
  intros s Hne Hx. rewrite <- Hx in Hne.
  destruct (update_gear_shift_message_changed dt _ x Hne) as [Hm Ht].
  rewrite <- Hx. split; assumption.
Qed.

(** C4.  In a tick in Automatic mode of a five-gear engine: if the rpm
    after the integration of line 231 exceeds 4000 below gear 5, the gear
    rises by one and the rpm of the tick is that rpm minus 1500, re-clamped
    to [[idle_rpm, max_rpm]]; if it is under 2000 above gear 1, the gear
    falls by one and the rpm is that rpm plus 1500, re-clamped; and
    whenever the gear after the tick differs from the gear before, the
    message reads "Shifted to gear" with the new gear and its timer is
    3.0. *)
Theorem automatic_tick_shift (dt : Q) (r1 r2 : Z) (e : t) :
  transmission_mode e = Automatic ->
  five_speed (gearbox e) ->
  (4000 < rpm (integrate dt r1 e) ->
   (Gearbox.get_current_gear (gearbox e) < 5)%Z ->
   Gearbox.get_current_gear (gearbox (fst (update_dynamics pow dt r1 r2 e))) =
     (Gearbox.get_current_gear (gearbox e) + 1)%Z /\
   rpm (fst (update_dynamics pow dt r1 r2 e)) =
     std_max (idle_rpm e) (std_min (max_rpm e) (rpm (integrate dt r1 e) - 1500))) /\
  (rpm (integrate dt r1 e) < 2000 ->
   (Gearbox.get_current_gear (gearbox e) > 1)%Z ->
   Gearbox.get_current_gear (gearbox (fst (update_dynamics pow dt r1 r2 e))) =
     (Gearbox.get_current_gear (gearbox e) - 1)%Z /\
   rpm (fst (update_dynamics pow dt r1 r2 e)) =
     std_max (idle_rpm e) (std_min (max_rpm e) (rpm (integrate dt r1 e) + 1500))) /\
  (Gearbox.get_current_gear (gearbox (fst (update_dynamics pow dt r1 r2 e))) <>
     Gearbox.get_current_gear (gearbox e) ->
   gear_shift_message (fst (update_dynamics pow dt r1 r2 e)) =
     String.append "Shifted to gear "
       (to_string
          (Gearbox.get_current_gear
             (gearbox (fst (update_dynamics pow dt r1 r2 e))))) /\
   gear_shift_message_timer (fst (update_dynamics pow dt r1 r2 e)) = 3.0).
Proof.
  intros Hmode Hfive.
  split; [ | split; [ | apply update_dynamics_message ] ].
  - intros Hrpm Hgear.
    rewrite update_dynamics_gearbox, update_dynamics_rpm.
    pose proof (random_water_injection_transmission_mode pow r2 (integrate dt r1 e))
      as Hm.
    pose proof (random_water_injection_rpm pow r2 (integrate dt r1 e)) as Hr.
    pose proof (random_water_injection_gearbox pow r2 (integrate dt r1 e)) as Hg.
    rewrite integrate_transmission_mode in Hm. rewrite integrate_gearbox in Hg.
    revert Hm Hr Hg.
    generalize (fst (random_water_injection pow r2 (integrate dt r1 e))).
    intros m Hm Hr Hg.
    destruct (automatic_shift_up m) as [Hbox Hnew].
    + congruence.
    + rewrite Hr. exact Hrpm.
    + rewrite Hg. exact Hgear.
    + rewrite Hbox, Hnew, Hg, Hr. split; [ | reflexivity ].
      apply (gearbox_shift_cases (gearbox e) Hfive).
      unfold Gearbox.get_current_gear in Hgear. lia.
  - intros Hrpm Hgear.
    rewrite update_dynamics_gearbox, update_dynamics_rpm.
    pose proof (random_water_injection_transmission_mode pow r2 (integrate dt r1 e))
      as Hm.
    pose proof (random_water_injection_rpm pow r2 (integrate dt r1 e)) as Hr.
    pose proof (random_water_injection_gearbox pow r2 (integrate dt r1 e)) as Hg.
    rewrite integrate_transmission_mode in Hm. rewrite integrate_gearbox in Hg.
    revert Hm Hr Hg.
    generalize (fst (random_water_injection pow r2 (integrate dt r1 e))).
    intros m Hm Hr Hg.
    destruct (automatic_shift_down m) as [Hbox Hnew].
    + congruence.
    + rewrite Hr. exact Hrpm.
    + rewrite Hg. exact Hgear.
    + rewrite Hbox, Hnew, Hg, Hr. split; [ | reflexivity ].
      apply (gearbox_shift_cases (gearbox e) Hfive).
      unfold Gearbox.get_current_gear in Hgear. lia.
Qed.

End AutomaticTick.

(** The theorem on the constructed engine driven to 4200 rpm in gear 1:
    one tick ends in gear 2. *)
Lemma automatic_tick_shift_witness :
  Gearbox.get_current_gear
    (gearbox (fst (update_dynamics pow_sample 0 100 500
                     (set_rpm 4200 (make pow_sample))))) = 2%Z.
Proof.
  destruct (automatic_tick_shift pow_sample 0 100 500
              (set_rpm 4200 (make pow_sample))) as [Hup _].
  - vm_compute. reflexivity.
  - split; [ reflexivity | vm_compute; split; discriminate ].
  - destruct Hup as [Hgear _].
    + vm_compute. reflexivity.
    + vm_compute. reflexivity.
    + rewrite Hgear. vm_compute. reflexivity.
Defined.

(** ** The pedal commands *)

Lemma accelerate_pedal_rpm (e : t) :
  rpm (accelerate_pedal e) =
    if Qltb (max_rpm e) (rpm e + 100) then max_rpm e else rpm e + 100.
Proof.
  unfold accelerate_pedal. cbv zeta. members.
  destruct (Qltb (max_rpm e) (rpm e + 100)); members;
    destruct (Qltb 110 _); reflexivity.
Qed.

Lemma decelerate_pedal_rpm (e : t) :
  rpm (decelerate_pedal e) =
    if Qltb (rpm e - 100) (idle_rpm e) then idle_rpm e else rpm e - 100.
Proof.
  unfold decelerate_pedal. cbv zeta. members.
  destruct (Qltb (rpm e - 100) (idle_rpm e)); members;
    destruct (Qltb _ 85); reflexivity.
Qed.

Lemma accelerate_pedal_engine_temperature (e : t) :
  engine_temperature (accelerate_pedal e) =
    if Qltb 110
         (engine_temperature e
          + std_max 0.0 (0.5 * (1 - (engine_temperature e - 90) / 100)))
    then 110
    else engine_temperature e
         + std_max 0.0 (0.5 * (1 - (engine_temperature e - 90) / 100)).
Proof.
  unfold accelerate_pedal. cbv zeta. members.
  destruct (Qltb (max_rpm e) (rpm e + 100)); members;
    destruct (Qltb 110 _); reflexivity.
Qed.

Lemma decelerate_pedal_engine_temperature (e : t) :
  engine_temperature (decelerate_pedal e) =
    if Qltb
         (engine_temperature e
          - std_max 0.0 (0.2 * ((engine_temperature e - 90) / 100)))
         85
    then 85
    else engine_temperature e
         - std_max 0.0 (0.2 * ((engine_temperature e - 90) / 100)).
Proof.
  unfold decelerate_pedal. cbv zeta. members.
  destruct (Qltb (rpm e - 100) (idle_rpm e)); members;
    destruct (Qltb _ 85); reflexivity.
Qed.

Lemma accelerate_shift_cases (x : t) :
  (4000 < rpm x -> (Gearbox.get_current_gear (gearbox x) < 5)%Z ->
   gearbox (accelerate_shift x) = Gearbox.shift_up (gearbox x) /\
   rpm (accelerate_shift x) = rpm x - 1500) /\
  (~ (4000 < rpm x /\ (Gearbox.get_current_gear (gearbox x) < 5)%Z) ->
   accelerate_shift x = x).
Proof.
  unfold accelerate_shift.
  destruct (Qltb_spec 4000 (rpm x)),
    (Z.ltb_spec (Gearbox.get_current_gear (gearbox x)) 5); cbn [andb];
    split; intros; try (split; reflexivity); try reflexivity;
    try lra; try lia; tauto.
Qed.

Lemma decelerate_shift_cases (x : t) :
  (rpm x < 2000 -> (Gearbox.get_current_gear (gearbox x) > 1)%Z ->
   gearbox (decelerate_shift x) = Gearbox.shift_down (gearbox x) /\
   rpm (decelerate_shift x) = rpm x + 1500) /\
  (~ (rpm x < 2000 /\ (Gearbox.get_current_gear (gearbox x) > 1)%Z) ->
   decelerate_shift x = x).
Proof.
  unfold decelerate_shift. rewrite Z.gtb_ltb.
  destruct (Qltb_spec (rpm x) 2000),
    (Z.ltb_spec 1 (Gearbox.get_current_gear (gearbox x))); cbn [andb];
    split; intros; try (split; reflexivity); try reflexivity;
    try lra; try lia; exfalso; intuition lia.
Qed.

(** On the range the temperature is kept in, the warm-up step of
    [accelerate] is at least ten times the cool-down step of
    [decelerate]. *)
Lemma pedal_temperature_steps (T : Q) :
  85 <= T -> T <= 110 ->
  0.4 <= std_max 0.0 (0.5 * (1 - (T - 90) / 100)) /\
  std_max 0.0 (0.2 * ((T - 90) / 100)) <= 0.04.
Proof.
  intros Hlo Hhi.
  assert (Hu : (T - 90) / 100 == (T - 90) * (1 # 100)) by (field; discriminate).
  assert (Hulo : -0.05 <= (T - 90) / 100) by (rewrite Hu; lra).
  assert (Huhi : (T - 90) / 100 <= 0.2) by (rewrite Hu; lra).
  clear Hu. revert Hulo Huhi. generalize ((T - 90) / 100). intros u Hulo Huhi.
  unfold std_max.
  destruct (Qltb_spec 0.0 (0.5 * (1 - u))), (Qltb_spec 0.0 (0.2 * u));
    split; lra.
Qed.

Section Pedals.

Variable pow : Q -> Q -> Q.

(** C9.  [accelerate] adds 100 to the rpm and caps it at [max_rpm];
    [decelerate] subtracts 100 and lifts it to [idle_rpm].  Neither reads
    or writes jerk or acceleration.  On the temperature range [[85, 110]]
    the warm-up step is at least 0.4 and the cool-down step at most 0.04,
    each applied before the caps at 110 and 85 and before the
    recomputation.  Then [accelerate] applies the up rule of the tick
    (rpm above 4000 below gear 5: one gear up, rpm minus 1500) and
    [decelerate] the down rule (rpm under 2000 above gear 1: one gear
    down, rpm plus 1500); otherwise gear and rpm stay. *)
Theorem pedal_commands (e : t) :
  five_speed (gearbox e) ->
  (rpm (accelerate_pedal e) =
     (if Qltb (max_rpm e) (rpm e + 100) then max_rpm e else rpm e + 100) /\
   rpm (accelerate_pedal e) <= max_rpm e /\
   jerk (accelerate pow e) = jerk e /\
   acceleration (accelerate pow e) = acceleration e /\
   (4000 < rpm (accelerate_pedal e) ->
    (Gearbox.get_current_gear (gearbox e) < 5)%Z ->
    Gearbox.get_current_gear (gearbox (accelerate pow e)) =
      (Gearbox.get_current_gear (gearbox e) + 1)%Z /\
    rpm (accelerate pow e) = rpm (accelerate_pedal e) - 1500) /\
   (~ (4000 < rpm (accelerate_pedal e) /\
       (Gearbox.get_current_gear (gearbox e) < 5)%Z) ->
    gearbox (accelerate pow e) = gearbox e /\
    rpm (accelerate pow e) = rpm (accelerate_pedal e))) /\
  (rpm (decelerate_pedal e) =
     (if Qltb (rpm e - 100) (idle_rpm e) then idle_rpm e else rpm e - 100) /\
   idle_rpm e <= rpm (decelerate_pedal e) /\
   jerk (decelerate pow e) = jerk e /\
   acceleration (decelerate pow e) = acceleration e /\
   (rpm (decelerate_pedal e) < 2000 ->
    (Gearbox.get_current_gear (gearbox e) > 1)%Z ->
    Gearbox.get_current_gear (gearbox (decelerate pow e)) =
      (Gearbox.get_current_gear (gearbox e) - 1)%Z /\
    rpm (decelerate pow e) = rpm (decelerate_pedal e) + 1500) /\
   (~ (rpm (decelerate_pedal e) < 2000 /\
       (Gearbox.get_current_gear (gearbox e) > 1)%Z) ->
    gearbox (decelerate pow e) = gearbox e /\
    rpm (decelerate pow e) = rpm (decelerate_pedal e))) /\
  (engine_temperature (accelerate pow e) ==
     (if Qltb 110
           (engine_temperature e
            + std_max 0.0 (0.5 * (1 - (engine_temperature e - 90) / 100)))
      then 110
      else engine_temperature e
           + std_max 0.0 (0.5 * (1 - (engine_temperature e - 90) / 100)))
     - total_drop (upgrades e) /\
   engine_temperature (decelerate pow e) ==
     (if Qltb
           (engine_temperature e
            - std_max 0.0 (0.2 * ((engine_temperature e - 90) / 100)))
           85
      then 85
      else engine_temperature e
           - std_max 0.0 (0.2 * ((engine_temperature e - 90) / 100)))
     - total_drop (upgrades e) /\
   (85 <= engine_temperature e -> engine_temperature e <= 110 ->
    0.4 <= std_max 0.0 (0.5 * (1 - (engine_temperature e - 90) / 100)) /\
    std_max 0.0 (0.2 * ((engine_temperature e - 90) / 100)) <= 0.04)).
Proof.
  intros Hfive.
  split; [ | split ].
  - split; [ apply accelerate_pedal_rpm | ].
    split.
    { rewrite accelerate_pedal_rpm.
      destruct (Qltb_spec (max_rpm e) (rpm e + 100)); lra. }
    unfold accelerate. cbv zeta.
    pose proof (accelerate_pedal_gearbox e) as Hg.
    assert (Hx : rpm (update_vehicle_speed
                        (update_performance pow (accelerate_pedal e)))
                 = rpm (accelerate_pedal e))
      by (autorewrite with frame; reflexivity).
    assert (Hb : gearbox (update_vehicle_speed
                            (update_performance pow (accelerate_pedal e)))
                 = gearbox e)
      by (autorewrite with frame; reflexivity).
    assert (Hj : jerk (update_vehicle_speed
                         (update_performance pow (accelerate_pedal e)))
                 = jerk e)
      by (autorewrite with frame; reflexivity).
    assert (Ha : acceleration (update_vehicle_speed
                                 (update_performance pow (accelerate_pedal e)))
                 = acceleration e)
      by (autorewrite with frame; reflexivity).
    revert Hx Hb Hj Ha.
    generalize (update_vehicle_speed (update_performance pow (accelerate_pedal e))).
    generalize (rpm (accelerate_pedal e)).
    intros r x Hx Hb Hj Ha.
    destruct (accelerate_shift_cases x) as [Hup Hstay].
    rewrite accelerate_shift_jerk, accelerate_shift_acceleration, Hj, Ha.
    rewrite Hx, Hb in Hup, Hstay.
    split; [ reflexivity | split; [ reflexivity | split ] ].
    + intros Hr Hgear. destruct (Hup Hr Hgear) as [Hbox Hnew].
      rewrite Hbox, Hnew. split; [ | reflexivity ].
      apply (gearbox_shift_cases (gearbox e) Hfive).
      unfold Gearbox.get_current_gear in Hgear. lia.
    + intros Hno. rewrite (Hstay Hno). split; assumption.
  - split; [ apply decelerate_pedal_rpm | ].
    split.
    { rewrite decelerate_pedal_rpm.
      destruct (Qltb_spec (rpm e - 100) (idle_rpm e)); lra. }
    unfold decelerate. cbv zeta.
    assert (Hx : rpm (update_vehicle_speed
                        (update_performance pow (decelerate_pedal e)))
                 = rpm (decelerate_pedal e))
      by (autorewrite with frame; reflexivity).
    assert (Hb : gearbox (update_vehicle_speed
                            (update_performance pow (decelerate_pedal e)))
                 = gearbox e)
      by (autorewrite with frame; reflexivity).
    assert (Hj : jerk (update_vehicle_speed
                         (update_performance pow (decelerate_pedal e)))
                 = jerk e)
      by (autorewrite with frame; reflexivity).
    assert (Ha : acceleration (update_vehicle_speed
                                 (update_performance pow (decelerate_pedal e)))
                 = acceleration e)
      by (autorewrite with frame; reflexivity).
    revert Hx Hb Hj Ha.
    generalize (update_vehicle_speed (update_performance pow (decelerate_pedal e))).
    generalize (rpm (decelerate_pedal e)).
    intros r x Hx Hb Hj Ha.
    destruct (decelerate_shift_cases x) as [Hdown Hstay].
    rewrite decelerate_shift_jerk, decelerate_shift_acceleration, Hj, Ha.
    rewrite Hx, Hb in Hdown, Hstay.
    split; [ reflexivity | split; [ reflexivity | split ] ].
    + intros Hr Hgear. destruct (Hdown Hr Hgear) as [Hbox Hnew].
      rewrite Hbox, Hnew. split; [ | reflexivity ].
      apply (gearbox_shift_cases (gearbox e) Hfive).
      unfold Gearbox.get_current_gear in Hgear. lia.
    + intros Hno. rewrite (Hstay Hno). split; assumption.
  - split; [ | split; [ | apply pedal_temperature_steps ] ].
    + unfold accelerate. cbv zeta.
      rewrite accelerate_shift_engine_temperature,
        update_vehicle_speed_engine_temperature.
      etransitivity; [ apply update_performance_engine_temperature | ].
      rewrite accelerate_pedal_upgrades, accelerate_pedal_engine_temperature.
      reflexivity.
    + unfold decelerate. cbv zeta.
      rewrite decelerate_shift_engine_temperature,
        update_vehicle_speed_engine_temperature.
      etransitivity; [ apply update_performance_engine_temperature | ].
      rewrite decelerate_pedal_upgrades, decelerate_pedal_engine_temperature.
      reflexivity.
Qed.

End Pedals.

(** The theorem on the constructed engine: the accelerator takes the rpm
    from 1000 to 1100 and leaves the gear at 1. *)
Lemma pedal_commands_witness :
  rpm (accelerate pow_sample (make pow_sample)) == 1100 /\
  Gearbox.get_current_gear (gearbox (accelerate pow_sample (make pow_sample))) = 1%Z.
Proof.
  destruct (pedal_commands pow_sample (make pow_sample)) as [Hacc _].
  - split; [ reflexivity | vm_compute; split; discriminate ].
  - destruct Hacc as (Hr & _ & _ & _ & _ & Hstay).
    destruct Hstay as [Hbox Hrpm].
    + rewrite Hr. vm_compute. intros [H _]. discriminate H.
    + rewrite Hrpm, Hr, Hbox. split; vm_compute; reflexivity.
Defined.

(** ** Applying a registered upgrade *)





Lemma active_assign (m : StdMap.t) (u : string) :
  StdMap.keys m = known_upgrades -> In u known_upgrades ->
  active u (StdMap.assign u true m) = true.
Proof.
  intros Hk Hu.
  destruct (registered_entries m Hk)
    as (b1 & b2 & b3 & b4 & b5 & b6 & b7 & b8 & b9 & b10 & b11 & ->).
  unfold known_upgrades in Hu. cbn [In] in Hu.
  repeat (destruct Hu as [<- | Hu]; [ reflexivity | ]).
  contradiction.
Qed.

(** The flags of the other upgrades stay as they were. *)
Lemma find_assign_other (m : StdMap.t) (u v : string) (b : bool) :
  StdMap.keys m = known_upgrades -> In u known_upgrades -> v <> u ->
  StdMap.find v (StdMap.assign u b m) = StdMap.find v m.
Proof.
  intros Hk Hu Hne.
  destruct (registered_entries m Hk)
    as (b1 & b2 & b3 & b4 & b5 & b6 & b7 & b8 & b9 & b10 & b11 & ->).
  unfold known_upgrades in Hu. cbn [In] in Hu.
  repeat (destruct Hu as [<- | Hu];
          [ cbn;
            repeat (match goal with
                    | |- context [String.eqb v ?k] =>
                        destruct (String.eqb_spec v k); [ congruence | ]
                    end);
            reflexivity | ]).
  contradiction.
Qed.

Section KnownUpgrade.

Variable pow : Q -> Q -> Q.

Lemma apply_upgrade_registered (u : string) (e : t) :
  registered e -> In u known_upgrades ->
  apply_upgrade pow u e =
    (update_performance pow
       (set_upgrades (StdMap.assign u true (upgrades e)) e),
     [String.append u " applied"]).
Proof.
  intros Hreg Hu. unfold apply_upgrade.
  rewrite count_present; [ reflexivity | ].
  unfold registered in Hreg. now rewrite Hreg.
Qed.

(** The members read by the first stage do not include the flags. *)
Lemma upgraded_set_upgrades (m : StdMap.t) (e : t) :
  upgraded pow (set_upgrades m e) =
    apply_active_upgrades m (set_upgrades m (base_metrics pow e)).
Proof. reflexivity. Qed.


End KnownUpgrade.

Section KnownUpgradeTheorem.

Variable pow : Q -> Q -> Q.


End KnownUpgradeTheorem.



(** * Further properties of the code *)

(** ** More members that the control code leaves alone *)

Lemma integrate_gear_shift_message (dt : Q) (r1 : Z) (e : t) :
  gear_shift_message (integrate dt r1 e) = gear_shift_message e.
Proof. unfold integrate. cbv zeta. reflexivity. Qed.

Lemma integrate_gear_shift_message_timer (dt : Q) (r1 : Z) (e : t) :
  gear_shift_message_timer (integrate dt r1 e) = gear_shift_message_timer e.
Proof. unfold integrate. cbv zeta. reflexivity. Qed.

Lemma integrate_frame_times (dt : Q) (r1 : Z) (e : t) :
  frame_times (integrate dt r1 e) = frame_times e.
Proof. unfold integrate. cbv zeta. reflexivity. Qed.

Lemma integrate_wheel_radius (dt : Q) (r1 : Z) (e : t) :
  wheel_radius (integrate dt r1 e) = wheel_radius e.
Proof. unfold integrate. cbv zeta. reflexivity. Qed.

Lemma integrate_final_drive_ratio (dt : Q) (r1 : Z) (e : t) :
  final_drive_ratio (integrate dt r1 e) = final_drive_ratio e.
Proof. unfold integrate. cbv zeta. reflexivity. Qed.

Lemma automatic_shift_gear_shift_message  (e : t) :
  gear_shift_message (automatic_shift e) = gear_shift_message e.
Proof. unfold automatic_shift. break_branches; frame_done. Qed.

Lemma automatic_shift_gear_shift_message_timer  (e : t) :
  gear_shift_message_timer (automatic_shift e) = gear_shift_message_timer e.
Proof. unfold automatic_shift. break_branches; frame_done. Qed.

Lemma automatic_shift_jerk  (e : t) :
  jerk (automatic_shift e) = jerk e.
Proof. unfold automatic_shift. break_branches; frame_done. Qed.

Lemma automatic_shift_acceleration  (e : t) :
  acceleration (automatic_shift e) = acceleration e.
Proof. unfold automatic_shift. break_branches; frame_done. Qed.

Lemma automatic_shift_frame_times  (e : t) :
  frame_times (automatic_shift e) = frame_times e.
Proof. unfold automatic_shift. break_branches; frame_done. Qed.

Lemma automatic_shift_wheel_radius  (e : t) :
  wheel_radius (automatic_shift e) = wheel_radius e.
Proof. unfold automatic_shift. break_branches; frame_done. Qed.

Lemma automatic_shift_final_drive_ratio  (e : t) :
  final_drive_ratio (automatic_shift e) = final_drive_ratio e.
Proof. unfold automatic_shift. break_branches; frame_done. Qed.

Lemma update_gear_shift_message_jerk (dt : Q) (g : Z) (e : t) :
  jerk (update_gear_shift_message dt g e) = jerk e.
Proof. unfold update_gear_shift_message. break_branches; frame_done. Qed.

Lemma update_gear_shift_message_acceleration (dt : Q) (g : Z) (e : t) :
  acceleration (update_gear_shift_message dt g e) = acceleration e.
Proof. unfold update_gear_shift_message. break_branches; frame_done. Qed.

Lemma update_gear_shift_message_vehicle_speed (dt : Q) (g : Z) (e : t) :
  vehicle_speed (update_gear_shift_message dt g e) = vehicle_speed e.
Proof. unfold update_gear_shift_message. break_branches; frame_done. Qed.

Lemma update_gear_shift_message_wheel_radius (dt : Q) (g : Z) (e : t) :
  wheel_radius (update_gear_shift_message dt g e) = wheel_radius e.
Proof. unfold update_gear_shift_message. break_branches; frame_done. Qed.

Lemma update_gear_shift_message_final_drive_ratio (dt : Q) (g : Z) (e : t) :
  final_drive_ratio (update_gear_shift_message dt g e) = final_drive_ratio e.
Proof. unfold update_gear_shift_message. break_branches; frame_done. Qed.

Lemma update_gear_shift_message_frame_times (dt : Q) (g : Z) (e : t) :
  frame_times (update_gear_shift_message dt g e) = frame_times e.
Proof. unfold update_gear_shift_message. break_branches; frame_done. Qed.

Lemma update_vehicle_speed_gear_shift_message  (e : t) :
  gear_shift_message (update_vehicle_speed e) = gear_shift_message e.
Proof. reflexivity. Qed.

Lemma update_vehicle_speed_gear_shift_message_timer  (e : t) :
  gear_shift_message_timer (update_vehicle_speed e) = gear_shift_message_timer e.
Proof. reflexivity. Qed.

Lemma update_vehicle_speed_wheel_radius  (e : t) :
  wheel_radius (update_vehicle_speed e) = wheel_radius e.
Proof. reflexivity. Qed.

Lemma update_vehicle_speed_final_drive_ratio  (e : t) :
  final_drive_ratio (update_vehicle_speed e) = final_drive_ratio e.
Proof. reflexivity. Qed.

Lemma update_vehicle_speed_frame_times  (e : t) :
  frame_times (update_vehicle_speed e) = frame_times e.
Proof. reflexivity. Qed.

Lemma accelerate_pedal_gear_shift_message  (e : t) :
  gear_shift_message (accelerate_pedal e) = gear_shift_message e.
Proof. unfold accelerate_pedal. cbv zeta. break_branches; frame_done. Qed.

Lemma accelerate_pedal_gear_shift_message_timer  (e : t) :
  gear_shift_message_timer (accelerate_pedal e) = gear_shift_message_timer e.
Proof. unfold accelerate_pedal. cbv zeta. break_branches; frame_done. Qed.

Lemma decelerate_pedal_gear_shift_message  (e : t) :
  gear_shift_message (decelerate_pedal e) = gear_shift_message e.
Proof. unfold decelerate_pedal. cbv zeta. break_branches; frame_done. Qed.

Lemma decelerate_pedal_gear_shift_message_timer  (e : t) :
  gear_shift_message_timer (decelerate_pedal e) = gear_shift_message_timer e.
Proof. unfold decelerate_pedal. cbv zeta. break_branches; frame_done. Qed.

Lemma accelerate_shift_gear_shift_message  (e : t) :
  gear_shift_message (accelerate_shift e) = gear_shift_message e.
Proof. unfold accelerate_shift. break_branches; frame_done. Qed.

Lemma accelerate_shift_gear_shift_message_timer  (e : t) :
  gear_shift_message_timer (accelerate_shift e) = gear_shift_message_timer e.
Proof. unfold accelerate_shift. break_branches; frame_done. Qed.

Lemma decelerate_shift_gear_shift_message  (e : t) :
  gear_shift_message (decelerate_shift e) = gear_shift_message e.
Proof. unfold decelerate_shift. break_branches; frame_done. Qed.

Lemma decelerate_shift_gear_shift_message_timer  (e : t) :
  gear_shift_message_timer (decelerate_shift e) = gear_shift_message_timer e.
Proof. unfold decelerate_shift. break_branches; frame_done. Qed.

Lemma opc_frame_times (e e' : t) : only_performance_changed e e' -> frame_times e' = frame_times e.
Proof. intros H. opc_member H. Qed.
Lemma opc_wheel_radius (e e' : t) : only_performance_changed e e' -> wheel_radius e' = wheel_radius e.
Proof. intros H. opc_member H. Qed.
Lemma opc_final_drive_ratio (e e' : t) : only_performance_changed e e' -> final_drive_ratio e' = final_drive_ratio e.
Proof. intros H. opc_member H. Qed.
Lemma opc_vehicle_speed (e e' : t) : only_performance_changed e e' -> vehicle_speed e' = vehicle_speed e.
Proof. intros H. opc_member H. Qed.
Lemma opc_bore (e e' : t) : only_performance_changed e e' -> bore e' = bore e.
Proof. intros H. opc_member H. Qed.
Lemma opc_stroke (e e' : t) : only_performance_changed e e' -> stroke e' = stroke e.
Proof. intros H. opc_member H. Qed.
Lemma opc_num_cylinders (e e' : t) : only_performance_changed e e' -> num_cylinders e' = num_cylinders e.
Proof. intros H. opc_member H. Qed.
Lemma opc_mean_effective_pressure (e e' : t) : only_performance_changed e e' -> mean_effective_pressure e' = mean_effective_pressure e.
Proof. intros H. opc_member H. Qed.
Lemma opc_compression_ratio (e e' : t) : only_performance_changed e e' -> compression_ratio e' = compression_ratio e.
Proof. intros H. opc_member H. Qed.
Lemma opc_rod_length (e e' : t) : only_performance_changed e e' -> rod_length e' = rod_length e.
Proof. intros H. opc_member H. Qed.

Section MoreFrames.

Variable pow : Q -> Q -> Q.

Lemma update_performance_frame_times (e : t) : frame_times (update_performance pow e) = frame_times e.
Proof. apply opc_frame_times, opc_update_performance. Qed.
Lemma update_performance_wheel_radius (e : t) : wheel_radius (update_performance pow e) = wheel_radius e.
Proof. apply opc_wheel_radius, opc_update_performance. Qed.
Lemma update_performance_final_drive_ratio (e : t) : final_drive_ratio (update_performance pow e) = final_drive_ratio e.
Proof. apply opc_final_drive_ratio, opc_update_performance. Qed.
Lemma update_performance_vehicle_speed (e : t) : vehicle_speed (update_performance pow e) = vehicle_speed e.
Proof. apply opc_vehicle_speed, opc_update_performance. Qed.
Lemma update_performance_bore (e : t) : bore (update_performance pow e) = bore e.
Proof. apply opc_bore, opc_update_performance. Qed.
Lemma update_performance_stroke (e : t) : stroke (update_performance pow e) = stroke e.
Proof. apply opc_stroke, opc_update_performance. Qed.
Lemma update_performance_num_cylinders (e : t) : num_cylinders (update_performance pow e) = num_cylinders e.
Proof. apply opc_num_cylinders, opc_update_performance. Qed.
Lemma update_performance_mean_effective_pressure (e : t) : mean_effective_pressure (update_performance pow e) = mean_effective_pressure e.
Proof. apply opc_mean_effective_pressure, opc_update_performance. Qed.
Lemma update_performance_compression_ratio (e : t) : compression_ratio (update_performance pow e) = compression_ratio e.
Proof. apply opc_compression_ratio, opc_update_performance. Qed.
Lemma update_performance_rod_length (e : t) : rod_length (update_performance pow e) = rod_length e.
Proof. apply opc_rod_length, opc_update_performance. Qed.
End MoreFrames.


#[global] Hint Rewrite integrate_gear_shift_message integrate_gear_shift_message_timer
  integrate_frame_times integrate_wheel_radius integrate_final_drive_ratio
  automatic_shift_gear_shift_message automatic_shift_gear_shift_message_timer
  automatic_shift_jerk automatic_shift_acceleration automatic_shift_frame_times
  automatic_shift_wheel_radius automatic_shift_final_drive_ratio
  update_gear_shift_message_jerk update_gear_shift_message_acceleration
  update_gear_shift_message_vehicle_speed update_gear_shift_message_wheel_radius
  update_gear_shift_message_final_drive_ratio update_gear_shift_message_frame_times
  update_vehicle_speed_gear_shift_message update_vehicle_speed_gear_shift_message_timer
  update_vehicle_speed_wheel_radius update_vehicle_speed_final_drive_ratio
  update_vehicle_speed_frame_times accelerate_pedal_gear_shift_message
  accelerate_pedal_gear_shift_message_timer decelerate_pedal_gear_shift_message
  decelerate_pedal_gear_shift_message_timer accelerate_shift_gear_shift_message
  accelerate_shift_gear_shift_message_timer decelerate_shift_gear_shift_message
  decelerate_shift_gear_shift_message_timer update_performance_frame_times
  update_performance_wheel_radius update_performance_final_drive_ratio
  update_performance_vehicle_speed update_performance_bore update_performance_stroke
  update_performance_num_cylinders update_performance_mean_effective_pressure
  update_performance_compression_ratio update_performance_rod_length : frame.

Section MoreToggleFrames.

Variable pow : Q -> Q -> Q.

Lemma random_water_injection_jerk (r2 : Z) (e : t) :
  jerk (fst (random_water_injection pow r2 e)) = jerk e.
Proof.
  unfold random_water_injection, toggle_water_injection.
  destruct (Z.rem r2 1000 <? 5)%Z; cbn [fst]; autorewrite with frame; reflexivity.
Qed.
Lemma random_water_injection_acceleration (r2 : Z) (e : t) :
  acceleration (fst (random_water_injection pow r2 e)) = acceleration e.
Proof.
  unfold random_water_injection, toggle_water_injection.
  destruct (Z.rem r2 1000 <? 5)%Z; cbn [fst]; autorewrite with frame; reflexivity.
Qed.
Lemma random_water_injection_gear_shift_message (r2 : Z) (e : t) :
  gear_shift_message (fst (random_water_injection pow r2 e)) = gear_shift_message e.
Proof.
  unfold random_water_injection, toggle_water_injection.
  destruct (Z.rem r2 1000 <? 5)%Z; cbn [fst]; autorewrite with frame; reflexivity.
Qed.
Lemma random_water_injection_gear_shift_message_timer (r2 : Z) (e : t) :
  gear_shift_message_timer (fst (random_water_injection pow r2 e)) = gear_shift_message_timer e.
Proof.
  unfold random_water_injection, toggle_water_injection.
  destruct (Z.rem r2 1000 <? 5)%Z; cbn [fst]; autorewrite with frame; reflexivity.
Qed.
Lemma random_water_injection_frame_times (r2 : Z) (e : t) :
  frame_times (fst (random_water_injection pow r2 e)) = frame_times e.
Proof.
  unfold random_water_injection, toggle_water_injection.
  destruct (Z.rem r2 1000 <? 5)%Z; cbn [fst]; autorewrite with frame; reflexivity.
Qed.
Lemma random_water_injection_wheel_radius (r2 : Z) (e : t) :
  wheel_radius (fst (random_water_injection pow r2 e)) = wheel_radius e.
Proof.
  unfold random_water_injection, toggle_water_injection.
  destruct (Z.rem r2 1000 <? 5)%Z; cbn [fst]; autorewrite with frame; reflexivity.
Qed.
Lemma random_water_injection_final_drive_ratio (r2 : Z) (e : t) :
  final_drive_ratio (fst (random_water_injection pow r2 e)) = final_drive_ratio e.
Proof.
  unfold random_water_injection, toggle_water_injection.
  destruct (Z.rem r2 1000 <? 5)%Z; cbn [fst]; autorewrite with frame; reflexivity.
Qed.


End MoreToggleFrames.

#[global] Hint Rewrite random_water_injection_jerk random_water_injection_acceleration
  random_water_injection_gear_shift_message
  random_water_injection_gear_shift_message_timer random_water_injection_frame_times
  random_water_injection_wheel_radius random_water_injection_final_drive_ratio : frame.

(** ** The gearbox *)

(** X1.  In the five-gear gearbox a shift up followed by a shift down
    returns the gearbox it started from, unless it started at the top gear;
    a shift down followed by a shift up does too, unless it started at
    gear 1. *)
Theorem gearbox_shift_round_trip (g : Gearbox.t) :
  five_speed g ->
  ((Gearbox.current_gear g < 5)%Z -> Gearbox.shift_down (Gearbox.shift_up g) = g) /\
  ((Gearbox.current_gear g > 1)%Z -> Gearbox.shift_up (Gearbox.shift_down g) = g).
Proof.
  intros [Hr Hg]. destruct g as [ratios gear]. cbn in Hr, Hg |- *. subst ratios.
  split; intros Hlim.
  - unfold Gearbox.shift_up. cbn.
    destruct (Z.ltb_spec gear 5); [ | lia ].
    unfold Gearbox.shift_down. cbn.
    rewrite Z.gtb_ltb. destruct (Z.ltb_spec 1 (gear + 1)); [ | lia ].
    f_equal. lia.
  - unfold Gearbox.shift_down. cbn.
    rewrite Z.gtb_ltb. destruct (Z.ltb_spec 1 gear); [ | lia ].
    unfold Gearbox.shift_up. cbn.
    destruct (Z.ltb_spec (gear - 1) 5); [ | lia ].
    f_equal. lia.
Qed.

(** The theorem on the gearbox as constructed, in gear 1. *)
Lemma gearbox_shift_round_trip_witness :
  Gearbox.shift_down (Gearbox.shift_up Gearbox.make) = Gearbox.make.
Proof.
  apply (gearbox_shift_round_trip Gearbox.make).
  - split; [ reflexivity | cbn; lia ].
  - cbn. lia.
Defined.

(** In a five-gear gearbox the ratio read is an entry of the vector, and
    it is positive. *)
Lemma five_speed_ratio (g : Gearbox.t) :
  five_speed g ->
  nth_error (Gearbox.gear_ratios g) (Z.to_nat (Gearbox.current_gear g - 1)) =
    Some (Gearbox.get_current_ratio g) /\
  0.83 <= Gearbox.get_current_ratio g /\ Gearbox.get_current_ratio g <= 3.42.
Proof.
  intros [Hr Hg]. unfold Gearbox.get_current_ratio. rewrite Hr.
  assert (Hc : (Gearbox.current_gear g = 1 \/ Gearbox.current_gear g = 2 \/
                Gearbox.current_gear g = 3 \/ Gearbox.current_gear g = 4 \/
                Gearbox.current_gear g = 5)%Z) by lia.
  destruct Hc as [-> | [-> | [-> | [-> | ->]]]];
    (split; [ reflexivity | split; vm_compute; discriminate ]).
Qed.

Lemma automatic_shift_five_speed (m : t) :
  five_speed (gearbox m) -> five_speed (gearbox (automatic_shift m)).
Proof.
  intros H. unfold automatic_shift.
  break_branches; cbv zeta; members;
    auto using five_speed_shift_up, five_speed_shift_down.
Qed.

Lemma accelerate_shift_five_speed (x : t) :
  five_speed (gearbox x) -> five_speed (gearbox (accelerate_shift x)).
Proof.
  intros H. unfold accelerate_shift.
  break_branches; cbv zeta; members; auto using five_speed_shift_up.
Qed.

Lemma decelerate_shift_five_speed (x : t) :
  five_speed (gearbox x) -> five_speed (gearbox (decelerate_shift x)).
Proof.
  intros H. unfold decelerate_shift.
  break_branches; cbv zeta; members; auto using five_speed_shift_down.
Qed.

Lemma manual_upshift_five_speed (e : t) :
  five_speed (gearbox e) -> five_speed (gearbox (manual_upshift e)).
Proof.
  intros H. unfold manual_upshift.
  break_branches; cbv zeta; members; auto using five_speed_shift_up.
Qed.

Lemma manual_downshift_five_speed (e : t) :
  five_speed (gearbox e) -> five_speed (gearbox (manual_downshift e)).
Proof.
  intros H. unfold manual_downshift.
  break_branches; cbv zeta; members; auto using five_speed_shift_down.
Qed.

Section Reachable.

Variable pow : Q -> Q -> Q.

Lemma accelerate_gearbox (e : t) :
  gearbox (accelerate pow e) =
    gearbox (accelerate_shift
               (update_vehicle_speed (update_performance pow (accelerate_pedal e)))).
Proof. reflexivity. Qed.

Lemma perform_five_speed (c : Call) (e : t) :
  five_speed (gearbox e) -> five_speed (gearbox (fst (perform pow c e))).
Proof.
  intros H. destruct c; cbn [perform fst].
  - rewrite update_dynamics_gearbox. apply automatic_shift_five_speed.
    rewrite random_water_injection_gearbox, integrate_gearbox. exact H.
  - unfold apply_upgrade. break_branches; cbn [fst];
      autorewrite with frame; members; exact H.
  - unfold toggle_water_injection. cbn [fst].
    autorewrite with frame. members. exact H.
  - unfold accelerate. cbv zeta. apply accelerate_shift_five_speed.
    autorewrite with frame. exact H.
  - unfold decelerate. cbv zeta. apply decelerate_shift_five_speed.
    autorewrite with frame. exact H.
  - exact H.
  - now apply manual_upshift_five_speed.
  - now apply manual_downshift_five_speed.
  - unfold handle_input. break_branches; cbn [fst]; members;
      auto using manual_upshift_five_speed, manual_downshift_five_speed.
Qed.

Lemma run_five_speed (cs : list Call) (e : t) :
  five_speed (gearbox e) -> five_speed (gearbox (run pow cs e)).
Proof.
  revert e. unfold run. induction cs as [| c cs IH]; intros e H; cbn [fold_left].
  - exact H.
  - apply IH. now apply perform_five_speed.
Qed.

Lemma five_speed_constructed : five_speed (gearbox (make pow)).
Proof. split; [ reflexivity | cbn; lia ]. Qed.

(** X2.  Whatever calls are made on the engine after its construction,
    the gearbox keeps its five ratios and a gear between 1 and 5; the
    ratio read by [get_current_ratio] is then an entry of the vector
    (index [current_gear - 1] is in range) and lies between 0.83 and
    3.42. *)
Theorem gear_always_in_range (cs : list Call) :
  five_speed (gearbox (run pow cs (make pow))) /\
  nth_error (Gearbox.gear_ratios (gearbox (run pow cs (make pow))))
    (Z.to_nat (Gearbox.current_gear (gearbox (run pow cs (make pow))) - 1)) =
    Some (Gearbox.get_current_ratio (gearbox (run pow cs (make pow)))) /\
  0.83 <= Gearbox.get_current_ratio (gearbox (run pow cs (make pow))) /\
  Gearbox.get_current_ratio (gearbox (run pow cs (make pow))) <= 3.42.
Proof.
  pose proof (run_five_speed cs (make pow) five_speed_constructed) as H.
  split; [ exact H | ].
  revert H. generalize (gearbox (run pow cs (make pow))). intros g H.
  apply five_speed_ratio. exact H.
Qed.

End Reachable.

(** ** Invariants of a run *)

Lemma accelerate_shift_rpm (x : t) :
  rpm (accelerate_shift x) =
    if Qltb 4000 (rpm x) && (Gearbox.get_current_gear (gearbox x) <? 5)%Z
    then rpm x - 1500 else rpm x.
Proof. unfold accelerate_shift. break_branches; reflexivity. Qed.

Lemma decelerate_shift_rpm (x : t) :
  rpm (decelerate_shift x) =
    if Qltb (rpm x) 2000 && (Gearbox.get_current_gear (gearbox x) >? 1)%Z
    then rpm x + 1500 else rpm x.
Proof. unfold decelerate_shift. break_branches; reflexivity. Qed.

Lemma manual_upshift_rpm (e : t) :
  rpm (manual_upshift e) = rpm e \/
  rpm (manual_upshift e) = std_max (rpm e - 1500) (idle_rpm e).
Proof.
  unfold manual_upshift. break_branches; cbv zeta; members; auto.
Qed.

Lemma manual_downshift_rpm (e : t) :
  rpm (manual_downshift e) = rpm e \/
  rpm (manual_downshift e) = std_min (rpm e + 1500) (max_rpm e).
Proof.
  unfold manual_downshift. break_branches; cbv zeta; members; auto.
Qed.

Section RunInvariants.

Variable pow : Q -> Q -> Q.

Lemma accelerate_rpm (e : t) :
  rpm (accelerate pow e) =
    if Qltb 4000 (rpm (accelerate_pedal e))
       && (Gearbox.get_current_gear (gearbox e) <? 5)%Z
    then rpm (accelerate_pedal e) - 1500 else rpm (accelerate_pedal e).
Proof.
  unfold accelerate. cbv zeta. rewrite accelerate_shift_rpm.
  autorewrite with frame. reflexivity.
Qed.

Lemma decelerate_rpm (e : t) :
  rpm (decelerate pow e) =
    if Qltb (rpm (decelerate_pedal e)) 2000
       && (Gearbox.get_current_gear (gearbox e) >? 1)%Z
    then rpm (decelerate_pedal e) + 1500 else rpm (decelerate_pedal e).
Proof.
  unfold decelerate. cbv zeta. rewrite decelerate_shift_rpm.
  autorewrite with frame. reflexivity.
Qed.

Lemma perform_within_limits (c : Call) (e : t) :
  within_limits e -> within_limits (fst (perform pow c e)).
Proof.
  intros (Hi & Hm & Hlo & Hhi).
  destruct (perform_limits pow c e) as [Hi' Hm'].
  unfold within_limits. rewrite Hi', Hm'.
  split; [ exact Hi | split; [ exact Hm | ] ].
  destruct c; cbn [perform fst].
  - rewrite update_dynamics_rpm, Hi, Hm.
    apply clamp_bounds. lra.
  - unfold apply_upgrade. break_branches; cbn [fst]; autorewrite with frame;
      members; split; assumption.
  - unfold toggle_water_injection. cbn [fst]. autorewrite with frame. members.
    split; assumption.
  - rewrite accelerate_rpm, accelerate_pedal_rpm, Hm.
    revert Hlo Hhi. generalize (rpm e). intros r Hlo Hhi.
    destruct (Qltb_spec 6000 (r + 100));
      match goal with
      | |- context [Qltb 4000 ?x] => destruct (Qltb_spec 4000 x)
      end;
      destruct (Gearbox.get_current_gear (gearbox e) <? 5)%Z; cbn [andb];
      split; lra.
  - rewrite decelerate_rpm, decelerate_pedal_rpm, Hi.
    revert Hlo Hhi. generalize (rpm e). intros r Hlo Hhi.
    destruct (Qltb_spec (r - 100) 800);
      match goal with
      | |- context [Qltb ?x 2000] => destruct (Qltb_spec x 2000)
      end;
      destruct (Gearbox.get_current_gear (gearbox e) >? 1)%Z; cbn [andb];
      split; lra.
  - split; assumption.
  - destruct (manual_upshift_rpm e) as [-> | ->]; [ split; assumption | ].
    rewrite Hi. split; [ apply std_max_lb_r | apply std_max_lub; lra ].
  - destruct (manual_downshift_rpm e) as [-> | ->]; [ split; assumption | ].
    rewrite Hm. split; [ apply std_min_glb; lra | apply std_min_ub_r ].
  - unfold handle_input. break_branches; cbn [fst]; members;
      try (split; assumption).
    + destruct (manual_upshift_rpm e) as [-> | ->]; [ split; assumption | ].
      rewrite Hi. split; [ apply std_max_lb_r | apply std_max_lub; lra ].
    + destruct (manual_downshift_rpm e) as [-> | ->]; [ split; assumption | ].
      rewrite Hm. split; [ apply std_min_glb; lra | apply std_min_ub_r ].
Qed.

Lemma run_within_limits (cs : list Call) (e : t) :
  within_limits e -> within_limits (run pow cs e).
Proof.
  revert e. unfold run. induction cs as [| c cs IH]; intros e H; cbn [fold_left].
  - exact H.
  - apply IH. now apply perform_within_limits.
Qed.

(** X3.  The rpm stays between [idle_rpm] = 800 and [max_rpm] = 6000
    after every sequence of calls on the constructed engine, not only
    after ticks: the pedal commands, the manual gear changes and the key
    dispatch keep it there as well. *)
Theorem rpm_always_within_limits (cs : list Call) :
  idle_rpm (run pow cs (make pow)) <= rpm (run pow cs (make pow)) /\
  rpm (run pow cs (make pow)) <= max_rpm (run pow cs (make pow)).
Proof.
  assert (H0 : within_limits (make pow)).
  { unfold within_limits. repeat split; vm_compute; discriminate. }
  destruct (run_within_limits cs (make pow) H0) as (-> & -> & Hlo & Hhi).
  split; assumption.
Qed.

Lemma jerk_and_acceleration_after_tick (dt : Q) (r1 r2 : Z) (e : t) :
  -500 <= jerk (fst (update_dynamics pow dt r1 r2 e)) /\
  jerk (fst (update_dynamics pow dt r1 r2 e)) <= 500 /\
  -50 <= acceleration (fst (update_dynamics pow dt r1 r2 e)) /\
  acceleration (fst (update_dynamics pow dt r1 r2 e)) <= 50.
Proof.
  rewrite update_dynamics_unfold. cbv zeta.
  autorewrite with frame. members. autorewrite with frame.
  unfold integrate. cbv zeta. members.
  match goal with
  | |- context [std_max ?lo (std_min ?hi ?x)] =>
      pose proof (clamp_bounds lo hi x) as Hj;
      generalize dependent (std_max lo (std_min hi x))
  end.
  intros j Hj.
  match goal with
  | |- context [std_max ?lo (std_min ?hi ?x)] =>
      pose proof (clamp_bounds lo hi x) as Ha;
      generalize dependent (std_max lo (std_min hi x))
  end.
  intros a Ha.
  destruct Ha as [Ha1 Ha2]; [ lra | ].
  destruct Hj as [Hj1 Hj2]; [ lra | ].
  repeat split; lra.
Qed.

(** X4.  After a tick, from any engine state and for any time step and
    draws, the jerk lies in [[-500, 500]] and the acceleration in
    [[-50, 50]]. *)
Theorem jerk_and_acceleration_bounded_after_tick (dt : Q) (r1 r2 : Z) (e : t) :
  -500 <= jerk (fst (update_dynamics pow dt r1 r2 e)) /\
  jerk (fst (update_dynamics pow dt r1 r2 e)) <= 500 /\
  -50 <= acceleration (fst (update_dynamics pow dt r1 r2 e)) /\
  acceleration (fst (update_dynamics pow dt r1 r2 e)) <= 50.
Proof. apply jerk_and_acceleration_after_tick. Qed.

End RunInvariants.

(** ** The upgrade flags over a run *)

Lemma count_positive (k : string) (m : StdMap.t) :
  (StdMap.count k m > 0)%Z -> In k (StdMap.keys m).
Proof.
  induction m as [| [k' v] m IH]; cbn; intros H.
  - lia.
  - destruct (String.eqb_spec k k') as [-> | Hne]; [ now left | right; auto ].
Qed.

(** On the registered keys, setting a flag never clears another. *)
Lemma active_assign_true (m : StdMap.t) (u v : string) :
  StdMap.keys m = known_upgrades -> In u known_upgrades ->
  active v m = true -> active v (StdMap.assign u true m) = true.
Proof.
  intros Hk Hu Hv.
  destruct (String.eqb_spec v u) as [-> | Hne].
  - now apply active_assign.
  - unfold active in *. now rewrite (find_assign_other m u v true Hk Hu Hne).
Qed.

Section Flags.

Variable pow : Q -> Q -> Q.

(** A call leaves the flags alone or sets the flag of one registered
    key. *)
Lemma perform_upgrades (c : Call) (e : t) :
  upgrades (fst (perform pow c e)) = upgrades e \/
  exists u, In u (StdMap.keys (upgrades e)) /\
            upgrades (fst (perform pow c e)) = StdMap.assign u true (upgrades e).
Proof.
  destruct c; cbn [perform fst].
  - left. apply update_dynamics_upgrades.
  - unfold apply_upgrade.
    destruct (StdMap.count upgrade (upgrades e) >? 0)%Z eqn:Hc; cbn [fst].
    + right. exists upgrade. split.
      * apply count_positive. apply Z.gtb_lt in Hc. lia.
      * rewrite update_performance_upgrades. reflexivity.
    + now left.
  - left. unfold toggle_water_injection. cbn [fst].
    rewrite update_performance_upgrades. reflexivity.
  - left. unfold accelerate. cbv zeta. autorewrite with frame. reflexivity.
  - left. unfold decelerate. cbv zeta. autorewrite with frame. reflexivity.
  - now left.
  - left. apply manual_upshift_upgrades.
  - left. apply manual_downshift_upgrades.
  - left. unfold handle_input. break_branches; cbn [fst];
      autorewrite with frame; reflexivity.
Qed.

Lemma perform_registered (c : Call) (e : t) :
  registered e -> registered (fst (perform pow c e)).
Proof.
  intros Hreg. unfold registered in *.
  destruct (perform_upgrades c e) as [-> | (u & Hu & ->)]; [ exact Hreg | ].
  apply assign_keys; [ exact Hreg | now rewrite <- Hreg ].
Qed.

Lemma run_registered (cs : list Call) (e : t) :
  registered e -> registered (run pow cs e).
Proof.
  revert e. unfold run. induction cs as [| c cs IH]; intros e H; cbn [fold_left].
  - exact H.
  - apply IH. now apply perform_registered.
Qed.

Lemma perform_active (c : Call) (e : t) (v : string) :
  registered e -> active v (upgrades e) = true ->
  active v (upgrades (fst (perform pow c e))) = true.
Proof.
  intros Hreg Hv.
  destruct (perform_upgrades c e) as [-> | (u & Hu & ->)]; [ exact Hv | ].
  apply active_assign_true; [ exact Hreg | | exact Hv ].
  unfold registered in Hreg. now rewrite <- Hreg.
Qed.

Lemma run_active (cs : list Call) (e : t) (v : string) :
  registered e -> active v (upgrades e) = true ->
  active v (upgrades (run pow cs e)) = true.
Proof.
  revert e. unfold run. induction cs as [| c cs IH]; intros e Hreg Hv;
    cbn [fold_left].
  - exact Hv.
  - apply IH; [ now apply perform_registered | now apply perform_active ].
Qed.

(** X5.  The [upgrades] map holds exactly the eleven keys registered by
    the constructor after every sequence of calls: no call adds a key, not
    even [apply_upgrade] with an unknown identifier, and none removes
    one. *)
Theorem upgrade_keys_never_change (cs : list Call) :
  StdMap.keys (upgrades (run pow cs (make pow))) = known_upgrades.
Proof. apply (run_registered cs (make pow)). reflexivity. Qed.

(** X6.  Upgrades are one-way: an upgrade that is active at some point of
    a run of the constructed engine is active after every continuation of
    the run. *)
Theorem active_upgrades_stay_active (cs cs' : list Call) (u : string) :
  active u (upgrades (run pow cs (make pow))) = true ->
  active u (upgrades (run pow (cs ++ cs') (make pow))) = true.
Proof.
  intros H. unfold run. rewrite fold_left_app.
  apply (run_active cs' (run pow cs (make pow)) u); [ | exact H ].
  apply run_registered. reflexivity.
Qed.

End Flags.

(** The theorem for the turbocharger, applied and then followed by a tick
    and a key press. *)
Lemma active_upgrades_stay_active_witness :
  active "turbocharger"
    (upgrades
       (run pow_sample
          ([ApplyUpgrade "turbocharger"]
           ++ [UpdateDynamics (1 # 60) 100 500; HandleInput "a"])
          (make pow_sample))) = true.
Proof.
  apply (active_upgrades_stay_active pow_sample [ApplyUpgrade "turbocharger"]).
  vm_compute. reflexivity.
Defined.

(** ** Volumetric efficiency and temperature in every reachable state *)

Section ReachableRanges.

Variable pow : Q -> Q -> Q.

Lemma perform_volumetric_efficiency (c : Call) (e : t) :
  0.7 <= volumetric_efficiency e /\ volumetric_efficiency e <= 1.0 ->
  0.7 <= volumetric_efficiency (fst (perform pow c e)) /\
  volumetric_efficiency (fst (perform pow c e)) <= 1.0.
Proof.
  intros H. destruct c; cbn [perform fst].
  - apply update_dynamics_volumetric_efficiency_bounds.
  - unfold apply_upgrade. break_branches; cbn [fst];
      [ apply update_performance_volumetric_efficiency_bounds | exact H ].
  - unfold toggle_water_injection. cbn [fst].
    apply update_performance_volumetric_efficiency_bounds.
  - unfold accelerate. cbv zeta. autorewrite with frame.
    apply update_performance_volumetric_efficiency_bounds.
  - unfold decelerate. cbv zeta. autorewrite with frame.
    apply update_performance_volumetric_efficiency_bounds.
  - exact H.
  - rewrite manual_upshift_volumetric_efficiency. exact H.
  - rewrite manual_downshift_volumetric_efficiency. exact H.
  - unfold handle_input. break_branches; cbn [fst]; autorewrite with frame;
      members; exact H.
Qed.

(** X7.  The volumetric efficiency lies in [[0.7, 1.0]] after every
    sequence of calls on the constructed engine. *)
Theorem volumetric_efficiency_always_in_range (cs : list Call) :
  0.7 <= volumetric_efficiency (run pow cs (make pow)) /\
  volumetric_efficiency (run pow cs (make pow)) <= 1.0.
Proof.
  assert (H0 : 0.7 <= volumetric_efficiency (make pow) /\
               volumetric_efficiency (make pow) <= 1.0)
    by (split; vm_compute; discriminate).
  revert H0. generalize (make pow). unfold run.
  induction cs as [| c cs IH]; intros e H; cbn [fold_left].
  - exact H.
  - apply IH. now apply perform_volumetric_efficiency.
Qed.

(** X8.  After a tick of an engine reached from the constructor the
    temperature lies between 75 and 110: the clamp of line 236 gives
    [[85, 110]], and the recomputations after it take off 5 each when
    the ceramic coating is active (at most two per tick). *)
Theorem temperature_range_after_tick (cs : list Call) (dt : Q) (r1 r2 : Z) :
  75 <= engine_temperature
          (fst (update_dynamics pow dt r1 r2 (run pow cs (make pow)))) /\
  engine_temperature
    (fst (update_dynamics pow dt r1 r2 (run pow cs (make pow)))) <= 110.
Proof.
  assert (Hreg : registered (run pow cs (make pow)))
    by (apply run_registered; reflexivity).
  revert Hreg. generalize (run pow cs (make pow)). intros e Hreg.
  rewrite update_dynamics_engine_temperature.
  rewrite (total_drop_registered _ Hreg).
  destruct (integrate_engine_temperature_bounds dt r1 e) as [Hlo Hhi].
  revert Hlo Hhi. generalize (engine_temperature (integrate dt r1 e)).
  intros T0 Hlo Hhi.
  destruct (Z.rem r2 1000 <? 5)%Z, (active "ceramic_coating" (upgrades e));
    split; lra.
Qed.

End ReachableRanges.

(** ** The ceramic coating compounds *)

Section Compounding.

Variable pow : Q -> Q -> Q.

Lemma apply_ceramic_coating_temperature (e : t) :
  registered e ->
  registered (fst (apply_upgrade pow "ceramic_coating" e)) /\
  engine_temperature (fst (apply_upgrade pow "ceramic_coating" e)) ==
    engine_temperature e - 5.
Proof.
  intros Hreg.
  assert (Hin : In "ceramic_coating"%string known_upgrades)
    by (unfold known_upgrades; cbn [In]; tauto).
  split.
  - apply (perform_registered pow (ApplyUpgrade "ceramic_coating") e Hreg).
  - rewrite (apply_upgrade_registered pow _ e Hreg Hin). cbn [fst].
    etransitivity; [ apply update_performance_engine_temperature | ].
    members.
    rewrite total_drop_registered
      by (apply assign_keys; [ exact Hreg | exact Hin ]).
    rewrite (active_assign _ _ Hreg Hin). reflexivity.
Qed.

(** X9.  Every call of [apply_upgrade("ceramic_coating")] lowers the
    temperature by 5 again, also when the coating is already active: after
    [n] calls on the constructed engine the temperature is [90 - 5 n]. *)
Theorem repeated_ceramic_coating (n : nat) :
  engine_temperature
    (run pow (repeat (ApplyUpgrade "ceramic_coating") n) (make pow)) ==
    90 - 5 * inject_Z (Z.of_nat n).
Proof.
  assert (H : forall e, registered e ->
            engine_temperature
              (run pow (repeat (ApplyUpgrade "ceramic_coating") n) e) ==
            engine_temperature e - 5 * inject_Z (Z.of_nat n)).
  { induction n as [| n IH]; intros e Hreg.
    - cbn. ring.
    - cbn [repeat]. unfold run. cbn [fold_left perform]. fold (run pow).
      destruct (apply_ceramic_coating_temperature e Hreg) as [Hreg' HT].
      change (fold_left (fun e0 c => fst (perform pow c e0))
                (repeat (ApplyUpgrade "ceramic_coating") n)
                (fst (apply_upgrade pow "ceramic_coating" e)))
        with (run pow (repeat (ApplyUpgrade "ceramic_coating") n)
                (fst (apply_upgrade pow "ceramic_coating" e))).
      rewrite (IH _ Hreg'), HT.
      rewrite Nat2Z.inj_succ. unfold Z.succ. rewrite inject_Z_plus. ring. }
  rewrite (H (make pow)) by reflexivity.
  assert (H0 : engine_temperature (make pow) == 90) by (vm_compute; reflexivity).
  rewrite H0. reflexivity.
Qed.

End Compounding.

(** ** Power, torque, fuel and NOx under the upgrades *)

(** On the registered keys, setting a flag is a pointwise update. *)
Lemma assign_pointwise (m : StdMap.t) (u : string) :
  StdMap.keys m = known_upgrades -> In u known_upgrades ->
  StdMap.assign u true m =
    map (fun kb => (fst kb, (snd kb || String.eqb (fst kb) u)%bool)) m.
Proof.
  intros Hk Hu.
  destruct (registered_entries m Hk)
    as (b1 & b2 & b3 & b4 & b5 & b6 & b7 & b8 & b9 & b10 & b11 & ->).
  unfold known_upgrades in Hu. cbn [In] in Hu.
  repeat (destruct Hu as [<- | Hu];
          [ cbn; rewrite ?orb_false_r, ?orb_true_r; reflexivity | ]).
  contradiction.
Qed.

Lemma assign_comm (m : StdMap.t) (u v : string) :
  StdMap.keys m = known_upgrades -> In u known_upgrades -> In v known_upgrades ->
  StdMap.assign v true (StdMap.assign u true m) =
    StdMap.assign u true (StdMap.assign v true m).
Proof.
  intros Hk Hu Hv.
  rewrite (assign_pointwise (StdMap.assign u true m) v)
    by (try apply assign_keys; assumption).
  rewrite (assign_pointwise (StdMap.assign v true m) u)
    by (try apply assign_keys; assumption).
  rewrite (assign_pointwise m u Hk Hu), (assign_pointwise m v Hk Hv).
  rewrite !map_map. apply map_ext. intros [k b]. cbn [fst snd].
  f_equal. destruct b, (String.eqb k u), (String.eqb k v); reflexivity.
Qed.



Section PowerAndFuel.

Variable pow : Q -> Q -> Q.

Lemma base_power_frame (e e' : t) :
  only_performance_changed e e' ->
  calculate_power (calculate_displacement pow e') =
    calculate_power (calculate_displacement pow e).
Proof.
  intros (? & ? & ? & ? & ? & ? & ? & ? & ? & ? & ? & ? & ->). reflexivity.
Qed.

Lemma update_performance_power_output (e : t) :
  power_output (update_performance pow e) ==
    calculate_power (calculate_displacement pow e) * gain power_factor (upgrades e).
Proof.
  rewrite update_performance_stages, finish_power_output.
  apply upgraded_closed_form.
Qed.

Lemma update_performance_torque (e : t) :
  torque (update_performance pow e) =
    (calculate_power (calculate_displacement pow e) * 1000 * 60)
    / (2 * PI * rpm e).
Proof.
  rewrite update_performance_stages.
  destruct (finish_structure (upgraded pow e)) as (_ & _ & _ & ->).
  unfold upgraded.
  destruct (otc_structure _ _
              (otc_apply_active_upgrades
                 (upgrades (base_metrics pow e)) (base_metrics pow e)))
    as (_ & _ & _ & ->).
  reflexivity.
Qed.

(** X10.  After a recomputation the power output is the base power (mean
    effective pressure times displacement times rpm over 120000) times
    the power factors of all active upgrades, whatever their order in the
    map; the torque is computed from the base power before the upgrade
    loop runs, so no power factor ever reaches it. *)
Theorem power_carries_upgrades_torque_does_not (e : t) :
  power_output (update_performance pow e) ==
    (mean_effective_pressure e
     * ((PI / 4.0) * pow (bore e) 2 * stroke e * inject_Z (num_cylinders e))
     * rpm e) / inject_Z (120 * 1000)
    * gain power_factor (upgrades e) /\
  torque (update_performance pow e) =
    ((mean_effective_pressure e
      * ((PI / 4.0) * pow (bore e) 2 * stroke e * inject_Z (num_cylinders e))
      * rpm e) / inject_Z (120 * 1000) * 1000 * 60)
    / (2 * PI * rpm e).
Proof.
  split.
  - rewrite update_performance_power_output. reflexivity.
  - rewrite update_performance_torque. reflexivity.
Qed.

(** X11.  Two registered upgrades applied in either order leave the same
    flags and the same power output. *)
Theorem apply_upgrade_order (u v : string) (e : t) :
  registered e -> In u known_upgrades -> In v known_upgrades ->
  upgrades (run pow [ApplyUpgrade u; ApplyUpgrade v] e) =
    upgrades (run pow [ApplyUpgrade v; ApplyUpgrade u] e) /\
  power_output (run pow [ApplyUpgrade u; ApplyUpgrade v] e) ==
    power_output (run pow [ApplyUpgrade v; ApplyUpgrade u] e).
Proof.
  intros Hreg Hu Hv.
  assert (Hstep : forall a b, In a known_upgrades -> In b known_upgrades ->
    upgrades (run pow [ApplyUpgrade a; ApplyUpgrade b] e) =
      StdMap.assign b true (StdMap.assign a true (upgrades e)) /\
    power_output (run pow [ApplyUpgrade a; ApplyUpgrade b] e) ==
      calculate_power (calculate_displacement pow e)
      * gain power_factor (StdMap.assign b true (StdMap.assign a true (upgrades e)))).
  { intros a b Ha Hb. unfold run. cbn [fold_left perform].
    rewrite (apply_upgrade_registered pow a e Hreg Ha). cbn [fst].
    assert (Hreg1 : registered
              (update_performance pow
                 (set_upgrades (StdMap.assign a true (upgrades e)) e))).
    { unfold registered. rewrite update_performance_upgrades. members.
      now apply assign_keys. }
    rewrite (apply_upgrade_registered pow b _ Hreg1 Hb). cbn [fst].
    rewrite !update_performance_upgrades. members.
    split; [ reflexivity | ].
    etransitivity; [ apply update_performance_power_output | ].
    members.
    assert (Hbase :
      calculate_power
        (calculate_displacement pow
           (set_upgrades
              (StdMap.assign b true (StdMap.assign a true (upgrades e)))
              (update_performance pow
                 (set_upgrades (StdMap.assign a true (upgrades e)) e)))) =
      calculate_power (calculate_displacement pow e)).
    { pose proof (opc_update_performance pow
                    (set_upgrades (StdMap.assign a true (upgrades e)) e)) as H.
      revert H.
      generalize (update_performance pow
                    (set_upgrades (StdMap.assign a true (upgrades e)) e)).
      generalize (StdMap.assign b true (StdMap.assign a true (upgrades e))).
      generalize (StdMap.assign a true (upgrades e)).
      intros m1 m2 x (? & ? & ? & ? & ? & ? & ? & ? & ? & ? & ? & ? & ->).
      reflexivity. }
    rewrite Hbase. reflexivity. }
  destruct (Hstep u v Hu Hv) as [Fuv Puv].
  destruct (Hstep v u Hv Hu) as [Fvu Pvu].
  rewrite Fuv, Fvu, Puv, Pvu.
  rewrite (assign_comm (upgrades e) u v Hreg Hu Hv).
  split; reflexivity.
Qed.


End PowerAndFuel.

(** The theorem for two upgrades on the constructed engine. *)
Lemma apply_upgrade_order_witness :
  upgrades
    (run pow_sample [ApplyUpgrade "turbocharger"; ApplyUpgrade "enhanced_ecu"]
       (make pow_sample)) =
  upgrades
    (run pow_sample [ApplyUpgrade "enhanced_ecu"; ApplyUpgrade "turbocharger"]
       (make pow_sample)).
Proof.
  apply (apply_upgrade_order pow_sample "turbocharger" "enhanced_ecu"
           (make pow_sample)).
  - reflexivity.
  - unfold known_upgrades. cbn [In]. tauto.
  - unfold known_upgrades. cbn [In]. tauto.
Defined.


(** ** Speed, gear and notification around a tick *)

Section AroundTick.

Variable pow : Q -> Q -> Q.

Lemma update_dynamics_shape (dt : Q) (r1 r2 : Z) (e : t) :
  exists g x,
    fst (update_dynamics pow dt r1 r2 e) =
      update_gear_shift_message dt g (update_vehicle_speed x).
Proof.
  rewrite update_dynamics_unfold. cbv zeta. eexists _, _. reflexivity.
Qed.

(** X13.  After a tick the vehicle speed is the one of the rpm and gear
    the tick ends with: [update_vehicle_speed] runs after the last write
    to either. *)
Theorem vehicle_speed_matches_after_tick (dt : Q) (r1 r2 : Z) (e : t) :
  vehicle_speed (fst (update_dynamics pow dt r1 r2 e)) =
    (rpm (fst (update_dynamics pow dt r1 r2 e))
     / (Gearbox.get_current_ratio (gearbox (fst (update_dynamics pow dt r1 r2 e)))
        * final_drive_ratio (fst (update_dynamics pow dt r1 r2 e)))
     * 2 * PI * wheel_radius (fst (update_dynamics pow dt r1 r2 e))) / 60.
Proof.
  destruct (update_dynamics_shape dt r1 r2 e) as (g & x & ->).
  rewrite update_gear_shift_message_vehicle_speed, update_gear_shift_message_rpm,
    update_gear_shift_message_gearbox, update_gear_shift_message_final_drive_ratio,
    update_gear_shift_message_wheel_radius.
  reflexivity.
Qed.

(** X14.  [accelerate] and [decelerate] recompute performance and speed
    before their gear change: the vehicle speed they leave is the one of
    the rpm after the pedal step and of the gear before the call, also
    when the call changes gear and rpm. *)
Theorem pedal_speed_precedes_gear_change (e : t) :
  vehicle_speed (accelerate pow e) =
    (rpm (accelerate_pedal e)
     / (Gearbox.get_current_ratio (gearbox e) * final_drive_ratio e)
     * 2 * PI * wheel_radius e) / 60 /\
  vehicle_speed (decelerate pow e) =
    (rpm (decelerate_pedal e)
     / (Gearbox.get_current_ratio (gearbox e) * final_drive_ratio e)
     * 2 * PI * wheel_radius e) / 60.
Proof.
  split.
  - unfold accelerate. cbv zeta.
    assert (H : forall x, vehicle_speed (accelerate_shift x) = vehicle_speed x)
      by (intros x; unfold accelerate_shift; break_branches; reflexivity).
    rewrite H. clear H.
    assert (Hr : rpm (update_performance pow (accelerate_pedal e)) =
                 rpm (accelerate_pedal e)) by apply update_performance_rpm.
    assert (Hg : gearbox (update_performance pow (accelerate_pedal e)) = gearbox e)
      by (rewrite update_performance_gearbox; apply accelerate_pedal_gearbox).
    assert (Hf : final_drive_ratio (update_performance pow (accelerate_pedal e)) =
                 final_drive_ratio e)
      by (rewrite update_performance_final_drive_ratio; unfold accelerate_pedal;
          cbv zeta; break_branches; reflexivity).
    assert (Hw : wheel_radius (update_performance pow (accelerate_pedal e)) =
                 wheel_radius e)
      by (rewrite update_performance_wheel_radius; unfold accelerate_pedal;
          cbv zeta; break_branches; reflexivity).
    revert Hr Hg Hf Hw.
    generalize (update_performance pow (accelerate_pedal e)).
    generalize (rpm (accelerate_pedal e)).
    intros r x Hr Hg Hf Hw. unfold update_vehicle_speed.
    cbn [vehicle_speed set_vehicle_speed]. rewrite Hr, Hg, Hf, Hw. reflexivity.
  - unfold decelerate. cbv zeta.
    assert (H : forall x, vehicle_speed (decelerate_shift x) = vehicle_speed x)
      by (intros x; unfold decelerate_shift; break_branches; reflexivity).
    rewrite H. clear H.
    assert (Hr : rpm (update_performance pow (decelerate_pedal e)) =
                 rpm (decelerate_pedal e)) by apply update_performance_rpm.
    assert (Hg : gearbox (update_performance pow (decelerate_pedal e)) = gearbox e)
      by (rewrite update_performance_gearbox; apply decelerate_pedal_gearbox).
    assert (Hf : final_drive_ratio (update_performance pow (decelerate_pedal e)) =
                 final_drive_ratio e)
      by (rewrite update_performance_final_drive_ratio; unfold decelerate_pedal;
          cbv zeta; break_branches; reflexivity).
    assert (Hw : wheel_radius (update_performance pow (decelerate_pedal e)) =
                 wheel_radius e)
      by (rewrite update_performance_wheel_radius; unfold decelerate_pedal;
          cbv zeta; break_branches; reflexivity).
    revert Hr Hg Hf Hw.
    generalize (update_performance pow (decelerate_pedal e)).
    generalize (rpm (decelerate_pedal e)).
    intros r x Hr Hg Hf Hw. unfold update_vehicle_speed.
    cbn [vehicle_speed set_vehicle_speed]. rewrite Hr, Hg, Hf, Hw. reflexivity.
Qed.

(** X15.  A tick changes the gear only in Automatic mode and only under
    one of its two rules: in Manual mode, or when the rpm after
    integration is neither above 4000 below gear 5 nor under 2000 above
    gear 1, the gearbox after the tick is the one before and the rpm is
    the re-clamped integrated rpm. *)
Theorem tick_keeps_gear (dt : Q) (r1 r2 : Z) (e : t) :
  transmission_mode e = Manual \/
  (~ (4000 < rpm (integrate dt r1 e) /\
      (Gearbox.get_current_gear (gearbox e) < 5)%Z) /\
   ~ (rpm (integrate dt r1 e) < 2000 /\
      (Gearbox.get_current_gear (gearbox e) > 1)%Z)) ->
  gearbox (fst (update_dynamics pow dt r1 r2 e)) = gearbox e /\
  rpm (fst (update_dynamics pow dt r1 r2 e)) =
    std_max (idle_rpm e) (std_min (max_rpm e) (rpm (integrate dt r1 e))).
Proof.
  intros H.
  rewrite update_dynamics_gearbox, update_dynamics_rpm.
  pose proof (random_water_injection_transmission_mode pow r2 (integrate dt r1 e))
    as Hm.
  pose proof (random_water_injection_rpm pow r2 (integrate dt r1 e)) as Hr.
  pose proof (random_water_injection_gearbox pow r2 (integrate dt r1 e)) as Hg.
  rewrite integrate_transmission_mode in Hm. rewrite integrate_gearbox in Hg.
  revert Hm Hr Hg.
  generalize (fst (random_water_injection pow r2 (integrate dt r1 e))).
  intros m Hm Hr Hg.
  rewrite (automatic_shift_idle m).
  - rewrite Hg, Hr. split; reflexivity.
  - rewrite Hm, Hr, Hg. exact H.
Qed.

Lemma update_gear_shift_message_expired (dt : Q) (g : Z) (x : t) :
  expired_is_empty x -> expired_is_empty (update_gear_shift_message dt g x).
Proof.
  unfold expired_is_empty, update_gear_shift_message. intros H.
  destruct (negb (Gearbox.get_current_gear (gearbox x) =? g)%Z).
  - cbv zeta. members. intros Hle. exfalso. revert Hle. vm_compute. tauto.
  - destruct (Qltb_spec 0 (gear_shift_message_timer x)) as [Hpos | Hnpos].
    + cbv zeta. members.
      destruct (Qle_bool (gear_shift_message_timer x - dt) 0) eqn:Hb; members.
      * reflexivity.
      * intros Hle. apply Qle_bool_iff in Hle. congruence.
    + exact H.
Qed.

Lemma manual_upshift_expired (e : t) :
  expired_is_empty e -> expired_is_empty (manual_upshift e).
Proof.
  unfold expired_is_empty, manual_upshift. intros H.
  break_branches; cbv zeta; members; try exact H;
    intros Hle; exfalso; revert Hle; vm_compute; tauto.
Qed.

Lemma manual_downshift_expired (e : t) :
  expired_is_empty e -> expired_is_empty (manual_downshift e).
Proof.
  unfold expired_is_empty, manual_downshift. intros H.
  break_branches; cbv zeta; members; try exact H;
    intros Hle; exfalso; revert Hle; vm_compute; tauto.
Qed.

Lemma update_dynamics_notification (dt : Q) (r1 r2 : Z) (e : t) :
  expired_is_empty e -> expired_is_empty (fst (update_dynamics pow dt r1 r2 e)).
Proof.
  intros H. rewrite update_dynamics_unfold. cbv zeta.
  apply update_gear_shift_message_expired.
  unfold expired_is_empty. autorewrite with frame. members.
  autorewrite with frame. exact H.
Qed.

Lemma pedals_do_not_notify_aux (e : t) :
  gear_shift_message (accelerate pow e) = gear_shift_message e /\
  gear_shift_message_timer (accelerate pow e) = gear_shift_message_timer e /\
  gear_shift_message (decelerate pow e) = gear_shift_message e /\
  gear_shift_message_timer (decelerate pow e) = gear_shift_message_timer e.
Proof.
  unfold accelerate, decelerate. cbv zeta.
  autorewrite with frame. repeat split; reflexivity.
Qed.

(** X16.  The pedal commands never touch the notification or the
    transmission mode: a gear change made by [accelerate] or [decelerate]
    is not announced. *)
Theorem pedals_do_not_notify (e : t) :
  gear_shift_message (accelerate pow e) = gear_shift_message e /\
  gear_shift_message_timer (accelerate pow e) = gear_shift_message_timer e /\
  transmission_mode (accelerate pow e) = transmission_mode e /\
  gear_shift_message (decelerate pow e) = gear_shift_message e /\
  gear_shift_message_timer (decelerate pow e) = gear_shift_message_timer e /\
  transmission_mode (decelerate pow e) = transmission_mode e.
Proof.
  unfold accelerate, decelerate. cbv zeta.
  autorewrite with frame. repeat split; reflexivity.
Qed.

Lemma perform_expired (c : Call) (e : t) :
  expired_is_empty e -> expired_is_empty (fst (perform pow c e)).
Proof.
  intros H. destruct c; cbn [perform fst].
  - now apply update_dynamics_notification.
  - unfold apply_upgrade. break_branches; cbn [fst]; [ | exact H ].
    unfold expired_is_empty. autorewrite with frame. members. exact H.
  - unfold toggle_water_injection. cbn [fst].
    unfold expired_is_empty. autorewrite with frame. members. exact H.
  - unfold expired_is_empty.
    destruct (pedals_do_not_notify_aux e) as (-> & -> & _). exact H.
  - unfold expired_is_empty.
    destruct (pedals_do_not_notify_aux e) as (_ & _ & -> & ->). exact H.
  - exact H.
  - now apply manual_upshift_expired.
  - now apply manual_downshift_expired.
  - unfold handle_input. break_branches; cbn [fst];
      auto using manual_upshift_expired, manual_downshift_expired.
Qed.

(** X17.  In every state reached from the constructor a notification
    whose timer has run out is empty, so the test of line 331 (message
    not empty and timer positive) draws the notification exactly when the
    message is not empty. *)
Theorem notification_shown_iff_message (cs : list Call) :
  notification_shown (run pow cs (make pow)) =
    negb (String.eqb (gear_shift_message (run pow cs (make pow))) "").
Proof.
  assert (H : expired_is_empty (run pow cs (make pow))).
  { assert (H0 : expired_is_empty (make pow)) by (intros _; reflexivity).
    revert H0. generalize (make pow). unfold run.
    induction cs as [| c cs IH]; intros e H; cbn [fold_left].
    - exact H.
    - apply IH. now apply perform_expired. }
  revert H. generalize (run pow cs (make pow)). intros e H.
  unfold notification_shown, expired_is_empty in *.
  destruct (String.eqb_spec (gear_shift_message e) "") as [Hempty | Hfull];
    cbn [negb andb]; [ reflexivity | ].
  destruct (Qltb_spec 0 (gear_shift_message_timer e)) as [Hpos | Hnpos];
    [ reflexivity | ].
  exfalso. apply Hfull, H. lra.
Qed.

End AroundTick.

(** The theorem on the constructed engine in Manual mode at 4200 rpm: the
    tick leaves the gearbox alone. *)
Lemma tick_keeps_gear_witness :
  gearbox
    (fst (update_dynamics pow_sample 0 100 500
            (set_transmission_mode Manual (set_rpm 4200 (make pow_sample))))) =
  gearbox (set_transmission_mode Manual (set_rpm 4200 (make pow_sample))).
Proof.
  apply (tick_keeps_gear pow_sample 0 100 500
           (set_transmission_mode Manual (set_rpm 4200 (make pow_sample)))).
  left. reflexivity.
Defined.

(** X18.  Toggling the transmission mode twice gives the engine back;
    each toggle changes the mode, writes no other member, and reports the
    mode it switched to. *)
Theorem toggle_transmission_mode_twice (e : t) :
  fst (toggle_transmission_mode (fst (toggle_transmission_mode e))) = e /\
  transmission_mode (fst (toggle_transmission_mode e)) <> transmission_mode e /\
  fst (toggle_transmission_mode e) =
    set_transmission_mode (transmission_mode (fst (toggle_transmission_mode e))) e /\
  snd (toggle_transmission_mode e) =
    [String.append "Transmission mode switched to "
       (match transmission_mode e with
        | Automatic => "Manual"
        | Manual => "Automatic"
        end)%string].
Proof.
  destruct e.
  match goal with m : TransmissionMode |- _ => destruct m end;
    (split; [ reflexivity | split; [ discriminate | split; reflexivity ] ]).
Qed.

(** ** The frame clock *)

Lemma calculate_fps_frame_times (now : Q) (e : t) :
  (length (frame_times e) <= 60)%nat ->
  frame_times (snd (calculate_fps now e)) =
    window (frame_times e ++ [now - last_frame_time e]) /\
  last_frame_time (snd (calculate_fps now e)) = now.
Proof.
  intros Hlen. unfold calculate_fps. cbv zeta. cbn [snd].
  cbn [frame_times set_frame_times set_last_frame_time last_frame_time].
  unfold window.
  generalize (now - last_frame_time e). intros d.
  rewrite length_app. cbn [length].
  destruct (Z.gtb_spec (Z.of_nat (length (frame_times e) + 1)) 60) as [Hgt | Hle].
  - cbn [frame_times set_frame_times last_frame_time].
    replace (length (frame_times e) + 1 - 60)%nat with 1%nat by lia.
    split; reflexivity.
  - cbn [frame_times set_frame_times set_last_frame_time last_frame_time].
    replace (length (frame_times e) + 1 - 60)%nat with 0%nat by lia.
    split; reflexivity.
Qed.

Lemma window_length (l : list Q) : (length (window l) <= 60)%nat.
Proof. unfold window. rewrite length_skipn. lia. Qed.

Lemma window_app (l r : list Q) : window (window l ++ r) = window (l ++ r).
Proof.
  unfold window. rewrite !length_app, length_skipn.
  destruct (Nat.le_gt_cases 60 (length l)) as [Hge | Hlt].
  - replace (length l - (length l - 60) + length r - 60)%nat
      with (length r) by lia.
    replace (length l + length r - 60)%nat
      with ((length l - 60) + length r)%nat by lia.
    rewrite !skipn_app, length_skipn.
    replace (length r - (length l - (length l - 60)))%nat
      with (length r - 60)%nat by lia.
    replace (length l - 60 + length r - length l)%nat
      with (length r - 60)%nat by lia.
    f_equal.
    rewrite skipn_skipn. f_equal. lia.
  - replace (length l - 60)%nat with 0%nat by lia. cbn [skipn].
    replace (length l - 0 + length r - 60)%nat
      with (length l + length r - 60)%nat by lia.
    reflexivity.
Qed.

(** X19.  [frame_times] is a sliding window: started with at most 60
    entries, after any number of calls of [calculate_fps] it holds the
    last 60 of the entries it had followed by the durations between the
    successive clock readings, the oldest first, never more than 60. *)
Theorem frame_times_window (ts : list Q) (e : t) :
  (length (frame_times e) <= 60)%nat ->
  frame_times (clock_run ts e) =
    window (frame_times e ++ durations (last_frame_time e) ts) /\
  (length (frame_times (clock_run ts e)) <= 60)%nat.
Proof.
  revert e. induction ts as [| now ts IH]; intros e Hlen; cbn [clock_run durations].
  - rewrite app_nil_r. unfold window.
    replace (length (frame_times e) - 60)%nat with 0%nat by lia.
    split; [ reflexivity | exact Hlen ].
  - destruct (calculate_fps_frame_times now e Hlen) as [Hft Hlast].
    destruct (IH (snd (calculate_fps now e))) as [Hwin Hle].
    + rewrite Hft. apply window_length.
    + split; [ | exact Hle ].
      rewrite Hwin, Hft, Hlast, window_app, <- app_assoc. reflexivity.
Qed.

(** The theorem on an engine with an empty queue and three readings. *)
Lemma frame_times_window_witness :
  frame_times (clock_run [16; 33; 50] (make pow_sample)) = [16 - 0; 33 - 16; 50 - 33].
Proof.
  destruct (frame_times_window [16; 33; 50] (make pow_sample)) as [H _].
  - cbn. lia.
  - rewrite H. reflexivity.
Defined.




(** ** One iteration of the main loop *)

Lemma clocked_members (now f : Q) (x : t) :
  rpm (set_current_fps f (snd (calculate_fps now x))) = rpm x /\
  idle_rpm (set_current_fps f (snd (calculate_fps now x))) = idle_rpm x /\
  max_rpm (set_current_fps f (snd (calculate_fps now x))) = max_rpm x /\
  jerk (set_current_fps f (snd (calculate_fps now x))) = jerk x /\
  acceleration (set_current_fps f (snd (calculate_fps now x))) = acceleration x /\
  volumetric_efficiency (set_current_fps f (snd (calculate_fps now x))) =
    volumetric_efficiency x /\
  frame_times (set_current_fps f (snd (calculate_fps now x))) =
    frame_times (snd (calculate_fps now x)) /\
  last_frame_time (set_current_fps f (snd (calculate_fps now x))) = now.
Proof.
  unfold calculate_fps. cbv zeta. cbn [snd].
  destruct (Z.of_nat _ >? 60)%Z; repeat split; reflexivity.
Qed.

Section MainLoop.

Variable pow : Q -> Q -> Q.

Lemma frame_unfold (input : ascii) (elapsed : Q) (r1 r2 : Z) (now : Q) (e : t) :
  frame pow input elapsed r1 r2 now e =
    set_current_fps
      (fst (calculate_fps now
              (fst (update_dynamics pow elapsed r1 r2 (fst (handle_input input e))))))
      (snd (calculate_fps now
              (fst (update_dynamics pow elapsed r1 r2 (fst (handle_input input e)))))).
Proof.
  unfold frame. cbv zeta.
  destruct (calculate_fps now
              (fst (update_dynamics pow elapsed r1 r2 (fst (handle_input input e))))).
  reflexivity.
Qed.

(** X21.  One iteration of the loop of [run_simulation] ends, whatever
    the key, the elapsed time and the draws, with the rpm between the
    limits, the jerk in [[-500, 500]], the acceleration in [[-50, 50]] (the
    keys a and d move it by 10 before the tick clamps it), the volumetric
    efficiency in [[0.7, 1.0]], the clock reading stored, and no more than
    60 frame durations kept. *)
Theorem frame_keeps_ranges
    (input : ascii) (elapsed : Q) (r1 r2 : Z) (now : Q) (e : t) :
  idle_rpm e <= max_rpm e ->
  (length (frame_times e) <= 60)%nat ->
  idle_rpm (frame pow input elapsed r1 r2 now e) <=
    rpm (frame pow input elapsed r1 r2 now e) /\
  rpm (frame pow input elapsed r1 r2 now e) <=
    max_rpm (frame pow input elapsed r1 r2 now e) /\
  -500 <= jerk (frame pow input elapsed r1 r2 now e) /\
  jerk (frame pow input elapsed r1 r2 now e) <= 500 /\
  -50 <= acceleration (frame pow input elapsed r1 r2 now e) /\
  acceleration (frame pow input elapsed r1 r2 now e) <= 50 /\
  0.7 <= volumetric_efficiency (frame pow input elapsed r1 r2 now e) /\
  volumetric_efficiency (frame pow input elapsed r1 r2 now e) <= 1.0 /\
  last_frame_time (frame pow input elapsed r1 r2 now e) = now /\
  (length (frame_times (frame pow input elapsed r1 r2 now e)) <= 60)%nat.
Proof.
  intros Hlim Hlen. rewrite frame_unfold.
  destruct (perform_limits pow (HandleInput input) e) as [Hi Hm].
  cbn [perform] in Hi, Hm.
  assert (Hlim' : idle_rpm (fst (handle_input input e)) <=
                  max_rpm (fst (handle_input input e)))
    by (rewrite Hi, Hm; exact Hlim).
  assert (Hq : frame_times (fst (handle_input input e)) = frame_times e).
  { unfold handle_input. break_branches; cbn [fst]; try reflexivity.
    - unfold manual_upshift. break_branches; reflexivity.
    - unfold manual_downshift. break_branches; reflexivity. }
  revert Hlim' Hq. generalize (fst (handle_input input e)). clear Hi Hm.
  intros k Hk Hq.
  pose proof (update_dynamics_rpm pow elapsed r1 r2 k) as Hr.
  pose proof (update_dynamics_idle_rpm pow elapsed r1 r2 k) as Hi.
  pose proof (update_dynamics_max_rpm pow elapsed r1 r2 k) as Hm.
  pose proof (jerk_and_acceleration_after_tick pow elapsed r1 r2 k) as Hja.
  pose proof (update_dynamics_volumetric_efficiency_bounds pow elapsed r1 r2 k)
    as Hv.
  assert (Hft : frame_times (fst (update_dynamics pow elapsed r1 r2 k)) =
                frame_times k).
  { rewrite update_dynamics_unfold. cbv zeta. autorewrite with frame.
    members. autorewrite with frame. reflexivity. }
  destruct (clamp_bounds (idle_rpm k) (max_rpm k)
              (rpm (automatic_shift
                      (fst (random_water_injection pow r2 (integrate elapsed r1 k)))))
              Hk) as [Hlo Hhi].
  rewrite <- Hr in Hlo, Hhi. clear Hr.
  rewrite <- Hi in Hlo. rewrite <- Hm in Hhi. clear Hi Hm.
  rewrite Hq in Hft. clear Hq Hk.
  revert Hlo Hhi Hja Hv Hft.
  generalize (fst (update_dynamics pow elapsed r1 r2 k)).
  intros x Hlo Hhi Hja Hv Hft.
  destruct (clocked_members now (fst (calculate_fps now x)) x)
    as (-> & -> & -> & -> & -> & -> & -> & ->).
  destruct Hja as (? & ? & ? & ?). destruct Hv.
  repeat split; try assumption.
  destruct (calculate_fps_frame_times now x) as [-> _].
  - rewrite Hft. exact Hlen.
  - apply window_length.
Qed.

End MainLoop.

(** The theorem on the constructed engine, the key a, a frame of 1/60 s. *)
Lemma frame_keeps_ranges_witness :
  acceleration (frame pow_sample "a" (1 # 60) 100 500 17 (make pow_sample)) <= 50.
Proof.
  destruct (frame_keeps_ranges pow_sample "a" (1 # 60) 100 500 17 (make pow_sample))
    as (_ & _ & _ & _ & _ & H & _).
  - vm_compute. discriminate.
  - cbn. lia.
  - exact H.
Defined.

(** ** Start-up *)

Lemma active_constructed (pow : Q -> Q -> Q) (u : string) :
  active u (upgrades (make pow)) = false.
Proof.
  change (upgrades (make pow))
    with [ ("advanced_materials", false); ("ceramic_coating", false);
           ("cylinder_deactivation", false); ("direct_injection", false);
           ("enhanced_ecu", false); ("exhaust_gas_recirculation", false);
           ("smart_cooling", false); ("turbocharger", false);
           ("variable_compression", false); ("variable_valve_timing", false);
           ("waste_heat_recovery", false) ]%string.
  unfold active. cbn [StdMap.find].
  repeat (destruct (String.eqb u _); [ reflexivity | ]).
  reflexivity.
Qed.

Lemma active_assign_other (m : StdMap.t) (u v : string) :
  StdMap.keys m = known_upgrades -> In u known_upgrades -> v <> u ->
  active v (StdMap.assign u true m) = active v m.
Proof.
  intros Hk Hu Hne. unfold active.
  now rewrite (find_assign_other m u v true Hk Hu Hne).
Qed.

Section StartUp.

Variable pow : Q -> Q -> Q.

Lemma apply_drawn_upgrades_flags (us : list string) (draws : list Z) (e : t) :
  registered e -> Forall (fun u => In u known_upgrades) us ->
  registered (fst (apply_drawn_upgrades pow us draws e)) /\
  (forall u, active u (upgrades (fst (apply_drawn_upgrades pow us draws e))) =
             (active u (upgrades e) || drawn us draws u)%bool) /\
  snd (apply_drawn_upgrades pow us draws e) =
    map (fun u => String.append u " applied") (selected us draws).
Proof.
  revert draws e. induction us as [| a us IH]; intros draws e Hreg Hall.
  - cbn. repeat split; [ exact Hreg | intros u; now rewrite orb_false_r ].
  - destruct draws as [| d draws].
    + cbn. repeat split; [ exact Hreg | intros u; now rewrite orb_false_r ].
    + inversion Hall as [| ? ? Ha Hus]; subst.
      cbn [apply_drawn_upgrades selected]. unfold drawn. cbn [selected].
      destruct (negb (d =? 0)%Z).
      * rewrite (apply_upgrade_registered pow a e Hreg Ha).
        assert (Hreg1 : registered
                  (update_performance pow
                     (set_upgrades (StdMap.assign a true (upgrades e)) e))).
        { unfold registered. rewrite update_performance_upgrades.
          apply assign_keys; assumption. }
        assert (Hflags : upgrades
                  (update_performance pow
                     (set_upgrades (StdMap.assign a true (upgrades e)) e)) =
                  StdMap.assign a true (upgrades e))
          by (rewrite update_performance_upgrades; reflexivity).
        revert Hreg1 Hflags.
        generalize (update_performance pow
                      (set_upgrades (StdMap.assign a true (upgrades e)) e)).
        intros e1 Hreg1 Hflags.
        destruct (IH draws e1 Hreg1 Hus) as (Hr & Hf & Ho).
        destruct (apply_drawn_upgrades pow us draws e1) as [e2 out2].
        cbn [fst snd] in *.
        split; [ exact Hr | split ].
        -- intros u. rewrite Hf, Hflags. cbn [existsb].
           fold (drawn us draws u).
           destruct (String.eqb_spec u a) as [-> | Hne].
           ++ rewrite (active_assign _ _ Hreg Ha). cbn.
              now rewrite orb_true_r.
           ++ rewrite (active_assign_other _ _ _ Hreg Ha Hne). reflexivity.
        -- cbn [map app]. now rewrite Ho.
      * apply IH; assumption.
Qed.

(** X22.  After the start-up loop of [main] the flags mirror the draws:
    an upgrade is active exactly when its draw was not zero; the map still
    holds the eleven registered keys; and one line "... applied" was
    written per selected upgrade, in the order of [available_upgrades]. *)
Theorem startup_flags_mirror_draws (draws : list Z) :
  StdMap.keys
    (upgrades (fst (apply_drawn_upgrades pow available_upgrades draws (make pow)))) =
    known_upgrades /\
  (forall u,
     active u
       (upgrades (fst (apply_drawn_upgrades pow available_upgrades draws (make pow)))) =
     drawn available_upgrades draws u) /\
  snd (apply_drawn_upgrades pow available_upgrades draws (make pow)) =
    map (fun u => String.append u " applied") (selected available_upgrades draws).
Proof.
  destruct (apply_drawn_upgrades_flags available_upgrades draws (make pow))
    as (Hr & Hf & Ho).
  - reflexivity.
  - unfold available_upgrades, known_upgrades.
    repeat (constructor; [ cbn [In]; tauto | ]). constructor.
  - split; [ exact Hr | split; [ | exact Ho ] ].
    intros u. rewrite Hf, active_constructed. reflexivity.
Qed.

End StartUp.

(** ** What the recomputation writes, and what it never divides by *)

Lemma temperature_drop_nonnegative (u : string) :
  0 <= temperature_drop (documented_effect u).
Proof.
  unfold documented_effect.
  repeat (destruct (String.eqb u _); [ cbn; lra | ]).
  cbn. lra.
Qed.

Lemma total_drop_nonnegative (m : StdMap.t) : 0 <= total_drop m.
Proof.
  induction m as [| [u b] m IH]; cbn [total_drop]; [ lra | ].
  pose proof (temperature_drop_nonnegative u).
  destruct b; lra.
Qed.

Section Recomputed.

Variable pow : Q -> Q -> Q.

(** X23.  [update_performance] writes the twelve performance members
    (displacement, rod/stroke ratio, piston speed, power, torque, thermal
    and volumetric efficiency, fuel consumption, BSFC, CO2, NOx,
    temperature) and nothing else; the loop over the upgrades writes six
    of them (power, thermal and volumetric efficiency, temperature, fuel
    consumption, NOx) and nothing else, whatever the flags and keys of the
    map. *)
Theorem update_performance_writes (l : StdMap.t) (e : t) :
  only_performance_changed e (update_performance pow e) /\
  only_tuning_changed e (apply_active_upgrades l e).
Proof.
  split; [ apply opc_update_performance | apply otc_apply_active_upgrades ].
Qed.

(** X24.  Power output, torque and displacement are recomputed from
    scratch: a second recomputation right after the first gives the same
    values (temperature and volumetric efficiency, which the closures
    update in place, need not repeat). *)
Theorem recomputation_repeats_power_and_torque (e : t) :
  power_output (update_performance pow (update_performance pow e)) ==
    power_output (update_performance pow e) /\
  torque (update_performance pow (update_performance pow e)) =
    torque (update_performance pow e) /\
  displacement (update_performance pow (update_performance pow e)) =
    displacement (update_performance pow e).
Proof.
  pose proof (opc_update_performance pow e) as Hopc.
  pose proof (base_power_frame pow _ _ Hopc) as Hbase.
  pose proof (update_performance_upgrades pow e) as Hflags.
  pose proof (update_performance_rpm pow e) as Hrpm.
  pose proof (update_performance_power_output pow e) as Hp.
  pose proof (update_performance_torque pow e) as Ht.
  assert (Hd : forall x, displacement (update_performance pow x) =
                         displacement (calculate_displacement pow x)).
  { intros x. rewrite update_performance_stages.
    destruct (finish_structure (upgraded pow x)) as (-> & _).
    unfold upgraded.
    destruct (otc_structure _ _
                (otc_apply_active_upgrades
                   (upgrades (base_metrics pow x)) (base_metrics pow x)))
      as (-> & _).
    reflexivity. }
  assert (Hd2 : displacement (calculate_displacement pow (update_performance pow e))
                = displacement (calculate_displacement pow e)).
  { revert Hopc. generalize (update_performance pow e).
    intros x (? & ? & ? & ? & ? & ? & ? & ? & ? & ? & ? & ? & ->). reflexivity. }
  split; [ | split ].
  - rewrite (update_performance_power_output pow (update_performance pow e)).
    rewrite Hbase, Hflags, Hp. reflexivity.
  - rewrite (update_performance_torque pow (update_performance pow e)).
    rewrite Hbase, Hrpm, Ht. reflexivity.
  - rewrite (Hd (update_performance pow e)), Hd2, (Hd e). reflexivity.
Qed.

Lemma update_performance_temperature_le (e : t) :
  engine_temperature (update_performance pow e) <= engine_temperature e.
Proof.
  rewrite update_performance_engine_temperature.
  pose proof (total_drop_nonnegative (upgrades e)). lra.
Qed.

Lemma accelerate_pedal_temperature_le (e : t) :
  engine_temperature (accelerate_pedal e) <= 110.
Proof.
  rewrite accelerate_pedal_engine_temperature.
  match goal with
  | |- (if Qltb 110 ?x then _ else _) <= _ => destruct (Qltb_spec 110 x)
  end; lra.
Qed.

Lemma decelerate_pedal_temperature_le (e : t) :
  engine_temperature e <= 110 -> engine_temperature (decelerate_pedal e) <= 110.
Proof.
  intros H. rewrite decelerate_pedal_engine_temperature.
  pose proof (std_max_lb_l 0.0 (0.2 * ((engine_temperature e - 90) / 100))) as Hs.
  revert Hs. generalize (std_max 0.0 (0.2 * ((engine_temperature e - 90) / 100))).
  intros s Hs.
  destruct (Qltb_spec (engine_temperature e - s) 85); lra.
Qed.

Lemma perform_temperature_le (c : Call) (e : t) :
  engine_temperature e <= 110 ->
  engine_temperature (fst (perform pow c e)) <= 110.
Proof.
  intros H. destruct c; cbn [perform fst].
  - rewrite update_dynamics_engine_temperature.
    destruct (integrate_engine_temperature_bounds dt r1 e) as [_ Hhi].
    pose proof (total_drop_nonnegative (upgrades e)) as Hd.
    revert Hhi Hd. generalize (engine_temperature (integrate dt r1 e)).
    generalize (total_drop (upgrades e)). intros d T0 Hhi Hd.
    destruct (Z.rem r2 1000 <? 5)%Z; lra.
  - unfold apply_upgrade. break_branches; cbn [fst]; [ | exact H ].
    eapply Qle_trans; [ apply update_performance_temperature_le | ].
    members. exact H.
  - unfold toggle_water_injection. cbn [fst].
    eapply Qle_trans; [ apply update_performance_temperature_le | ].
    members. exact H.
  - unfold accelerate. cbv zeta. autorewrite with frame.
    eapply Qle_trans; [ apply update_performance_temperature_le | ].
    apply accelerate_pedal_temperature_le.
  - unfold decelerate. cbv zeta. autorewrite with frame.
    eapply Qle_trans; [ apply update_performance_temperature_le | ].
    now apply decelerate_pedal_temperature_le.
  - exact H.
  - rewrite manual_upshift_engine_temperature. exact H.
  - rewrite manual_downshift_engine_temperature. exact H.
  - unfold handle_input. break_branches; cbn [fst]; autorewrite with frame;
      members; exact H.
Qed.

(** X25.  The temperature never exceeds 110, in any state reached from
    the constructor: the pedal, the tick and the recomputation can only
    cap or lower it. *)
Theorem temperature_never_above_110 (cs : list Call) :
  engine_temperature (run pow cs (make pow)) <= 110.
Proof.
  assert (H0 : engine_temperature (make pow) <= 110)
    by (vm_compute; discriminate).
  revert H0. generalize (make pow). unfold run.
  induction cs as [| c cs IH]; intros e H; cbn [fold_left].
  - exact H.
  - apply IH. now apply perform_temperature_le.
Qed.

Lemma perform_final_drive_ratio (c : Call) (e : t) :
  final_drive_ratio (fst (perform pow c e)) = final_drive_ratio e.
Proof.
  destruct c; cbn [perform fst].
  - rewrite update_dynamics_unfold. cbv zeta. autorewrite with frame.
    members. autorewrite with frame. reflexivity.
  - unfold apply_upgrade. break_branches; cbn [fst]; autorewrite with frame;
      members; reflexivity.
  - unfold toggle_water_injection. cbn [fst]. autorewrite with frame.
    members. reflexivity.
  - unfold accelerate. cbv zeta.
    assert (H : forall x, final_drive_ratio (accelerate_shift x) =
                          final_drive_ratio x)
      by (intros x; unfold accelerate_shift; break_branches; reflexivity).
    rewrite H. autorewrite with frame.
    unfold accelerate_pedal. cbv zeta. break_branches; reflexivity.
  - unfold decelerate. cbv zeta.
    assert (H : forall x, final_drive_ratio (decelerate_shift x) =
                          final_drive_ratio x)
      by (intros x; unfold decelerate_shift; break_branches; reflexivity).
    rewrite H. autorewrite with frame.
    unfold decelerate_pedal. cbv zeta. break_branches; reflexivity.
  - reflexivity.
  - unfold manual_upshift. break_branches; reflexivity.
  - unfold manual_downshift. break_branches; reflexivity.
  - unfold handle_input. break_branches; cbn [fst]; try reflexivity.
    + unfold manual_upshift. break_branches; reflexivity.
    + unfold manual_downshift. break_branches; reflexivity.
Qed.

(** X26.  In every state reached from the constructor the two divisors
    that depend on the state are positive: the gear ratio times the final
    drive ratio in [update_vehicle_speed], and [2 * PI * rpm] in
    [calculate_torque]. *)
Theorem speed_and_torque_divisors_positive (cs : list Call) :
  0 < Gearbox.get_current_ratio (gearbox (run pow cs (make pow)))
      * final_drive_ratio (run pow cs (make pow)) /\
  0 < 2 * PI * rpm (run pow cs (make pow)).
Proof.
  assert (Hfd : final_drive_ratio (run pow cs (make pow)) = 3.73).
  { assert (H0 : final_drive_ratio (make pow) = 3.73) by reflexivity.
    revert H0. generalize (make pow). unfold run.
    induction cs as [| c cs IH]; intros e H; cbn [fold_left].
    - exact H.
    - apply IH. now rewrite perform_final_drive_ratio. }
  assert (Hlim : within_limits (run pow cs (make pow))).
  { apply run_within_limits. unfold within_limits.
    repeat split; vm_compute; discriminate. }
  pose proof (run_five_speed pow cs (make pow) (five_speed_constructed pow)) as Hg.
  destruct (five_speed_ratio _ Hg) as (_ & Hlo & _).
  destruct Hlim as (_ & _ & Hr & _).
  rewrite Hfd.
  revert Hlo Hr.
  generalize (Gearbox.get_current_ratio (gearbox (run pow cs (make pow)))).
  generalize (rpm (run pow cs (make pow))).
  intros r g Hlo Hr. unfold PI. split; nra.
Qed.

End Recomputed.

(** ** Volumetric efficiency along runs with the turbocharger *)

Section Turbocharger.

Variable pow : Q -> Q -> Q.

(** A call leaves the flags and the volumetric efficiency alone, or
    recomputes the efficiency once or twice under the flags it leaves. *)
Lemma perform_volumetric_efficiency_recomputed (c : Call) (e : t) :
  (upgrades (fst (perform pow c e)) = upgrades e /\
   volumetric_efficiency (fst (perform pow c e)) == volumetric_efficiency e) \/
  volumetric_efficiency (fst (perform pow c e)) ==
    recomputed_volumetric_efficiency (upgrades (fst (perform pow c e)))
      (volumetric_efficiency e) \/
  volumetric_efficiency (fst (perform pow c e)) ==
    recomputed_volumetric_efficiency (upgrades (fst (perform pow c e)))
      (recomputed_volumetric_efficiency (upgrades (fst (perform pow c e)))
         (volumetric_efficiency e)).
Proof.
  destruct c; cbn [perform fst].
  - rewrite update_dynamics_upgrades.
    pose proof (update_dynamics_volumetric_efficiency pow dt r1 r2 e) as H.
    destruct (Z.rem r2 1000 <? 5)%Z; [ right; right | right; left ]; exact H.
  - unfold apply_upgrade.
    destruct (StdMap.count upgrade (upgrades e) >? 0)%Z; cbn [fst].
    + right; left.
      rewrite update_performance_upgrades.
      etransitivity; [ apply update_performance_volumetric_efficiency | ].
      members. reflexivity.
    + left. split; reflexivity.
  - right; left. unfold toggle_water_injection. cbn [fst].
    rewrite update_performance_upgrades.
    etransitivity; [ apply update_performance_volumetric_efficiency | ].
    members. reflexivity.
  - right; left. unfold accelerate. cbv zeta. autorewrite with frame.
    etransitivity; [ apply update_performance_volumetric_efficiency | ].
    autorewrite with frame. reflexivity.
  - right; left. unfold decelerate. cbv zeta. autorewrite with frame.
    etransitivity; [ apply update_performance_volumetric_efficiency | ].
    autorewrite with frame. reflexivity.
  - left. split; reflexivity.
  - left. rewrite manual_upshift_upgrades, manual_upshift_volumetric_efficiency.
    split; reflexivity.
  - left. rewrite manual_downshift_upgrades, manual_downshift_volumetric_efficiency.
    split; reflexivity.
  - left. unfold handle_input. break_branches; cbn [fst];
      autorewrite with frame; members; split; reflexivity.
Qed.

Lemma perform_saturated_under_turbocharger (c : Call) (e : t) :
  saturated_under_turbocharger e ->
  saturated_under_turbocharger (fst (perform pow c e)) /\
  volumetric_efficiency e <= volumetric_efficiency (fst (perform pow c e)).
Proof.
  intros (Hreg & Hlo & Hhi & Hsat).
  pose proof (perform_registered pow c e Hreg) as Hreg'.
  unfold saturated_under_turbocharger.
  pose proof (perform_volumetric_efficiency_recomputed c e) as H.
  revert Hreg' H. generalize (fst (perform pow c e)).
  intros e' Hreg' [[Hu Hv] | [Hv | Hv]].
  - rewrite Hu, Hv.
    repeat split; [ exact Hreg' | exact Hlo | exact Hhi | exact Hsat | lra ].
  - destruct (recomputed_volumetric_efficiency_monotone (upgrades e')
                (volumetric_efficiency e) Hreg' ltac:(lra)) as [H1 H2].
    rewrite Hv.
    repeat split; [ exact Hreg' | lra | lra | | lra ].
    intros Ht.
    apply (recomputed_volumetric_efficiency_saturates (upgrades e')
             (volumetric_efficiency e) Hreg' Ht Hlo).
  - destruct (recomputed_volumetric_efficiency_monotone (upgrades e')
                (volumetric_efficiency e) Hreg' ltac:(lra)) as [H1 H2].
    destruct (recomputed_volumetric_efficiency_monotone (upgrades e')
                (recomputed_volumetric_efficiency (upgrades e')
                   (volumetric_efficiency e)) Hreg' ltac:(lra)) as [H3 H4].
    rewrite Hv.
    repeat split; [ exact Hreg' | lra | lra | | lra ].
    intros Ht.
    apply (recomputed_volumetric_efficiency_saturates (upgrades e') _ Hreg' Ht).
    lra.
Qed.

Lemma run_saturated_under_turbocharger (cs : list Call) (e : t) :
  saturated_under_turbocharger e ->
  saturated_under_turbocharger (run pow cs e).
Proof.
  revert e. unfold run. induction cs as [| c cs IH]; intros e H; cbn [fold_left].
  - exact H.
  - apply IH. now apply perform_saturated_under_turbocharger.
Qed.

Lemma make_saturated_under_turbocharger :
  saturated_under_turbocharger (make pow).
Proof.
  split; [ apply registered_make | ].
  repeat split.
  - vm_compute. discriminate.
  - vm_compute. discriminate.
  - vm_compute. discriminate.
Qed.

(** [apply_upgrade("turbocharger")] on an engine with the registered
    keys sets the flag and recomputes. *)
Lemma apply_turbocharger (e : t) :
  registered e ->
  active "turbocharger" (upgrades (fst (apply_upgrade pow "turbocharger" e))) = true /\
  volumetric_efficiency (fst (apply_upgrade pow "turbocharger" e)) ==
    std_min
      (std_max
         (volumetric_efficiency e * 1.15
          * (if active "variable_valve_timing" (upgrades e) then 1.1 else 1))
         0.7)
      1.0.
Proof.
  intros Hreg.
  assert (Hin : In "turbocharger"%string known_upgrades)
    by (cbn; tauto).
  assert (Hcount : (StdMap.count "turbocharger" (upgrades e) >? 0)%Z = true).
  { destruct (registered_entries (upgrades e) Hreg)
      as (b1 & b2 & b3 & b4 & b5 & b6 & b7 & b8 & b9 & b10 & b11 & ->).
    reflexivity. }
  unfold apply_upgrade. rewrite Hcount. cbn [fst].
  assert (Hreg' : StdMap.keys (StdMap.assign "turbocharger" true (upgrades e))
                  = known_upgrades).
  { apply assign_keys; [ exact Hreg | exact Hin ]. }
  split.
  - rewrite update_performance_upgrades. members.
    now apply active_assign.
  - etransitivity; [ apply update_performance_volumetric_efficiency | ].
    members.
    rewrite (gain_volumetric_registered _ Hreg').
    rewrite (active_assign (upgrades e) "turbocharger" Hreg Hin).
    assert (Hvvt : active "variable_valve_timing"
                     (StdMap.assign "turbocharger" true (upgrades e)) =
                   active "variable_valve_timing" (upgrades e)).
    { unfold active.
      rewrite (find_assign_other (upgrades e) "turbocharger"
                 "variable_valve_timing" true Hreg Hin); [ reflexivity | ].
      discriminate. }
    rewrite Hvvt.
    apply std_min_proper; [ | reflexivity ].
    apply std_max_proper; [ ring | reflexivity ].
Qed.

(** C10.  With the turbocharger active, every recomputation multiplies
    the stored volumetric efficiency by 1.15 (and by 1.1 more under
    variable valve timing, the only other closure that scales it) and
    clamps the product to [[0.7, 1.0]]; the stored value is the input of
    the next recomputation.  Along every run of the constructed engine,
    which starts at 0.9, no call lowers the value; the recomputation
    inside [apply_upgrade("turbocharger")] takes it to 1.0, and it is
    1.0 after every call that follows. *)
Theorem turbocharger_volumetric_efficiency (cs cs' : list Call) (c : Call) :
  (forall y : t,
     registered y -> active "turbocharger" (upgrades y) = true ->
     volumetric_efficiency (update_performance pow y) ==
       std_min
         (std_max
            (volumetric_efficiency y * 1.15
             * (if active "variable_valve_timing" (upgrades y) then 1.1 else 1))
            0.7)
         1.0) /\
  volumetric_efficiency (make pow) == 0.9 /\
  0.9 <= volumetric_efficiency (run pow cs (make pow)) /\
  volumetric_efficiency (run pow cs (make pow)) <=
    volumetric_efficiency (fst (perform pow c (run pow cs (make pow)))) /\
  volumetric_efficiency
    (fst (apply_upgrade pow "turbocharger" (run pow cs (make pow)))) == 1.0 /\
  registered
    (run pow cs' (fst (apply_upgrade pow "turbocharger" (run pow cs (make pow))))) /\
  active "turbocharger"
    (upgrades
       (run pow cs'
          (fst (apply_upgrade pow "turbocharger" (run pow cs (make pow))))))
    = true /\
  volumetric_efficiency
    (run pow cs' (fst (apply_upgrade pow "turbocharger" (run pow cs (make pow)))))
    == 1.0.
Proof.
  pose proof (run_saturated_under_turbocharger cs (make pow)
                make_saturated_under_turbocharger) as He.
  revert He. generalize (run pow cs (make pow)). intros e He.
  pose proof (perform_saturated_under_turbocharger
                (ApplyUpgrade "turbocharger") e He) as [He1 _].
  cbn [perform] in He1.
  destruct (apply_turbocharger e ltac:(apply He)) as [Ht1 _].
  pose proof (perform_saturated_under_turbocharger c e He) as [_ Hmono].
  revert He1 Ht1. generalize (fst (apply_upgrade pow "turbocharger" e)).
  intros e1 He1 Ht1.
  pose proof (run_saturated_under_turbocharger cs' e1 He1) as Hx.
  assert (Htx : active "turbocharger" (upgrades (run pow cs' e1)) = true)
    by (apply run_active; [ apply He1 | exact Ht1 ]).
  revert Hx Htx. generalize (run pow cs' e1). intros x Hx Htx.
  split; [ | split; [ | split; [ | split; [ | split; [ | split; [ | split ]]]]]].
  - intros y Hreg Hturbo.
    etransitivity; [ apply update_performance_volumetric_efficiency | ].
    rewrite (gain_volumetric_registered _ Hreg), Hturbo.
    apply std_min_proper; [ | reflexivity ].
    apply std_max_proper; [ ring | reflexivity ].
  - vm_compute. reflexivity.
  - apply He.
  - exact Hmono.
  - apply He1. exact Ht1.
  - apply Hx.
  - exact Htx.
  - apply Hx. exact Htx.
Qed.

End Turbocharger.

(** The theorem on a run of the constructed engine: the turbocharger is
    applied to the engine as built, at 0.9, and a tick follows. *)
Lemma turbocharger_volumetric_efficiency_witness :
  volumetric_efficiency (make pow_sample) == 0.9 /\
  volumetric_efficiency
    (fst (apply_upgrade pow_sample "turbocharger" (make pow_sample))) == 1.0 /\
  volumetric_efficiency
    (run pow_sample (ticks [(1 # 60, 100%Z, 500%Z)])
       (fst (apply_upgrade pow_sample "turbocharger" (make pow_sample)))) == 1.0.
Proof.
  destruct (turbocharger_volumetric_efficiency pow_sample []
              (ticks [(1 # 60, 100%Z, 500%Z)]) Accelerate)
    as (_ & H0 & _ & _ & H1 & _ & _ & H2).
  exact (conj H0 (conj H1 H2)).
Defined.
